(** * Observatory-Booking: a shallow embedding of the service layer

    The development follows the Python sources of the repository:

    - [app/utils.py]                      (the request rate limiter, the cache
                                            decorator),
    - [app/models.py]                     (tables and their constraints),
    - [app/services/weather_service.py]   (hourly rating, event weather, refresh,
                                            the forecast feed),
    - [app/services/booking_service.py]   (book / cancel),
    - [app/services/admin_service.py]     (event times, overlap checks, save,
                                            confirming an event, blocking a user),
    - [app/data_transfer_objects.py]      (the form of an event),
    - [app/routes/user_actions.py]        (the views that book and cancel).

    Conventions.
    - A [datetime] is its wall-clock reading counted in microseconds from
      an epoch that falls on a midnight, together with an optional
      [tzinfo]; a [DateTime] column holds the bare reading, and an aware
      value bound to a query against such a column is bound by its
      reading.
    - The code that computes with Python floats is written once over an
      interface of float operations, with the type of floats as a
      parameter; it is instantiated at IEEE binary64, the arithmetic of
      the program, and at exact rationals ([Q]), the arithmetic of the
      formulas. A FLOAT column keeps the number that a float denotes.
    - A table is the list of its rows in row order; [first()] is the
      first row that passes the filter.
    - Clock reads, the zone database behind [ZoneInfo] and the result of
      the HTTP fetch are inputs of the operations; where the fetch itself
      is modelled, the provider is an environment that the operations
      pass on. *)

From Stdlib Require Import ZArith QArith Qminmax Lqa Floats.
From stdpp Require Import gmap strings list fin_maps pretty.

(* ===================================================================== *)
(** * Dates and times *)
(* ===================================================================== *)

Module PyDatetime.

Open Scope Z_scope.

Definition SECOND : Z := 1000000.
Definition MINUTE : Z := 60 * SECOND.
Definition HOUR : Z := 3600 * SECOND.
Definition DAY : Z := 24 * HOUR.

(** [timedelta(days=d)] and [timedelta(hours=h)], in microseconds. *)
Definition timedelta_days (d : Z) : Z := d * DAY.
Definition timedelta_hours (h : Z) : Z := h * HOUR.

(** A time zone object: the key that tells it from the other zone objects
    (for a [ZoneInfo] its IANA key) and its offset from UTC, once as a
    function of the wall-clock reading (what [utcoffset(dt)] answers) and
    once as a function of the UTC instant (what [fromutc] adds). *)
Record tzinfo := mk_tzinfo {
  key : string;
  utcoffset : Z -> Z;
  offset_at_utc : Z -> Z
}.

(** [timezone.utc], an object of its own: [ZoneInfo("UTC")] is another. *)
Definition utc : tzinfo :=
  {| key := "datetime.timezone.utc";
     utcoffset := fun _ => 0; offset_at_utc := fun _ => 0 |}.

(** A zone whose offset never changes, such as [Etc/GMT+5]. *)
Definition fixed_offset (name : string) (off : Z) : tzinfo :=
  {| key := name; utcoffset := fun _ => off; offset_at_utc := fun _ => off |}.

Inductive datetime :=
| Naive (wall : Z)
| Aware (wall : Z) (tz : tzinfo).

Definition wall_clock (dt : datetime) : Z :=
  match dt with Naive w => w | Aware w _ => w end.

(** [a is b]: [ZoneInfo(k)] hands out one object per key, so two zones
    are the same object exactly when their keys agree. *)
Definition same_tzinfo (a b : tzinfo) : bool := String.eqb (key a) (key b).

(** [dt.replace(tzinfo=tz)]: the reading is kept, the zone is relabelled. *)
Definition replace_tzinfo (dt : datetime) (tz : tzinfo) : datetime :=
  Aware (wall_clock dt) tz.

(** The UTC instant of an aware reading. *)
Definition utc_instant (w : Z) (tz : tzinfo) : Z := w - utcoffset tz w.

(** [datetime.now(tz)] when the clock shows the UTC instant [now]. *)
Definition datetime_now (tz : tzinfo) (now : Z) : datetime :=
  Aware (now + offset_at_utc tz now) tz.

(** [dt.astimezone(tz)] for an aware [dt] of reading [w] in zone [z]. *)
Definition astimezone (w : Z) (z : tzinfo) (tz : tzinfo) : datetime :=
  if same_tzinfo z tz then Aware w z
  else let u := utc_instant w z in Aware (u + offset_at_utc tz u) tz.

(** [dt.replace(hour=0, minute=0, second=0, microsecond=0)] on a reading. *)
Definition replace_midnight (w : Z) : Z := w - w mod DAY.

(** [dt.replace(minute=0, second=0, microsecond=0)]. *)
Definition replace_top_of_hour (dt : datetime) : datetime :=
  match dt with
  | Naive w => Naive (w - w mod HOUR)
  | Aware w tz => Aware (w - w mod HOUR) tz
  end.

(** [dt + delta]. *)
Definition plus_timedelta (dt : datetime) (delta : Z) : datetime :=
  match dt with
  | Naive w => Naive (w + delta)
  | Aware w tz => Aware (w + delta) tz
  end.

(** [a >= b]: readings are compared when both are naive or share one zone
    object, instants otherwise; a naive against an aware one is a
    [TypeError] ([None]). *)
Definition datetime_ge (a b : datetime) : option bool :=
  match a, b with
  | Naive x, Naive y => Some (y <=? x)
  | Aware x za, Aware y zb =>
      if same_tzinfo za zb then Some (y <=? x)
      else Some (utc_instant y zb <=? utc_instant x za)
  | _, _ => None
  end.

(** [datetime.combine(date, time, tzinfo=tz)], the date as a day number
    and the time of day in microseconds. *)
Definition combine (date : Z) (time_of_day : Z) (tz : tzinfo) : datetime :=
  Aware (date * DAY + time_of_day) tz.

End PyDatetime.

(* ===================================================================== *)
(** * Float operations used by the rating engine *)
(* ===================================================================== *)

Module PyFloat.

(** The operations of Python's [float] that the rating engine uses;
    [lit] reads a decimal literal. *)
Record ops (F : Type) := mk_ops {
  lit : Q -> F;
  add : F -> F -> F;
  sub : F -> F -> F;
  mul : F -> F -> F;
  div : F -> F -> F;
  ltb : F -> F -> bool;
  leb : F -> F -> bool
}.
Arguments lit {F}.
Arguments add {F}.
Arguments sub {F}.
Arguments mul {F}.
Arguments div {F}.
Arguments ltb {F}.
Arguments leb {F}.

Definition Qltb (a b : Q) : bool := negb (Qle_bool b a).

(** Exact rationals. *)
Definition exact : ops Q :=
  {| lit := fun q => q; add := Qplus; sub := Qminus; mul := Qmult;
     div := Qdiv; ltb := Qltb; leb := Qle_bool |}.

Definition float_of_Z (z : Z) : float :=
  match z with
  | Z0 => PrimFloat.zero
  | Zpos _ => PrimFloat.of_uint63 (Uint63.of_Z z)
  | Zneg _ => PrimFloat.opp (PrimFloat.of_uint63 (Uint63.of_Z (Z.opp z)))
  end.

(** IEEE binary64: a literal [n/d] is the correctly rounded quotient. *)
Definition binary64 : ops float :=
  {| lit := fun q =>
       PrimFloat.div (float_of_Z (Qnum q)) (float_of_Z (Zpos (Qden q)));
     add := PrimFloat.add; sub := PrimFloat.sub; mul := PrimFloat.mul;
     div := PrimFloat.div; ltb := PrimFloat.ltb; leb := PrimFloat.leb |}.

(** The number that a binary64 float denotes, which is what a FLOAT
    column keeps of it. An infinity or a NaN denotes none and is read as
    0; a rating of forecast values of ordinary magnitude is neither. *)
Definition binary64_value (x : float) : Q :=
  match Prim2SF x with
  | S754_finite s m e =>
      let n := if s then Zneg m else Zpos m in
      if (0 <=? e)%Z then inject_Z (n * 2 ^ e) else n # (2 ^ Z.to_pos (- e))
  | _ => 0
  end.

(** An exact rational denotes itself. *)
Definition exact_value (x : Q) : Q := x.

Section Builtins.
Context {F : Type} (o : ops F).

(** [max(a, b)]: [b] replaces [a] only when [b > a]. *)
Definition py_max (a b : F) : F := if ltb o a b then b else a.

(** [min(a, b)]: [b] replaces [a] only when [b < a]. *)
Definition py_min (a b : F) : F := if ltb o b a then b else a.

(** [sum(xs)], which starts from [0] and adds from the left. *)
Definition py_sum (xs : list F) : F := fold_left (add o) xs (lit o 0%Q).

(** [len(xs)] as a float operand. *)
Definition py_len (xs : list F) : F := lit o (inject_Z (Z.of_nat (length xs))).

End Builtins.

End PyFloat.

(* ===================================================================== *)
(** * Results of fallible code *)
(* ===================================================================== *)

Module Py.

(** The exceptions that can leave the modelled functions. *)
Inductive exn :=
| ZoneInfoNotFoundError (key : string)
| TypeError
| IntegrityError.

Inductive result (A : Type) :=
| Ok (a : A)
| Raise (e : exn).
Arguments Ok {A}.
Arguments Raise {A}.

Definition bind {A B : Type} (m : result A) (k : A -> result B) : result B :=
  match m with
  | Ok a => k a
  | Raise e => Raise e
  end.

Notation "x <- m ;; k" := (bind m (fun x => k))
  (at level 100, m at next level, right associativity).

(** What a service call hands back: a message, or an exception that no
    handler of the call catches. *)
Inductive outcome :=
| Returned (msg : string)
| Raised (e : exn).

(** [str(n)] for an integer. *)
Definition str (n : Z) : string := pretty n.

End Py.

(* ===================================================================== *)
(** * app/utils.py: the rate limiter *)
(* ===================================================================== *)

Module Utils.

Open Scope Q_scope.

Definition RATE_LIMIT_SECONDS : Q := 20.
Definition MAX_REQUESTS : nat := 10.

(** [_rate_limit_store], a [defaultdict(list)] from user id to the times
    of the recent requests. *)
Abbreviation rate_limit_store := (gmap Z (list Q)).

(** [is_rate_limited(user_id)] when [time()] reads [current_time]: the
    answer and the store it leaves behind. *)
Definition is_rate_limited (store : rate_limit_store) (current_time : Q)
    (user_id : Z) : bool * rate_limit_store :=
  let recent :=
    List.filter (fun t => PyFloat.Qltb (current_time - t) RATE_LIMIT_SECONDS)
                (default [] (store !! user_id)) in
  let store1 := <[user_id := recent]> store in
  if (MAX_REQUESTS <=? length recent)%nat then (true, store1)
  else (false, <[user_id := recent ++ [current_time]]> store1).

End Utils.

(* ===================================================================== *)
(** * app/models.py: tables *)
(* ===================================================================== *)

Module Configuration.

Record t := mk {
  latitude : Q;
  longitude : Q;
  timezone : string;
  weather_threshold : Z;
  max_bookings_per_event : Z;
  default_opening_time : Z;
  default_closing_time : Z
}.

(** The column defaults, used for the row that [get_config] creates. *)
Definition default : t :=
  {| latitude := 41.8933203%Q;
     longitude := 12.4829321%Q;
     timezone := "Europe/Rome";
     weather_threshold := 70%Z;
     max_bookings_per_event := 10%Z;
     default_opening_time := (17 * PyDatetime.HOUR)%Z;
     default_closing_time := (22 * PyDatetime.HOUR)%Z |}.

End Configuration.

Module User.

Record t := mk {
  id : Z;
  role : string;
  blocked : bool
}.

End User.

Module Slot.

Record t := mk {
  id : Z;
  title : string;
  description : string;
  start_time : Z;
  end_time : Z;
  available : bool;
  weather_rating : option Q;
  max_bookings : Z;
  weather_warning : bool;
  weather_forecast : bool
}.

Definition set_available (b : bool) (s : t) : t :=
  mk (id s) (title s) (description s) (start_time s) (end_time s) b
     (weather_rating s) (max_bookings s) (weather_warning s) (weather_forecast s).

Definition set_weather_rating (r : option Q) (s : t) : t :=
  mk (id s) (title s) (description s) (start_time s) (end_time s) (available s)
     r (max_bookings s) (weather_warning s) (weather_forecast s).

Definition set_weather_warning (b : bool) (s : t) : t :=
  mk (id s) (title s) (description s) (start_time s) (end_time s) (available s)
     (weather_rating s) (max_bookings s) b (weather_forecast s).

Definition set_weather_forecast (b : bool) (s : t) : t :=
  mk (id s) (title s) (description s) (start_time s) (end_time s) (available s)
     (weather_rating s) (max_bookings s) (weather_warning s) b.

(** The three CHECK constraints of the table. *)
Definition check_slot_time_range (s : t) : bool :=
  (start_time s <? end_time s)%Z.

Definition check_weather_rating_range (s : t) : bool :=
  match weather_rating s with
  | None => true
  | Some r => Qle_bool 0 r && Qle_bool r 100
  end.

Definition check_max_bookings_per_slot (s : t) : bool :=
  (0 <=? max_bookings s)%Z.

(** An INSERT tests all of them. *)
Definition check_on_insert (s : t) : bool :=
  check_slot_time_range s && check_weather_rating_range s
  && check_max_bookings_per_slot s.

Definition same_rating (a b : option Q) : bool :=
  match a, b with
  | None, None => true
  | Some x, Some y => Qeq_bool x y
  | _, _ => false
  end.

(** An UPDATE sets the columns whose value has changed and tests the
    constraints that mention one of them. *)
Definition check_on_update (old new : t) : bool :=
  ((start_time old =? start_time new)%Z && (end_time old =? end_time new)%Z
   || check_slot_time_range new)
  && (same_rating (weather_rating old) (weather_rating new)
      || check_weather_rating_range new)
  && ((max_bookings old =? max_bookings new)%Z || check_max_bookings_per_slot new).

End Slot.

Module Booking.

(** [status IN ('confirmed', 'pending', 'cancelled')]. *)
Inductive Status := confirmed | pending | cancelled.

Definition status_eqb (a b : Status) : bool :=
  match a, b with
  | confirmed, confirmed | pending, pending | cancelled, cancelled => true
  | _, _ => false
  end.

Record t := mk {
  id : Z;
  user_id : Z;
  slot_id : Z;
  status : Status
}.

End Booking.

Module Models.

Open Scope Z_scope.

Record Database := mk_db {
  configuration : option Configuration.t;
  users : list User.t;
  slots : list Slot.t;
  bookings : list Booking.t
}.

Definition set_configuration (c : option Configuration.t) (db : Database) :=
  mk_db c (users db) (slots db) (bookings db).
Definition set_slots (l : list Slot.t) (db : Database) :=
  mk_db (configuration db) (users db) l (bookings db).
Definition set_bookings (l : list Booking.t) (db : Database) :=
  mk_db (configuration db) (users db) (slots db) l.

(** [Configuration.get_config(session)]: the stored row, or a row of
    defaults that is added and committed on the spot. *)
Definition get_config (db : Database) : Configuration.t * Database :=
  match configuration db with
  | Some c => (c, db)
  | None => (Configuration.default, set_configuration (Some Configuration.default) db)
  end.

(** [query(...).filter(p).first()]. *)
Definition first {A : Type} (p : A -> bool) (rows : list A) : option A :=
  List.find p rows.

(** [query(...).filter(p).count()]. *)
Definition count {A : Type} (p : A -> bool) (rows : list A) : Z :=
  Z.of_nat (length (List.filter p rows)).

(** The primary key handed to a new row: one past the largest in use. *)
Definition next_id (ids : list Z) : Z :=
  1 + fold_right Z.max 0 ids.

(** Writing back the attributes of the row object [row]. *)
Fixpoint update_slot (row : Slot.t) (rows : list Slot.t) : list Slot.t :=
  match rows with
  | [] => []
  | r :: rest =>
      if (Slot.id r =? Slot.id row)%Z then row :: rest
      else r :: update_slot row rest
  end.

(** [session.delete(row)] for the row that [first()] returned under [p]. *)
Fixpoint delete_first {A : Type} (p : A -> bool) (rows : list A) : list A :=
  match rows with
  | [] => []
  | r :: rest => if p r then rest else r :: delete_first p rest
  end.

(** [UniqueConstraint("user_id", "slot_id")] seen from a row to insert. *)
Definition uq_user_slot_booking (b : Booking.t) (rows : list Booking.t) : bool :=
  negb (existsb (fun r => (Booking.user_id r =? Booking.user_id b)%Z
                          && (Booking.slot_id r =? Booking.slot_id b)%Z) rows).

End Models.

(* ===================================================================== *)
(** * app/services/weather_service.py *)
(* ===================================================================== *)

Module WeatherService.

Import PyDatetime.

(** One hour of forecast: a dict from metric name to value. *)
Abbreviation metrics F := (gmap string F).

Section RatingEngine.
Context {F : Type} (o : PyFloat.ops F).

Local Notation "# q" := (PyFloat.lit o q%Q) (at level 5, format "# q").
Local Infix "+." := (PyFloat.add o) (at level 50, left associativity).
Local Infix "-." := (PyFloat.sub o) (at level 50, left associativity).
Local Infix "*." := (PyFloat.mul o) (at level 40, left associativity).
Local Infix "/." := (PyFloat.div o) (at level 40, left associativity).

Definition WEIGHTS : gmap string F :=
  <["cloud_cover" := #0.4]>
  (<["precipitation_probability" := #0.3]>
  (<["dew_point" := #0.15]>
  (<["visibility" := #0.15]> ∅))).

(** [cls.WEIGHTS[k]]; the four keys read below are all present. *)
Definition weight (k : string) : F := default #0 (WEIGHTS !! k).

Definition DEW_POINT_THRESHOLD_LOW : F := #5.
Definition DEW_POINT_THRESHOLD_HIGH : F := #10.
Definition IDEAL_VISIBILITY : F := #20000.

(** [weather.get(k, d)]. *)
Definition get (weather : metrics F) (k : string) (d : F) : F :=
  default d (weather !! k).

(** The [if]/[elif]/[else] of [calculate_hourly_rating] that turns the
    dew point into its rating. *)
Definition dew_rating_of (dew_point : F) : F :=
  if PyFloat.ltb o dew_point DEW_POINT_THRESHOLD_LOW then #100
  else if PyFloat.leb o dew_point DEW_POINT_THRESHOLD_HIGH then
    let range_size := DEW_POINT_THRESHOLD_HIGH -. DEW_POINT_THRESHOLD_LOW in
    let relative_pos := dew_point -. DEW_POINT_THRESHOLD_LOW in
    #100 -. (relative_pos *. (#100 /. range_size))
  else #0.

Definition calculate_hourly_rating (weather : metrics F) : F :=
  let cloud_rating :=
    PyFloat.py_max o #0 (#100 -. get weather "cloud_cover" #100) in
  let precip_rating :=
    PyFloat.py_max o #0 (#100 -. get weather "precipitation_probability" #100) in
  let dew_point := get weather "dew_point" DEW_POINT_THRESHOLD_HIGH in
  let dew_rating := dew_rating_of dew_point in
  let visibility := get weather "visibility" #0 in
  let visibility_rating :=
    PyFloat.py_min o #100 ((visibility /. IDEAL_VISIBILITY) *. #100) in
  weight "cloud_cover" *. cloud_rating
  +. weight "precipitation_probability" *. precip_rating
  +. weight "dew_point" *. dew_rating
  +. weight "visibility" *. visibility_rating.

Definition calculate_average_weather_rating (hourly_weather : list (metrics F)) : F :=
  match hourly_weather with
  | [] => #0
  | _ =>
      let ratings := map calculate_hourly_rating hourly_weather in
      PyFloat.py_sum o ratings /. PyFloat.py_len o ratings
  end.

(** The dict entry that [_process_hourly_data] builds for one hour. *)
Definition hourly_entry (dew precip cloud vis : F) : metrics F :=
  <["dew_point" := dew]>
  (<["precipitation_probability" := precip]>
  (<["cloud_cover" := cloud]>
  (<["visibility" := vis]> ∅))).

End RatingEngine.

(** The dict that [fetch_weather_data] returns: its keys are aware
    datetimes of the configured zone, kept here by their reading. *)
Abbreviation weather_by_time F := (gmap Z (metrics F)).

Section Service.
Variable ZoneInfo : string -> option tzinfo.

(** The floats of the service and their operations. *)
Context {F : Type} (o : PyFloat.ops F).

(** The number that a float denotes, which the column [weather_rating]
    keeps. *)
Variable value : F -> Q.

Import Py.

(** [ZoneInfo(key)], which raises for a key it does not know. *)
Definition zone_info (k : string) : result tzinfo :=
  match ZoneInfo k with
  | Some tz => Ok tz
  | None => Raise (ZoneInfoNotFoundError k)
  end.

(** The [if dt.tzinfo is None: ... else: ...] that [_generate_hourly_range]
    applies to both of its bounds. *)
Definition in_zone (dt : datetime) (tz : tzinfo) : datetime :=
  match dt with
  | Naive _ => replace_tzinfo dt tz
  | Aware w z => astimezone w z tz
  end.

Definition _generate_hourly_range (start end_ : datetime) (tz_str : string)
    : result (list datetime) :=
  tz <- zone_info tz_str ;;
  let start := in_zone start tz in
  let end_ := in_zone end_ tz in
  let start := replace_top_of_hour start in
  let total_hours := ((wall_clock end_ - wall_clock start) / HOUR + 1)%Z in
  Ok (map (fun i => plus_timedelta start (timedelta_hours (Z.of_nat i)))
          (seq 0 (Z.to_nat total_hours))).

(** [[data[hour] for hour in hourly_range if hour in data]]. *)
Definition matching_hours (data : weather_by_time F) (hourly_range : list datetime)
    : list (metrics F) :=
  omap (fun hour => data !! wall_clock hour) hourly_range.

Definition is_empty {A : Type} (l : list A) : bool :=
  match l with [] => true | _ => false end.

(** [config.weather_threshold] as the operand of a comparison with a
    float: the column is an integer between 0 and 100, which the
    comparison takes by its value. *)
Definition weather_threshold (config : Configuration.t) : F :=
  PyFloat.lit o (inject_Z (Configuration.weather_threshold config)).

(** [get_event_weather], given what [fetch_weather_data] returned. *)
Definition get_event_weather (weather_data : weather_by_time F)
    (event_start event_end : datetime) (config : Configuration.t)
    : result (option F * bool * bool) :=
  hourly_range <- _generate_hourly_range event_start event_end
                    (Configuration.timezone config) ;;
  let hourly_data := matching_hours weather_data hourly_range in
  let rating :=
    if is_empty hourly_data then None
    else Some (calculate_average_weather_rating o hourly_data) in
  let weather_warning :=
    match rating with
    | Some r => PyFloat.ltb o r (weather_threshold config)
    | None => false
    end in
  Ok (rating, weather_warning, negb (is_empty hourly_data)).

Definition _update_event_weather (event : Slot.t) (forecast_data : weather_by_time F)
    (config : Configuration.t) : result Slot.t :=
  hourly_range <- _generate_hourly_range (Naive (Slot.start_time event))
                    (Naive (Slot.end_time event)) (Configuration.timezone config) ;;
  let hourly_data := matching_hours forecast_data hourly_range in
  if is_empty hourly_data then
    Ok (Slot.set_weather_forecast false event)
  else
    let rating := calculate_average_weather_rating o hourly_data in
    let event := Slot.set_weather_rating (Some (value rating)) event in
    let event :=
      Slot.set_weather_warning (PyFloat.ltb o rating (weather_threshold config))
        event in
    Ok (Slot.set_weather_forecast true event).

(** The filter of [_get_upcoming_events] when the clock shows the UTC
    instant [now]; the bounds are bound to the query by their reading. *)
Definition upcoming (tz : tzinfo) (now : Z) (s : Slot.t) : bool :=
  let now_local := datetime_now tz now in
  let now_utc := astimezone (wall_clock now_local) tz utc in
  let future_utc :=
    astimezone (wall_clock (plus_timedelta now_local (timedelta_days 7))) tz utc in
  (wall_clock now_utc <=? Slot.start_time s)%Z
  && (Slot.start_time s <=? wall_clock future_utc)%Z.

Definition _get_upcoming_events (slots : list Slot.t) (timezone_str : string)
    (now : Z) : result (list Slot.t) :=
  tz <- zone_info timezone_str ;;
  Ok (List.filter (upcoming tz now) slots).

(** The loop of [update_events_weather] over the rows of the table: a row
    that the query selected is updated in place, the others are kept. *)
Fixpoint update_rows (tz : tzinfo) (now : Z) (forecast_data : weather_by_time F)
    (config : Configuration.t) (rows : list Slot.t) : result (list Slot.t) :=
  match rows with
  | [] => Ok []
  | event :: rest =>
      event' <- (if upcoming tz now event
                 then _update_event_weather event forecast_data config
                 else Ok event) ;;
      rest' <- update_rows tz now forecast_data config rest ;;
      Ok (event' :: rest')
  end.

(** [session.commit()] after the loop: every row is written back under
    the CHECK constraints, and a violation is an [IntegrityError]. *)
Definition commit_rows (old new : list Slot.t) : result (list Slot.t) :=
  if forallb (fun '(o, n) => Slot.check_on_update o n) (zip old new)
  then Ok new
  else Raise IntegrityError.

(** [update_events_weather], given what [fetch_weather_data] returned: on
    an exception the session is rolled back, which leaves only what
    [get_config] had committed. *)
Definition update_events_weather (db : Models.Database)
    (forecast_data : weather_by_time F) (now : Z) : Models.Database :=
  let (config, db) := Models.get_config db in
  let updated :=
    tz <- zone_info (Configuration.timezone config) ;;
    rows <- update_rows tz now forecast_data config (Models.slots db) ;;
    commit_rows (Models.slots db) rows in
  match updated with
  | Ok rows => Models.set_slots rows db
  | Raise _ => db
  end.

End Service.

End WeatherService.

(* ===================================================================== *)
(** * app/services/booking_service.py *)
(* ===================================================================== *)

Module BookingService.

Import PyDatetime Py.

Open Scope Z_scope.

(** What the service works on: the database and the request log of the
    rate limiter. *)
Record World := mk_world {
  db : Models.Database;
  rate_limit_store : Utils.rate_limit_store
}.

(** The two clock reads of one call: [time()] inside the rate limiter, in
    seconds, and the UTC instant at which [datetime.now(tz)] is taken. *)
Record Clock := mk_clock {
  time : Q;
  now : Z
}.

(** The filters of the two queries on bookings: the confirmed bookings
    of a user for a slot, and the confirmed bookings of a slot. *)
Definition for_user_and_slot (user_id slot_id : Z) (b : Booking.t) : bool :=
  (Booking.user_id b =? user_id)
  && (Booking.slot_id b =? slot_id)
  && Booking.status_eqb (Booking.status b) Booking.confirmed.

Definition for_slot (slot_id : Z) (b : Booking.t) : bool :=
  (Booking.slot_id b =? slot_id)
  && Booking.status_eqb (Booking.status b) Booking.confirmed.

Section Service.
Variable ZoneInfo : string -> option tzinfo.

(** [_get_timezone]: the zone, or the exception of [ZoneInfo], and the
    database as [get_config] leaves it. *)
Definition _get_timezone (db : Models.Database) : result tzinfo * Models.Database :=
  let (config, db) := Models.get_config db in
  (WeatherService.zone_info ZoneInfo (Configuration.timezone config), db).

(** [_validate_user_and_slot]: the error message, or the user and the
    slot. *)
Definition _validate_user_and_slot (db : Models.Database) (user_id slot_id : Z)
    : string + User.t * Slot.t :=
  match Models.first (fun u => User.id u =? user_id) (Models.users db) with
  | None => inl "User not found."%string
  | Some user =>
      if User.blocked user then inl "Your account is blocked."%string
      else
        match Models.first (fun s => Slot.id s =? slot_id) (Models.slots db) with
        | None => inl "Event not found."%string
        | Some slot => inr (user, slot)
        end
  end.

(** [book_slot]. The commit at the end inserts the new row under the
    uniqueness constraint of the table; its [IntegrityError] is an
    [SQLAlchemyError], which the handler answers with a rollback and the
    server-error message. A [ZoneInfoNotFoundError] or a [TypeError] is
    not among the exceptions that the handler catches. *)
Definition book_slot (w : World) (clk : Clock) (user_id slot_id : Z)
    : outcome * World :=
  match _validate_user_and_slot (db w) user_id slot_id with
  | inl error => (Returned error, w)
  | inr (_, slot) =>
      let (limited, store) :=
        Utils.is_rate_limited (rate_limit_store w) (time clk) user_id in
      if limited then
        (Returned "You are rate-limited. Please try again later.", mk_world (db w) store)
      else
        let (tz, db) := _get_timezone (db w) in
        match tz with
        | Raise e => (Raised e, mk_world db store)
        | Ok tz =>
            let current_time := datetime_now tz (now clk) in
            let slot_start := replace_tzinfo (Naive (Slot.start_time slot)) tz in
            match datetime_ge current_time slot_start with
            | None => (Raised TypeError, mk_world db store)
            | Some true =>
                (Returned "Event is no longer available for booking.", mk_world db store)
            | Some false =>
                match Models.first (for_user_and_slot user_id slot_id) (Models.bookings db) with
                | Some _ =>
                    (Returned "You have already booked this event.", mk_world db store)
                | None =>
                    let current_bookings :=
                      Models.count (for_slot slot_id) (Models.bookings db) in
                    if Slot.max_bookings slot <=? current_bookings then
                      (Returned "Event is fully booked.", mk_world db store)
                    else
                      let new_booking :=
                        Booking.mk (Models.next_id (map Booking.id (Models.bookings db)))
                                   user_id slot_id Booking.confirmed in
                      let slots :=
                        if Slot.max_bookings slot <=? current_bookings + 1
                        then Models.update_slot (Slot.set_available false slot) (Models.slots db)
                        else Models.slots db in
                      if Models.uq_user_slot_booking new_booking (Models.bookings db) then
                        (Returned "Booking confirmed.",
                         mk_world
                           (Models.set_bookings (Models.bookings db ++ [new_booking])
                              (Models.set_slots slots db))
                           store)
                      else
                        (Returned "Booking failed due to a server error.", mk_world db store)
                end
            end
        end
  end.

(** [cancel_booking]. The count is taken after the [flush] of the
    deletion. *)
Definition cancel_booking (w : World) (clk : Clock) (user_id slot_id : Z)
    : outcome * World :=
  match _validate_user_and_slot (db w) user_id slot_id with
  | inl error => (Returned error, w)
  | inr (_, slot) =>
      let (limited, store) :=
        Utils.is_rate_limited (rate_limit_store w) (time clk) user_id in
      if limited then
        (Returned "You are rate-limited. Please try again later.", mk_world (db w) store)
      else
        match Models.first (for_user_and_slot user_id slot_id) (Models.bookings (db w)) with
        | None =>
            (Returned "No active booking found for this event.", mk_world (db w) store)
        | Some _ =>
            let (tz, db) := _get_timezone (db w) in
            match tz with
            | Raise e => (Raised e, mk_world db store)
            | Ok tz =>
                let current_time := datetime_now tz (now clk) in
                let slot_start := replace_tzinfo (Naive (Slot.start_time slot)) tz in
                match datetime_ge current_time slot_start with
                | None => (Raised TypeError, mk_world db store)
                | Some true =>
                    (Returned "Cannot cancel booking after event has started.",
                     mk_world db store)
                | Some false =>
                    let bookings :=
                      Models.delete_first (for_user_and_slot user_id slot_id)
                                          (Models.bookings db) in
                    let confirmed_count := Models.count (for_slot slot_id) bookings in
                    let slots :=
                      if confirmed_count <? Slot.max_bookings slot
                      then Models.update_slot (Slot.set_available true slot) (Models.slots db)
                      else Models.slots db in
                    (Returned "Booking cancelled successfully.",
                     mk_world (Models.set_bookings bookings (Models.set_slots slots db)) store)
                end
            end
        end
  end.

(** Calls of the service, one after the other. *)
Inductive request :=
| Book (clk : Clock) (user_id slot_id : Z)
| Cancel (clk : Clock) (user_id slot_id : Z).

Definition serve (w : World) (r : request) : outcome * World :=
  match r with
  | Book clk user_id slot_id => book_slot w clk user_id slot_id
  | Cancel clk user_id slot_id => cancel_booking w clk user_id slot_id
  end.

Definition run (w : World) (rs : list request) : World :=
  fold_left (fun w r => snd (serve w r)) rs w.

End Service.

End BookingService.

(* ===================================================================== *)
(** * app/services/admin_service.py *)
(* ===================================================================== *)

Module AdminService.

Import PyDatetime Py.

Open Scope Z_scope.

(** The DTOs [EventTimes] and [WeatherInfo]. *)
Record EventTimes := mk_event_times {
  start_local : datetime;
  end_local : datetime;
  start_utc : datetime;
  end_utc : datetime
}.

Record WeatherInfo := mk_weather_info {
  condition_rating : option Q;
  weather_warning : bool;
  weather_forecast : bool
}.

(** The dict [event_data] that [_process_event_confirmation] passes on. *)
Record EventData := mk_event_data {
  title : string;
  description : string;
  max_bookings : Z;
  start_time : datetime;
  end_time : datetime;
  weather_info : WeatherInfo
}.

(** Dates are day numbers, times of day are microseconds past midnight. *)
Definition _calculate_event_times (event_date opening_time closing_time : Z)
    (tz : tzinfo) : datetime * datetime :=
  let event_start_local := combine event_date opening_time tz in
  let event_end_local :=
    if closing_time <=? opening_time
    then combine (event_date + 1) closing_time tz
    else combine event_date closing_time tz in
  (event_start_local, event_end_local).

Definition to_utc (dt : datetime) : datetime :=
  match dt with
  | Naive w => Naive w
  | Aware w z => astimezone w z utc
  end.

Definition _calculate_event_times_full (event_date opening_time closing_time : Z)
    (tz : tzinfo) : EventTimes :=
  let (event_start_local, event_end_local) :=
    _calculate_event_times event_date opening_time closing_time tz in
  let event_start_utc := to_utc event_start_local in
  let event_end_utc := to_utc event_end_local in
  mk_event_times event_start_local event_end_local event_start_utc event_end_utc.

(** [query.filter(Slot.id != existing_event.id)] when there is an
    [existing_event]. *)
Definition not_existing (existing_event : option Slot.t) (s : Slot.t) : bool :=
  match existing_event with
  | Some e => negb (Slot.id s =? Slot.id e)
  | None => true
  end.

Definition is_not_none {A : Type} (o : option A) : bool :=
  match o with Some _ => true | None => false end.

Definition _check_same_day_start (db : Models.Database)
    (existing_event : option Slot.t) (start_time : datetime) : bool :=
  let start_day_utc := replace_midnight (wall_clock start_time) in
  let next_day_utc := start_day_utc + timedelta_days 1 in
  is_not_none
    (Models.first
       (fun s => (start_day_utc <=? Slot.start_time s)
                 && (Slot.start_time s <? next_day_utc)
                 && not_existing existing_event s)
       (Models.slots db)).

Definition _check_prev_day_overlap (db : Models.Database)
    (existing_event : option Slot.t) (start_time : datetime) : bool :=
  let start_day_utc := replace_midnight (wall_clock start_time) in
  let prev_day_start_utc := start_day_utc - timedelta_days 1 in
  let prev_day_end_utc := start_day_utc in
  is_not_none
    (Models.first
       (fun s => (prev_day_start_utc <=? Slot.start_time s)
                 && (Slot.start_time s <? prev_day_end_utc)
                 && (wall_clock start_time <? Slot.end_time s)
                 && not_existing existing_event s)
       (Models.slots db)).

Definition _check_next_day_overlap (db : Models.Database)
    (existing_event : option Slot.t) (end_time : datetime) : bool :=
  let end_day_utc := replace_midnight (wall_clock end_time) in
  let next_day_utc := end_day_utc + timedelta_days 1 in
  is_not_none
    (Models.first
       (fun s => (next_day_utc <=? Slot.start_time s)
                 && (Slot.start_time s <? next_day_utc + timedelta_days 1)
                 && (Slot.start_time s <? wall_clock end_time)
                 && not_existing existing_event s)
       (Models.slots db)).

(** The filter of the last query of [_save_event]. *)
Definition overlaps (existing_event : option Slot.t) (start_time end_time : datetime)
    (s : Slot.t) : bool :=
  (wall_clock start_time <? Slot.end_time s)
  && (Slot.start_time s <? wall_clock end_time)
  && not_existing existing_event s.

(** [session.commit()] of one written row: when the CHECK constraints
    pass ([checked]) the table becomes [rows]; otherwise the
    [IntegrityError] leaves [_save_event], whose caller rolls back. *)
Definition commit_slot (checked : bool) (rows : list Slot.t) (db : Models.Database)
    (msg : string) : outcome * Models.Database :=
  if checked
  then (Returned msg, Models.set_slots rows db)
  else (Raised IntegrityError, db).

Definition _save_event (db : Models.Database) (existing_event : option Slot.t)
    (event_data : EventData) : outcome * Models.Database :=
  let start_time := start_time event_data in
  let end_time := end_time event_data in
  if _check_same_day_start db existing_event start_time then
    (Returned "Only one event can start per day.", db)
  else if _check_prev_day_overlap db existing_event start_time then
    (Returned "Start time overlaps with previous day's event.", db)
  else if _check_next_day_overlap db existing_event end_time then
    (Returned "End time overlaps with next day's event.", db)
  else
    match Models.first (overlaps existing_event start_time end_time) (Models.slots db) with
    | Some overlapping_event =>
        (Returned ("Time conflict with another event (ID: "
                   ++ str (Slot.id overlapping_event) ++ ").")%string, db)
    | None =>
        let weather_info := weather_info event_data in
        match existing_event with
        | Some existing_event =>
            let row :=
              Slot.mk (Slot.id existing_event) (title event_data)
                (description event_data) (wall_clock start_time) (wall_clock end_time)
                true (condition_rating weather_info) (max_bookings event_data)
                (weather_warning weather_info) (weather_forecast weather_info) in
            commit_slot (Slot.check_on_update existing_event row)
              (Models.update_slot row (Models.slots db)) db
              "Event updated successfully."
        | None =>
            let row :=
              Slot.mk (Models.next_id (map Slot.id (Models.slots db))) (title event_data)
                (description event_data) (wall_clock start_time) (wall_clock end_time)
                true (condition_rating weather_info) (max_bookings event_data)
                (weather_warning weather_info) (weather_forecast weather_info) in
            commit_slot (Slot.check_on_insert row) (Models.slots db ++ [row]) db
              "Event created successfully."
        end
    end.

End AdminService.

(* ===================================================================== *)
(** * app/utils.py: the cache decorator *)
(* ===================================================================== *)

Module TtlCache.

Import Py.

Open Scope Q_scope.

Section Decorator.
Context {K V E : Type} `{Countable K}.

(** The [wrapper] that [ttl_cache(ttl)] puts around a function, when [time()] reads
    [current_time]. [cache] is the dict of the decorator, from the
    arguments of a call to its result and the time it was computed;
    [func] is the decorated function, which works on an environment and
    may raise. The answer, the cache and the environment after the
    call. *)
Definition wrapper (ttl : Z) (func : K -> E -> result V * E)
    (cache : gmap K (V * Q)) (current_time : Q) (key : K) (env : E)
    : result V * gmap K (V * Q) * E :=
  let call :=
    match func key env with
    | (Ok result, env) => (Ok result, <[key := (result, current_time)]> cache, env)
    | (Raise e, env) => (Raise e, cache, env)
    end in
  match cache !! key with
  | Some (result, stamp) =>
      if PyFloat.Qltb (current_time - stamp) (inject_Z (ttl * 3600))
      then (Ok result, cache, env)
      else call
  | None => call
  end.

(** The cache holds nothing for the arguments that is younger than
    [ttl] hours. *)
Definition stale (ttl : Z) (cache : gmap K (V * Q)) (current_time : Q) (key : K)
    : Prop :=
  forall result stamp,
    cache !! key = Some (result, stamp) ->
    inject_Z (ttl * 3600) <= current_time - stamp.

End Decorator.

End TtlCache.

(* ===================================================================== *)
(** * app/services/weather_service.py: the forecast feed *)
(* ===================================================================== *)

Module WeatherFeed.

Import PyDatetime Py WeatherService.

(** A value of one of the hourly arrays of the response, as
    [response.json()] hands it over: a number, given by the float that
    [float()] makes of it, or [null]. *)
Inductive json (F : Type) :=
| Null
| Number (x : F).
Arguments Null {F}.
Arguments Number {F} x.

(** [float(x)]. *)
Definition py_float {F : Type} (x : json F) : result F :=
  match x with
  | Number q => Ok q
  | Null => Raise TypeError
  end.

(** The DTO [WeatherData]. *)
Record WeatherData (F : Type) := mk_weather_data {
  times : list string;
  dew_points : list (json F);
  precip_probs : list (json F);
  cloud_covers : list (json F);
  visibilities : list (json F);
  tz_str : string
}.
Arguments mk_weather_data {F}.
Arguments times {F}.
Arguments dew_points {F}.
Arguments precip_probs {F}.
Arguments cloud_covers {F}.
Arguments visibilities {F}.
Arguments tz_str {F}.

(** [zip] of five lists. *)
Fixpoint zip5 {A B C D E : Type} (la : list A) (lb : list B) (lc : list C)
    (ld : list D) (le : list E) : list (A * B * C * D * E) :=
  match la, lb, lc, ld, le with
  | a :: la, b :: lb, c :: lc, d :: ld, e :: le =>
      (a, b, c, d, e) :: zip5 la lb lc ld le
  | _, _, _, _, _ => []
  end.

(** What the GET request comes back with: [Failed] when the request
    raises a [RequestException] ([raise_for_status] included) or the body
    is not JSON (a [ValueError]); otherwise the five arrays that
    [fetch_weather_data] reads from the body, an absent one being []. *)
Inductive response (F : Type) :=
| Failed
| Hourly (time : list string)
         (dew_point_2m precipitation_probability cloud_cover visibility : list (json F)).
Arguments Failed {F}.
Arguments Hourly {F}.

(** The arguments of [fetch_weather_data]: latitude, longitude and zone
    key. Floats that are equal are one key. *)
Abbreviation location := (Qcanon.Qc * Qcanon.Qc * string)%type.

(** The provider, as far as the service sees it: how many requests it
    has been sent, and what it answers to each. *)
Record Upstream (F : Type) := mk_upstream {
  requests : nat;
  answer : nat -> location -> response F
}.
Arguments mk_upstream {F}.
Arguments requests {F}.
Arguments answer {F}.

Definition http_get {F : Type} (where_ : location) (up : Upstream F)
    : response F * Upstream F :=
  (answer up (requests up) where_, mk_upstream (S (requests up)) (answer up)).

(** The state of the weather service: the cache of the decorator and the
    provider. *)
Record Service (F : Type) := mk_service {
  cache : gmap location (weather_by_time F * Q);
  upstream : Upstream F
}.
Arguments mk_service {F}.
Arguments cache {F}.
Arguments upstream {F}.

Section Feed.
Variable ZoneInfo : string -> option tzinfo.

(** [datetime.fromisoformat]: the reading, or [None] for the
    [ValueError]. *)
Variable fromisoformat : string -> option Z.

(** The floats of the service, their operations and the number that a
    float denotes. *)
Context {F : Type} (o : PyFloat.ops F).
Variable value : F -> Q.

(** The loop of [_process_hourly_data] over the zipped rows. *)
Fixpoint process_rows (rows : list (string * json F * json F * json F * json F))
    (tz_str : string) (weather_by_time : WeatherService.weather_by_time F)
    : result (WeatherService.weather_by_time F) :=
  match rows with
  | [] => Ok weather_by_time
  | (time_str, dew, precip, cloud, vis) :: rest =>
      match fromisoformat time_str with
      | None => process_rows rest tz_str weather_by_time
      | Some dt =>
          _ <- zone_info ZoneInfo tz_str ;;
          dew <- py_float dew ;;
          precip <- py_float precip ;;
          cloud <- py_float cloud ;;
          vis <- py_float vis ;;
          process_rows rest tz_str
            (<[dt := hourly_entry dew precip cloud vis]> weather_by_time)
      end
  end.

Definition _process_hourly_data (weather_data : WeatherData F)
    : result (weather_by_time F) :=
  process_rows
    (zip5 (times weather_data) (dew_points weather_data) (precip_probs weather_data)
          (cloud_covers weather_data) (visibilities weather_data))
    (tz_str weather_data) ∅.

(** The body of [fetch_weather_data]. *)
Definition fetch (where_ : location) (up : Upstream F)
    : result (weather_by_time F) * Upstream F :=
  let '(_, _, tz_str) := where_ in
  let (response, up) := http_get where_ up in
  match response with
  | Failed => (Ok ∅, up)
  | Hourly times dew_points precip_probs cloud_covers visibilities =>
      (_process_hourly_data
         (mk_weather_data times dew_points precip_probs cloud_covers visibilities tz_str),
       up)
  end.

(** [fetch_weather_data], decorated with [ttl_cache(ttl=3)], when
    [time()] reads [current_time]. *)
Definition fetch_weather_data (svc : Service F) (current_time : Q) (where_ : location)
    : result (weather_by_time F) * Service F :=
  let '(r, cache, up) :=
    TtlCache.wrapper 3 fetch (cache svc) current_time where_ (upstream svc) in
  (r, mk_service cache up).

Definition location_of (config : Configuration.t) : location :=
  (Qcanon.Q2Qc (Configuration.latitude config),
   Qcanon.Q2Qc (Configuration.longitude config),
   Configuration.timezone config).

(** [get_event_weather] with its fetch. *)
Definition get_event_weather (svc : Service F) (current_time : Q)
    (event_start event_end : datetime) (config : Configuration.t)
    : result (option F * bool * bool) * Service F :=
  let (weather_data, svc) := fetch_weather_data svc current_time (location_of config) in
  (weather_data <- weather_data ;;
   WeatherService.get_event_weather ZoneInfo o weather_data event_start event_end config,
   svc).

(** [update_events_weather] with its fetch; after the fetch it goes on as
    [WeatherService.update_events_weather], which reads the stored
    configuration. The handler catches a [KeyError], which a
    [ZoneInfoNotFoundError] is, and rolls back; a [TypeError] leaves the
    function. *)
Definition update_events_weather (svc : Service F) (current_time : Q)
    (db : Models.Database) (now : Z) : result unit * Models.Database * Service F :=
  let (config, db1) := Models.get_config db in
  let (forecast_data, svc) := fetch_weather_data svc current_time (location_of config) in
  match forecast_data with
  | Ok forecast_data =>
      (Ok tt, WeatherService.update_events_weather ZoneInfo o value db forecast_data now,
       svc)
  | Raise (ZoneInfoNotFoundError _) => (Ok tt, db1, svc)
  | Raise e => (Raise e, db1, svc)
  end.

End Feed.

End WeatherFeed.

(* ===================================================================== *)
(** * String methods *)
(* ===================================================================== *)

Module PyStr.

(** A [str] is the string of its characters, one [ascii] for each
    character up to U+00FF. *)

(** [c.isspace()]. *)
Definition isspace (c : Ascii.ascii) : bool :=
  let n := Ascii.nat_of_ascii c in
  ((9 <=? n) && (n <=? 13) || (28 <=? n) && (n <=? 32) || (n =? 133) || (n =? 160))%nat.

Fixpoint lstrip (s : string) : string :=
  match s with
  | EmptyString => EmptyString
  | String c rest => if isspace c then lstrip rest else s
  end.

Fixpoint rstrip (s : string) : string :=
  match s with
  | EmptyString => EmptyString
  | String c rest =>
      match rstrip rest with
      | EmptyString => if isspace c then EmptyString else String c EmptyString
      | kept => String c kept
      end
  end.

(** [s.strip()]. *)
Definition strip (s : string) : string := rstrip (lstrip s).

(** [len(s)]. *)
Definition len (s : string) : Z := Z.of_nat (String.length s).

(** [not s]. *)
Definition is_empty (s : string) : bool :=
  match s with EmptyString => true | _ => false end.

(** [c.lower()]. *)
Definition lower_char (c : Ascii.ascii) : Ascii.ascii :=
  let n := Ascii.nat_of_ascii c in
  if ((65 <=? n) && (n <=? 90) || (192 <=? n) && (n <=? 222) && negb (n =? 215))%nat
  then Ascii.ascii_of_nat (n + 32)
  else c.

(** [s.lower()]. *)
Fixpoint lower (s : string) : string :=
  match s with
  | EmptyString => EmptyString
  | String c rest => String (lower_char c) (lower rest)
  end.

(** [needle in hay]. *)
Fixpoint contains (needle hay : string) : bool :=
  String.prefix needle hay
  || match hay with
     | EmptyString => false
     | String _ rest => contains needle rest
     end.

End PyStr.

(* ===================================================================== *)
(** * app/data_transfer_objects.py *)
(* ===================================================================== *)

Module DataTransferObjects.

(** The DTO [EventData] that the route hands to [confirm_event]; the
    date is a day number, the times of day are microseconds past
    midnight. *)
Record EventData := mk_event_data {
  event_title : string;
  event_description : string;
  event_date : Z;
  opening_time : Z;
  closing_time : Z;
  max_bookings : Z
}.

End DataTransferObjects.

(* ===================================================================== *)
(** * app/services/admin_service.py: confirming an event *)
(* ===================================================================== *)

Module EventConfirmation.

Import PyDatetime Py DataTransferObjects.

Open Scope Z_scope.

(** The two reads of [datetime.now(tz)] of one call, as UTC instants:
    the one in [_prepare_event_data] and the later one in
    [_process_event_confirmation]. *)
Record Clock := mk_clock {
  now_prepare : Z;
  now_confirm : Z
}.

Definition _validate_event_input (title description : string) (max_bookings : Z)
    : bool :=
  let title := PyStr.strip title in
  let description := PyStr.strip description in
  if PyStr.is_empty title || (30 <? PyStr.len title)
     || (255 <? PyStr.len description) || (max_bookings <? 1)
  then false
  else true.

(** [a < b], with the cases of [datetime_ge]. *)
Definition datetime_lt (a b : datetime) : option bool :=
  match a, b with
  | Naive x, Naive y => Some (x <? y)
  | Aware x za, Aware y zb =>
      if same_tzinfo za zb then Some (x <? y)
      else Some (utc_instant x za <? utc_instant y zb)
  | _, _ => None
  end.

Section Confirmation.
Variable ZoneInfo : string -> option tzinfo.

(** The zone of the host, in which [astimezone] reads a naive
    datetime. *)
Variable local_zone : tzinfo.

(** The floats of the weather service, their operations and the number
    that a float denotes. *)
Context {F : Type} (o : PyFloat.ops F).
Variable value : F -> Q.

(** [dt.astimezone(tz)] for a naive [dt] of reading [w]. *)
Definition astimezone_naive (w : Z) (tz : tzinfo) : datetime :=
  let u := utc_instant w local_zone in
  Aware (u + offset_at_utc tz u) tz.

Definition _can_modify_event (event : Slot.t) (current_time : datetime) (tz : tzinfo)
    : result bool :=
  let current_start := astimezone_naive (Slot.start_time event) tz in
  let current_end := astimezone_naive (Slot.end_time event) tz in
  match datetime_ge current_start current_time with
  | None => Raise TypeError
  | Some false => Ok false
  | Some true =>
      match datetime_ge current_end current_time with
      | None => Raise TypeError
      | Some b => Ok b
      end
  end.

(** [_get_weather_data]. [weather_service] is [None] when the admin
    service has no weather service, and otherwise what
    [fetch_weather_data] hands to [get_event_weather] in this call. The
    rating of the [WeatherInfo] is kept as the column will keep it. *)
Definition _get_weather_data
    (weather_service : option (result (WeatherService.weather_by_time F)))
    (start_time end_time : datetime) (config : Configuration.t)
    : result (option AdminService.WeatherInfo) :=
  match weather_service with
  | None => Ok None
  | Some fetched =>
      weather_data <- fetched ;;
      weather <- WeatherService.get_event_weather ZoneInfo o weather_data
                   start_time end_time config ;;
      let '(condition_rating, weather_warning, weather_forecast) := weather in
      Ok (Some (AdminService.mk_weather_info (option_map value condition_rating)
                  weather_warning weather_forecast))
  end.

(** [_prepare_event_data]: the error message, or the event times and the
    weather info. *)
Definition _prepare_event_data (db : Models.Database) (event : EventData)
    (tz : tzinfo) (now : Z)
    (weather_service : option (result (WeatherService.weather_by_time F)))
    : result (string + AdminService.EventTimes * AdminService.WeatherInfo)
      * Models.Database :=
  if negb (_validate_event_input (event_title event) (event_description event)
             (max_bookings event))
  then (Ok (inl "Invalid input parameters."%string), db)
  else
    let event_times :=
      AdminService._calculate_event_times_full (event_date event) (opening_time event)
        (closing_time event) tz in
    let current_time := datetime_now tz now in
    match datetime_lt (AdminService.start_local event_times) current_time with
    | None => (Raise TypeError, db)
    | Some true =>
        (Ok (inl "Cannot schedule or edit an event with opening time in the past."%string),
         db)
    | Some false =>
        match datetime_lt (AdminService.end_local event_times) current_time with
        | None => (Raise TypeError, db)
        | Some true =>
            (Ok (inl "Cannot schedule or edit an event with closing time in the past."%string),
             db)
        | Some false =>
            let (config, db) := Models.get_config db in
            match _get_weather_data weather_service
                    (AdminService.start_local event_times)
                    (AdminService.end_local event_times) config with
            | Raise e => (Raise e, db)
            | Ok None => (Ok (inl "Weather service not available."%string), db)
            | Ok (Some weather_info) => (Ok (inr (event_times, weather_info)), db)
            end
        end
    end.

(** [_process_event_confirmation]. [event_id] is [None] for an absent or
    empty form field and the number that [int(event_id)] reads
    otherwise. None of the exceptions of the model is among those that
    the handler catches, except the [IntegrityError] of the commit,
    after which the handler rolls back and raises it again. *)
Definition _process_event_confirmation (db : Models.Database) (event : EventData)
    (event_id : option Z) (clk : Clock)
    (weather_service : option (result (WeatherService.weather_by_time F)))
    : outcome * Models.Database :=
  let (config, db) := Models.get_config db in
  match WeatherService.zone_info ZoneInfo (Configuration.timezone config) with
  | Raise e => (Raised e, db)
  | Ok tz =>
      match _prepare_event_data db event tz (now_prepare clk) weather_service with
      | (Raise e, db) => (Raised e, db)
      | (Ok (inl error_msg), db) => (Returned error_msg, db)
      | (Ok (inr (event_times, weather_info)), db) =>
          let current_time := datetime_now tz (now_confirm clk) in
          let existing_event :=
            match event_id with
            | Some event_id =>
                Models.first (fun s => Slot.id s =? event_id) (Models.slots db)
            | None => None
            end in
          let can_modify :=
            match existing_event with
            | Some existing_event => _can_modify_event existing_event current_time tz
            | None => Ok true
            end in
          match can_modify with
          | Raise e => (Raised e, db)
          | Ok false =>
              (Returned "Cannot modify an event that has already started or ended.", db)
          | Ok true =>
              let event_data :=
                AdminService.mk_event_data (event_title event) (event_description event)
                  (max_bookings event) (AdminService.start_utc event_times)
                  (AdminService.end_utc event_times) weather_info in
              AdminService._save_event db existing_event event_data
          end
      end
  end.

Definition confirm_event := _process_event_confirmation.

End Confirmation.

End EventConfirmation.

(* ===================================================================== *)
(** * app/services/admin_service.py: blocking a user *)
(* ===================================================================== *)

Module UserAdmin.

Open Scope Z_scope.

(** The exception that [block_user] raises, with its message. *)
Inductive raised :=
| ValueError (message : string).

Definition set_users (l : list User.t) (db : Models.Database) : Models.Database :=
  Models.mk_db (Models.configuration db) l (Models.slots db) (Models.bookings db).

(** Writing back the attributes of the row object [row]. *)
Fixpoint update_user (row : User.t) (rows : list User.t) : list User.t :=
  match rows with
  | [] => []
  | r :: rest =>
      if User.id r =? User.id row then row :: rest
      else r :: update_user row rest
  end.

(** [block_user]: the exception, raised again after the rollback, or the
    database after the commit. *)
Definition block_user (db : Models.Database) (user_id : Z) (block : bool)
    : raised + Models.Database :=
  match Models.first (fun u => User.id u =? user_id) (Models.users db) with
  | None => inl (ValueError "User not found")
  | Some user =>
      if String.eqb (User.role user) "Admin" then inl (ValueError "Cannot block admin")
      else
        inr (set_users
               (update_user (User.mk (User.id user) (User.role user) block)
                  (Models.users db))
               db)
  end.

End UserAdmin.

(* ===================================================================== *)
(** * app/routes/user_actions.py: the callers of the booking service *)
(* ===================================================================== *)

Module UserActions.

Import PyDatetime Py BookingService.

Open Scope Z_scope.

(** What a view does before it redirects: it flashes a message under a
    category, or an exception that it does not catch leaves it. *)
Inductive reply :=
| Flash (message category : string)
| Uncaught (e : exn).

(** [flash(result, "success" if word in result.lower() else "error")]. *)
Definition flash_result (word : string) (result : outcome) : reply :=
  match result with
  | Returned result =>
      Flash result
        (if PyStr.contains word (PyStr.lower result) then "success" else "error")
  | Raised e => Uncaught e
  end.

Section Views.
Variable ZoneInfo : string -> option tzinfo.

(** The POST branch of [events]. *)
Definition events_post (w : World) (clk : Clock) (user_id slot_id : Z)
    : reply * World :=
  let (result, w) := book_slot ZoneInfo w clk user_id slot_id in
  (flash_result "confirmed" result, w).

(** [booking], when [datetime.now(timezone.utc)] reads [now_utc]. *)
Definition booking (w : World) (now_utc : Z) (clk : Clock) (user_id slot_id : Z)
    : reply * World :=
  match Models.first (fun s => Slot.id s =? slot_id) (Models.slots (db w)) with
  | None => (Flash "Event not found" "error", w)
  | Some slot =>
      let slot_start_time_aware := replace_tzinfo (Naive (Slot.start_time slot)) utc in
      match datetime_ge (Aware now_utc utc) slot_start_time_aware with
      | None => (Uncaught TypeError, w)
      | Some true =>
          (Flash "Cannot book an event that has already started or finished." "error", w)
      | Some false =>
          let (result, w) := book_slot ZoneInfo w clk user_id slot_id in
          (flash_result "confirmed" result, w)
      end
  end.

(** [cancel_booking], when [datetime.now(timezone.utc)] reads
    [now_utc]. *)
Definition cancel_booking (w : World) (now_utc : Z) (clk : Clock) (user_id slot_id : Z)
    : reply * World :=
  match Models.first (fun s => Slot.id s =? slot_id) (Models.slots (db w)) with
  | None => (Flash "Event not found" "error", w)
  | Some slot =>
      let slot_start_time_aware := replace_tzinfo (Naive (Slot.start_time slot)) utc in
      match datetime_ge (Aware now_utc utc) slot_start_time_aware with
      | None => (Uncaught TypeError, w)
      | Some true =>
          (Flash "Cannot cancel a booking for an event that has already started or finished."
             "error", w)
      | Some false =>
          let (result, w) := BookingService.cancel_booking ZoneInfo w clk user_id slot_id in
          (flash_result "successfully" result, w)
      end
  end.

End Views.

End UserActions.

(* ===================================================================== *)
(** * The rating formula as the specification words it *)
(* ===================================================================== *)

Module RatingSpec.

Open Scope Q_scope.

(** The dew rating in the specification's words: 100 below 5 degrees, a
    straight line from 100 at 5 degrees to 0 at 10 degrees, 0 above. *)
Definition dew (d : Q) : Q :=
  if Qlt_le_dec d 5 then 100
  else if Qlt_le_dec 10 d then 0
  else 100 * ((10 - d) / (10 - 5)).

(** The weighted sum in the specification's words. *)
Definition rating (c p d v : Q) : Q :=
  0.4 * Qmax 0 (100 - c) + 0.3 * Qmax 0 (100 - p)
  + 0.15 * dew d + 0.15 * Qmin 100 (v / 20000 * 100).

(** The arithmetic mean of a non-empty list. *)
Definition mean (xs : list Q) : Q :=
  fold_right Qplus 0 xs / inject_Z (Z.of_nat (length xs)).

End RatingSpec.

(* ===================================================================== *)
(** * Vocabulary of the statements *)
(* ===================================================================== *)

Module Frame.

(** The columns of a slot that are not about the weather. *)
Definition non_weather_fields (s : Slot.t)
    : Z * string * string * Z * Z * Z * bool :=
  (Slot.id s, Slot.title s, Slot.description s, Slot.start_time s,
   Slot.end_time s, Slot.max_bookings s, Slot.available s).

(** Forecast values as the provider documents them: percentages for the
    cloud cover and the precipitation probability, a distance that is not
    negative for the visibility. *)
Definition plausible (m : WeatherService.metrics Q) : Prop :=
  (forall c, m !! "cloud_cover" = Some c -> 0 <= c <= 100)%Q
  /\ (forall p, m !! "precipitation_probability" = Some p -> 0 <= p <= 100)%Q
  /\ (forall v, m !! "visibility" = Some v -> 0 <= v)%Q.

End Frame.


Module Invariant.

Import Models.

(** The number of confirmed bookings of a slot. *)
Definition confirmed_count (db : Database) (slot_id : Z) : Z :=
  count (BookingService.for_slot slot_id) (bookings db).

(** A slot is flagged unavailable exactly when it is full, and it is
    never over-booked. *)
Definition slot_capacity_ok (db : Database) (s : Slot.t) : Prop :=
  (Slot.available s = false <->
   (Slot.max_bookings s <= confirmed_count db (Slot.id s))%Z)
  /\ (confirmed_count db (Slot.id s) <= Slot.max_bookings s)%Z.

Definition capacity_ok (db : Database) : Prop :=
  forall s, s ∈ slots db -> slot_capacity_ok db s.

(** [Slot.id] is a primary key. *)
Definition slot_ids_unique (db : Database) : Prop :=
  NoDup (map Slot.id (slots db)).

(** The user holds a confirmed booking of the slot. *)
Definition has_confirmed (db : Database) (user_id slot_id : Z) : Prop :=
  exists b, b ∈ bookings db /\ BookingService.for_user_and_slot user_id slot_id b = true.

(** The user holds a booking row of the slot, whatever its status. *)
Definition has_row (db : Database) (user_id slot_id : Z) : Prop :=
  exists b, b ∈ bookings db
            /\ Booking.user_id b = user_id /\ Booking.slot_id b = slot_id.

(** No pair of a user and a slot has two confirmed bookings. *)
Definition one_confirmed_per_pair (db : Database) : Prop :=
  forall user_id slot_id,
    (count (BookingService.for_user_and_slot user_id slot_id) (bookings db) <= 1)%Z.

End Invariant.

(* ===================================================================== *)
(** * Sequences of calls of the rate limiter *)
(* ===================================================================== *)

Module RateLimit.

Open Scope Q_scope.

(** [_rate_limit_store[user_id]] of the [defaultdict(list)]. *)
Definition log (store : Utils.rate_limit_store) (user_id : Z) : list Q :=
  default [] (store !! user_id).

(** Calls of [is_rate_limited], one after the other, each with the
    reading of [time()] and the user: the answers in order, and the store
    at the end. *)
Fixpoint calls (store : Utils.rate_limit_store) (requests : list (Q * Z))
    : list bool * Utils.rate_limit_store :=
  match requests with
  | [] => ([], store)
  | (current_time, user_id) :: rest =>
      let (limited, store) := Utils.is_rate_limited store current_time user_id in
      let (answers, store) := calls store rest in
      (limited :: answers, store)
  end.

(** The calls of one user at the given times. *)
Definition by_user (user_id : Z) (times : list Q) : list (Q * Z) :=
  map (fun t => (t, user_id)) times.

End RateLimit.

(* ===================================================================== *)
(** * Keys and references of the tables *)
(* ===================================================================== *)

Module Integrity.

Import Models.

(** [Booking.id] is a primary key. *)
Definition booking_ids_unique (db : Database) : Prop :=
  NoDup (map Booking.id (bookings db)).

(** The pair of columns that [uq_user_slot_booking] names. *)
Definition user_slot_pair (b : Booking.t) : Z * Z :=
  (Booking.user_id b, Booking.slot_id b).

(** No two booking rows, whatever their status, share a user and a
    slot. *)
Definition user_slot_pairs_unique (db : Database) : Prop :=
  NoDup (map user_slot_pair (bookings db)).

(** The two foreign keys of a booking point to rows. *)
Definition references_ok (db : Database) : Prop :=
  forall b, b ∈ bookings db ->
    (exists u, u ∈ users db /\ User.id u = Booking.user_id b)
    /\ (exists s, s ∈ slots db /\ Slot.id s = Booking.slot_id b).

(** The columns of a slot other than [available]. *)
Definition all_but_available (s : Slot.t)
    : Z * string * string * Z * Z * option Q * Z * bool * bool :=
  (Slot.id s, Slot.title s, Slot.description s, Slot.start_time s,
   Slot.end_time s, Slot.weather_rating s, Slot.max_bookings s,
   Slot.weather_warning s, Slot.weather_forecast s).

End Integrity.

(* ===================================================================== *)
(** * The schedule of the slots *)
(* ===================================================================== *)

Module Schedule.

Import PyDatetime Models.

Open Scope Z_scope.

(** A relation holds between any two different rows of a table. *)
Definition pairwise {A : Type} (R : A -> A -> Prop) (rows : list A) : Prop :=
  forall (i j : nat) (a b : A),
    i <> j -> rows !! i = Some a -> rows !! j = Some b -> R a b.

(** The intervals of two slots have more than an end point in common. *)
Definition overlap (a b : Slot.t) : Prop :=
  Slot.start_time a < Slot.end_time b /\ Slot.start_time b < Slot.end_time a.

(** No two stored slots overlap. *)
Definition no_overlap (db : Database) : Prop :=
  pairwise (fun a b => ~ overlap a b) (slots db).

(** No two stored slots start on the same UTC day. *)
Definition one_start_per_day (db : Database) : Prop :=
  pairwise (fun a b => replace_midnight (Slot.start_time a)
                       <> replace_midnight (Slot.start_time b)) (slots db).

(** Every stored slot passes the CHECK constraints of the table. *)
Definition checks_ok (db : Database) : Prop :=
  forall s, s ∈ slots db -> Slot.check_on_insert s = true.

End Schedule.


(* ===================================================================== *)
(** * Concrete data for the examples *)
(* ===================================================================== *)

Module Scenario.

Import PyDatetime.
Open Scope Z_scope.

(** A zone database with two zones of constant offset: UTC, and
    [Etc/GMT+5], which is five hours behind UTC. *)
Definition zoneinfo_db (k : string) : option tzinfo :=
  if String.eqb k "UTC" then Some (fixed_offset "UTC" 0)
  else if String.eqb k "Etc/GMT+5" then Some (fixed_offset "Etc/GMT+5" (-5 * HOUR))
  else None.

Definition config_in (zone : string) : Configuration.t :=
  Configuration.mk 41.8933203%Q 12.4829321%Q zone 70 10 (17 * HOUR) (22 * HOUR).

(** Day numbers count from 1970-01-01; day 20240 is 2025-06-01. *)
Definition june_1st : Z := 20240.

Definition reading (date hour minute : Z) : Z :=
  date * DAY + hour * HOUR + minute * MINUTE.

Definition alice : User.t := User.mk 1 "User" false.
Definition bob : User.t := User.mk 2 "User" false.
Definition carol : User.t := User.mk 3 "User" false.
Definition mallory : User.t := User.mk 4 "User" true.

(** A slot on 2025-06-01 from 18:00 to 22:00 UTC for two people. *)
Definition evening : Slot.t :=
  Slot.mk 1 "Perseids" "Meteor watch" (reading june_1st 18 0) (reading june_1st 22 0)
    true None 2 false false.

Definition db_utc : Models.Database :=
  Models.mk_db (Some (config_in "UTC")) [alice; bob; carol; mallory] [evening] [].

Definition world_utc : BookingService.World := BookingService.mk_world db_utc ∅.

(** 2025-05-31 12:00:00 UTC on both clocks. *)
Definition day_before : BookingService.Clock :=
  BookingService.mk_clock 1748692800%Q (reading (june_1st - 1) 12 0).

(** The same table with a confirmed booking of the blocked user. *)
Definition db_blocked_booked : Models.Database :=
  Models.set_bookings [Booking.mk 1 4 1 Booking.confirmed] db_utc.

(** An evening event entered by the administrator for 2025-06-01, 18:00
    to 22:00 local time, in a site configured for [Etc/GMT+5]. *)
Definition western_zone : tzinfo := fixed_offset "Etc/GMT+5" (-5 * HOUR).

Definition western_times : AdminService.EventTimes :=
  AdminService._calculate_event_times_full june_1st (18 * HOUR) (22 * HOUR) western_zone.

Definition western_event : AdminService.EventData :=
  AdminService.mk_event_data "Perseids" "Meteor watch" 2
    (AdminService.start_utc western_times) (AdminService.end_utc western_times)
    (AdminService.mk_weather_info None false false).

Definition db_west_empty : Models.Database :=
  Models.mk_db (Some (config_in "Etc/GMT+5")) [alice; bob; carol; mallory] [] [].

Definition db_west : Models.Database :=
  snd (AdminService._save_event db_west_empty None western_event).

(** 2025-06-01 23:30:00 UTC, which is 18:30 local time in [Etc/GMT+5]:
    half an hour into the event. *)
Definition half_past_start : BookingService.Clock :=
  BookingService.mk_clock 1748820600%Q (reading june_1st 23 30).

(** Forecast data for 18:00 to 20:00 on 2025-06-01. *)
Definition forecast : WeatherService.weather_by_time Q :=
  <[reading june_1st 18 0 := WeatherService.hourly_entry 3%Q 10%Q 20%Q 18000%Q]>
  (<[reading june_1st 19 0 := WeatherService.hourly_entry 4%Q 0%Q 0%Q 20000%Q]>
  (<[reading june_1st 20 0 := WeatherService.hourly_entry 8%Q 40%Q 90%Q 9000%Q]> ∅)).

End Scenario.


Module OverlapScenario.

Import PyDatetime Scenario.
Open Scope Z_scope.

(** A stored slot on 2025-06-02 from 01:00 to 03:00 UTC. *)
Definition small_hours : Slot.t :=
  Slot.mk 1 "Lunar eclipse" "Totality" (reading (june_1st + 1) 1 0)
    (reading (june_1st + 1) 3 0) true None 5 false false.

Definition db_small_hours : Models.Database :=
  Models.mk_db (Some (config_in "UTC")) [alice] [small_hours] [].

(** A new event from 2025-06-01 22:00 to 2025-06-02 02:00 UTC. *)
Definition overnight : AdminService.EventData :=
  AdminService.mk_event_data "Perseids" "Meteor watch" 2
    (Aware (reading june_1st 22 0) utc) (Aware (reading (june_1st + 1) 2 0) utc)
    (AdminService.mk_weather_info None false false).

(** A second event on 2025-06-01, from 19:00 to 23:00 UTC. *)
Definition same_day : AdminService.EventData :=
  AdminService.mk_event_data "Open night" "Guided tour" 3
    (Aware (reading june_1st 19 0) utc) (Aware (reading june_1st 23 0) utc)
    (AdminService.mk_weather_info None false false).

End OverlapScenario.


Module Traces.

Import Scenario.

(** Alice, bob and carol ask for the two places of [evening], then alice
    cancels. *)
Definition busy_evening : list BookingService.request :=
  [BookingService.Book day_before 1 1;
   BookingService.Book day_before 2 1;
   BookingService.Book day_before 3 1;
   BookingService.Cancel day_before 1 1].

(** The world after alice has booked [evening]. *)
Definition alice_booked : BookingService.World :=
  snd (BookingService.book_slot zoneinfo_db world_utc day_before 1 1).

End Traces.


(* ===================================================================== *)
(** * More concrete data for the examples *)
(* ===================================================================== *)

Module Examples.

Import PyDatetime Scenario.
Open Scope Z_scope.

(** Ten requests, one a second. *)
Definition ten_requests : list Q := [0; 1; 2; 3; 4; 5; 6; 7; 8; 9]%Q.

(** The request log after these ten requests of user 1. *)
Definition full_log : Utils.rate_limit_store := {[ 1 := ten_requests ]}.

(** A function to put behind the cache: it doubles its argument, and
    its environment counts the calls. *)
Definition counted_double (key : Z) (calls : nat) : Py.result Z * nat :=
  (Py.Ok (2 * key), S calls).

(** The time strings of three hours of 2025-06-01. *)
Definition fromisoformat (time_str : string) : option Z :=
  if String.eqb time_str "2025-06-01T18:00" then Some (reading june_1st 18 0)
  else if String.eqb time_str "2025-06-01T19:00" then Some (reading june_1st 19 0)
  else if String.eqb time_str "2025-06-01T20:00" then Some (reading june_1st 20 0)
  else None.

(** A response with a time string that does not parse, a reading that
    comes twice and a visibility array that is one value short. *)
Definition feed : WeatherFeed.WeatherData Q :=
  WeatherFeed.mk_weather_data
    ["2025-06-01T18:00"; "2025-06-01T19:00"; "not a time"; "2025-06-01T19:00";
     "2025-06-01T20:00"]
    [WeatherFeed.Number 3%Q; WeatherFeed.Number 4%Q; WeatherFeed.Number 5%Q;
     WeatherFeed.Number 6%Q; WeatherFeed.Number 7%Q]
    [WeatherFeed.Number 10%Q; WeatherFeed.Number 0%Q; WeatherFeed.Number 5%Q;
     WeatherFeed.Number 20%Q; WeatherFeed.Number 40%Q]
    [WeatherFeed.Number 20%Q; WeatherFeed.Number 0%Q; WeatherFeed.Number 50%Q;
     WeatherFeed.Number 30%Q; WeatherFeed.Number 90%Q]
    [WeatherFeed.Number 18000%Q; WeatherFeed.Number 20000%Q; WeatherFeed.Number 100%Q;
     WeatherFeed.Number 15000%Q]
    "UTC".

(** A weather service with an empty cache whose provider is down. *)
Definition service_down : WeatherFeed.Service Q :=
  WeatherFeed.mk_service ∅ (WeatherFeed.mk_upstream 0 (fun _ _ => WeatherFeed.Failed)).

(** A weather service with an empty cache whose provider sends a [null]
    for the precipitation probability of 18:00. *)
Definition service_null : WeatherFeed.Service Q :=
  WeatherFeed.mk_service ∅
    (WeatherFeed.mk_upstream 0
       (fun _ _ =>
          WeatherFeed.Hourly ["2025-06-01T18:00"] [WeatherFeed.Number 3%Q]
            [WeatherFeed.Null] [WeatherFeed.Number 20%Q] [WeatherFeed.Number 18000%Q])).

(** An event on 2025-06-02 from 19:00 to 23:00 UTC. *)
Definition next_evening : AdminService.EventData :=
  AdminService.mk_event_data "Open night" "Guided tour" 3
    (Aware (reading (june_1st + 1) 19 0) utc) (Aware (reading (june_1st + 1) 23 0) utc)
    (AdminService.mk_weather_info None false false).

(** The form of an event on 2025-06-01 from 18:00 to 22:00 local time
    for two people. *)
Definition perseids_form : DataTransferObjects.EventData :=
  DataTransferObjects.mk_event_data "Perseids" "Meteor watch" june_1st
    (18 * HOUR) (22 * HOUR) 2.

(** Both clock reads of [confirm_event] at 2025-05-31 12:00:00 UTC. *)
Definition noon_before : EventConfirmation.Clock :=
  EventConfirmation.mk_clock (reading (june_1st - 1) 12 0) (reading (june_1st - 1) 12 0).

(** A host that runs on UTC. *)
Definition host_utc : tzinfo := fixed_offset "host" 0.

(** The forecast of [Scenario.forecast] in the floats of [o]. *)
Definition forecast_in {F : Type} (o : PyFloat.ops F) : WeatherService.weather_by_time F :=
  <[reading june_1st 18 0 :=
      WeatherService.hourly_entry (PyFloat.lit o 3) (PyFloat.lit o 10)
        (PyFloat.lit o 20) (PyFloat.lit o 18000)]>
  (<[reading june_1st 19 0 :=
      WeatherService.hourly_entry (PyFloat.lit o 4) (PyFloat.lit o 0)
        (PyFloat.lit o 0) (PyFloat.lit o 20000)]>
  (<[reading june_1st 20 0 :=
      WeatherService.hourly_entry (PyFloat.lit o 8) (PyFloat.lit o 40)
        (PyFloat.lit o 90) (PyFloat.lit o 9000)]> ∅)).

(** A forecast for 19:00 on 2025-06-01 only: dew point 12, precipitation
    probability 3, cloud cover 99, visibility 2000. The terms of its
    rating are 0.4 * 1, 0.3 * 97, 0.15 * 0 and 0.15 * 10, whose sum is 31. *)
Definition hazy_hour {F : Type} (o : PyFloat.ops F) : WeatherService.weather_by_time F :=
  <[reading june_1st 19 0 :=
      WeatherService.hourly_entry (PyFloat.lit o 12) (PyFloat.lit o 3)
        (PyFloat.lit o 99) (PyFloat.lit o 2000)]> ∅.

(** The site of [db_utc] with the weather threshold 31. *)
Definition config_31 : Configuration.t :=
  Configuration.mk 41.8933203%Q 12.4829321%Q "UTC" 31 10 (17 * HOUR) (22 * HOUR).

Definition db_31 : Models.Database :=
  Models.mk_db (Some config_31) [alice; bob; carol; mallory] [evening] [].

(** Two runs of the refresh in binary64 on 2025-05-31: at 12:00 UTC the
    provider has the forecast [hazy_hour]; at 15:00 UTC the request fails
    and the fetch hands over the empty dict. *)
Definition refreshed_at_noon : Models.Database :=
  WeatherService.update_events_weather zoneinfo_db PyFloat.binary64
    PyFloat.binary64_value db_31 (hazy_hour PyFloat.binary64)
    (reading (june_1st - 1) 12 0).

Definition refreshed_at_three : Models.Database :=
  WeatherService.update_events_weather zoneinfo_db PyFloat.binary64
    PyFloat.binary64_value refreshed_at_noon ∅ (reading (june_1st - 1) 15 0).

(** A zone database that also knows [Etc/GMT-2], which is two hours
    ahead of UTC. *)
Definition zoneinfo_east (k : string) : option tzinfo :=
  if String.eqb k "Etc/GMT-2" then Some (fixed_offset "Etc/GMT-2" (2 * HOUR))
  else zoneinfo_db k.

(** An evening event entered by the administrator for 2025-06-01, 20:00
    to 23:00 local time, in a site configured for [Etc/GMT-2]. *)
Definition eastern_zone : tzinfo := fixed_offset "Etc/GMT-2" (2 * HOUR).

Definition eastern_times : AdminService.EventTimes :=
  AdminService._calculate_event_times_full june_1st (20 * HOUR) (23 * HOUR) eastern_zone.

Definition eastern_event : AdminService.EventData :=
  AdminService.mk_event_data "Perseids" "Meteor watch" 2
    (AdminService.start_utc eastern_times) (AdminService.end_utc eastern_times)
    (AdminService.mk_weather_info None false false).

Definition db_east_empty : Models.Database :=
  Models.mk_db (Some (config_in "Etc/GMT-2")) [alice; bob; carol; mallory] [] [].

Definition db_east : Models.Database :=
  snd (AdminService._save_event db_east_empty None eastern_event).

(** 2025-06-01 17:00:00 UTC, which is 19:00 local time in [Etc/GMT-2]:
    one hour before the event begins. *)
Definition hour_before_start : BookingService.Clock :=
  BookingService.mk_clock 1748797200%Q (reading june_1st 17 0).

End Examples.

(* ===================================================================== *)
(** * Properties of the rating engine *)
(* ===================================================================== *)

Section RatingFacts.

Import WeatherService.
Open Scope Q_scope.

Lemma Qltb_true (a b : Q) : PyFloat.Qltb a b = true <-> a < b.
Proof.
  unfold PyFloat.Qltb. rewrite negb_true_iff.
  destruct (Qle_bool b a) eqn:E.
  - apply Qle_bool_iff in E. split; [discriminate | intros H; lra].
  - split; [intros _ | reflexivity].
    apply Qnot_le_lt. intros H. apply Qle_bool_iff in H. congruence.
Qed.

Lemma Qltb_false (a b : Q) : PyFloat.Qltb a b = false <-> b <= a.
Proof.
  unfold PyFloat.Qltb. rewrite negb_false_iff. apply Qle_bool_iff.
Qed.

Lemma Qle_bool_false (a b : Q) : Qle_bool a b = false <-> b < a.
Proof.
  destruct (Qle_bool a b) eqn:E.
  - apply Qle_bool_iff in E. split; [discriminate | intros H; lra].
  - split; [intros _ | reflexivity].
    apply Qnot_le_lt. intros H. apply Qle_bool_iff in H. congruence.
Qed.

Lemma py_max_exact (a b : Q) : PyFloat.py_max PyFloat.exact a b == Qmax a b.
Proof.
  unfold PyFloat.py_max; simpl.
  destruct (PyFloat.Qltb a b) eqn:E.
  - apply Qltb_true in E. symmetry. apply Q.max_r. lra.
  - apply Qltb_false in E. symmetry. apply Q.max_l. lra.
Qed.

Lemma py_min_exact (a b : Q) : PyFloat.py_min PyFloat.exact a b == Qmin a b.
Proof.
  unfold PyFloat.py_min; simpl.
  destruct (PyFloat.Qltb b a) eqn:E.
  - apply Qltb_true in E. symmetry. apply Q.min_r. lra.
  - apply Qltb_false in E. symmetry. apply Q.min_l. lra.
Qed.

Lemma dew_rating_exact (d : Q) : dew_rating_of PyFloat.exact d == RatingSpec.dew d.
Proof.
  unfold dew_rating_of, RatingSpec.dew, DEW_POINT_THRESHOLD_LOW,
    DEW_POINT_THRESHOLD_HIGH; simpl.
  destruct (PyFloat.Qltb d 5) eqn:E1.
  - apply Qltb_true in E1. destruct (Qlt_le_dec d 5); [reflexivity | lra].
  - apply Qltb_false in E1. destruct (Qlt_le_dec d 5); [lra |].
    destruct (Qle_bool d 10) eqn:E2.
    + apply Qle_bool_iff in E2. destruct (Qlt_le_dec 10 d); [lra |]. field.
    + apply Qle_bool_false in E2. destruct (Qlt_le_dec 10 d); [reflexivity | lra].
Qed.

Lemma weight_cloud_cover : weight PyFloat.exact "cloud_cover" = 0.4.
Proof. reflexivity. Qed.

Lemma weight_precipitation : weight PyFloat.exact "precipitation_probability" = 0.3.
Proof. reflexivity. Qed.

Lemma weight_dew_point : weight PyFloat.exact "dew_point" = 0.15.
Proof. reflexivity. Qed.

Lemma weight_visibility : weight PyFloat.exact "visibility" = 0.15.
Proof. reflexivity. Qed.

End RatingFacts.

Section HourlyRating.

Import WeatherService.
Open Scope Q_scope.

Lemma get_hourly_entry_cloud (d p c v x : Q) :
  get (hourly_entry d p c v) "cloud_cover" x = c.
Proof. reflexivity. Qed.

Lemma get_hourly_entry_precip (d p c v x : Q) :
  get (hourly_entry d p c v) "precipitation_probability" x = p.
Proof. reflexivity. Qed.

Lemma get_hourly_entry_dew (d p c v x : Q) :
  get (hourly_entry d p c v) "dew_point" x = d.
Proof. reflexivity. Qed.

Lemma get_hourly_entry_vis (d p c v x : Q) :
  get (hourly_entry d p c v) "visibility" x = v.
Proof. reflexivity. Qed.

(** The rating of a dict, in terms of the four values it reads. *)
Lemma calculate_hourly_rating_unfold (w : metrics Q) :
  calculate_hourly_rating PyFloat.exact w ==
    0.4 * Qmax 0 (100 - get w "cloud_cover" 100)
    + 0.3 * Qmax 0 (100 - get w "precipitation_probability" 100)
    + 0.15 * RatingSpec.dew (get w "dew_point" 10)
    + 0.15 * Qmin 100 (get w "visibility" 0 / 20000 * 100).
Proof.
  unfold calculate_hourly_rating.
  rewrite weight_cloud_cover, weight_precipitation, weight_dew_point,
    weight_visibility.
  cbn [PyFloat.add PyFloat.mul PyFloat.sub PyFloat.div PyFloat.lit PyFloat.exact].
  rewrite !py_max_exact, py_min_exact, dew_rating_exact.
  reflexivity.
Qed.

(** C3. For every hourly observation (cloud cover c, precipitation
    probability p, dew point d, visibility v) the hourly rating is
    0.4*max(0,100-c) + 0.3*max(0,100-p) + 0.15*dew(d) + 0.15*min(100, v/20000*100),
    with dew(d) = 100 below 5, a straight line from 100 to 0 between 5 and
    10, and 0 above 10. In particular the rating of (0,0,0,20000) is 100,
    the rating of (100,100,10,0) is 0 and dew(7.5) = 50, in exact
    arithmetic and in binary64 alike. *)
Theorem hourly_rating_formula :
  (forall c p d v : Q,
     calculate_hourly_rating PyFloat.exact (hourly_entry d p c v)
       == RatingSpec.rating c p d v)
  /\ (forall d : Q, dew_rating_of PyFloat.exact d == RatingSpec.dew d)
  /\ (forall d : Q, d < 5 -> dew_rating_of PyFloat.exact d == 100)
  /\ (forall d : Q, 5 <= d <= 10 ->
        dew_rating_of PyFloat.exact d == 100 - (d - 5) * 20)
  /\ (forall d : Q, 10 < d -> dew_rating_of PyFloat.exact d == 0)
  /\ calculate_hourly_rating PyFloat.exact (hourly_entry 0 0 0 20000) == 100
  /\ calculate_hourly_rating PyFloat.exact (hourly_entry 10 100 100 0) == 0
  /\ dew_rating_of PyFloat.exact 7.5 == 50
  /\ calculate_hourly_rating PyFloat.binary64
       (hourly_entry 0 0 0 20000)%float = 100%float
  /\ calculate_hourly_rating PyFloat.binary64
       (hourly_entry 10 100 100 0)%float = 0%float
  /\ dew_rating_of PyFloat.binary64 7.5%float = 50%float.
Proof.
  assert (Hdew : forall d : Q, dew_rating_of PyFloat.exact d == RatingSpec.dew d)
    by exact dew_rating_exact.
  split; [| split; [| split; [| split; [| split; [| split; [| split;
    [| split; [| split; [| split]]]]]]]]].
  - intros c p d v. rewrite calculate_hourly_rating_unfold.
    rewrite get_hourly_entry_cloud, get_hourly_entry_precip,
      get_hourly_entry_dew, get_hourly_entry_vis.
    reflexivity.
  - exact Hdew.
  - intros d Hd. rewrite Hdew. unfold RatingSpec.dew.
    destruct (Qlt_le_dec d 5); [reflexivity | lra].
  - intros d [Hlo Hhi]. rewrite Hdew. unfold RatingSpec.dew.
    destruct (Qlt_le_dec d 5) as [H5 | H5].
    + lra.
    + destruct (Qlt_le_dec 10 d); [lra | field].
  - intros d Hd. rewrite Hdew. unfold RatingSpec.dew.
    destruct (Qlt_le_dec d 5); [lra |].
    destruct (Qlt_le_dec 10 d); [reflexivity | lra].
  - vm_compute. reflexivity.
  - vm_compute. reflexivity.
  - vm_compute. reflexivity.
  - vm_compute. reflexivity.
  - vm_compute. reflexivity.
  - vm_compute. reflexivity.
Qed.

End HourlyRating.

Section HourlyRatingRange.

Import WeatherService.
Open Scope Q_scope.

Lemma dew_spec_range (d : Q) : 0 <= RatingSpec.dew d <= 100.
Proof.
  unfold RatingSpec.dew.
  destruct (Qlt_le_dec d 5) as [H5 | H5]; [lra |].
  destruct (Qlt_le_dec 10 d) as [H10 | H10]; [lra |].
  assert (E : 100 * ((10 - d) / (10 - 5)) == 20 * (10 - d)) by field.
  rewrite E. lra.
Qed.

Lemma get_present {F : Type} (w : metrics F) (k : string) (d x : F) :
  w !! k = Some x -> get w k d = x.
Proof. unfold get. intros ->. reflexivity. Qed.

Lemma get_missing {F : Type} (w : metrics F) (k : string) (d : F) :
  w !! k = None -> get w k d = d.
Proof. unfold get. intros ->. reflexivity. Qed.

Lemma calculate_hourly_rating_bounds (w : metrics Q) :
  Frame.plausible w -> 0 <= calculate_hourly_rating PyFloat.exact w <= 100.
Proof.
  intros (Hc & Hp & Hv).
  rewrite calculate_hourly_rating_unfold.
  assert (Hc' : 0 <= get w "cloud_cover" 100 <= 100).
  { unfold get. destruct (w !! "cloud_cover") as [c |] eqn:E; simpl.
    - apply Hc; reflexivity.
    - lra. }
  assert (Hp' : 0 <= get w "precipitation_probability" 100 <= 100).
  { unfold get. destruct (w !! "precipitation_probability") as [p |] eqn:E; simpl.
    - apply Hp; reflexivity.
    - lra. }
  assert (Hv' : 0 <= get w "visibility" 0).
  { unfold get. destruct (w !! "visibility") as [v |] eqn:E; simpl.
    - apply Hv; reflexivity.
    - lra. }
  pose proof (dew_spec_range (get w "dew_point" 10)) as Hd.
  set (c := get w "cloud_cover" 100) in *.
  set (p := get w "precipitation_probability" 100) in *.
  set (v := get w "visibility" 0) in *.
  set (dw := RatingSpec.dew (get w "dew_point" 10)) in *.
  assert (Ev : v / 20000 * 100 == v * (1 # 200)) by field.
  destruct (Q.max_spec 0 (100 - c)) as [[_ Ec] | [_ Ec]];
    destruct (Q.max_spec 0 (100 - p)) as [[_ Ep] | [_ Ep]];
    destruct (Q.min_spec 100 (v / 20000 * 100)) as [[Hm Em] | [Hm Em]];
    rewrite Ec, Ep, Em; rewrite ?Ev in *; lra.
Qed.

(** C10. For every metrics dict whose cloud cover and precipitation
    probability, where present, lie in [0,100] and whose visibility, where
    present, is not negative (the dew point is arbitrary), the hourly
    rating lies in [0,100]; and a dict that has none of the four keys is
    read with the defaults 100, 100, 10 and 0 and is rated 0. *)
Theorem hourly_rating_range (w : metrics Q) :
  (forall c, w !! "cloud_cover" = Some c -> 0 <= c <= 100) ->
  (forall p, w !! "precipitation_probability" = Some p -> 0 <= p <= 100) ->
  (forall v, w !! "visibility" = Some v -> 0 <= v) ->
  0 <= calculate_hourly_rating PyFloat.exact w <= 100
  /\ (w !! "cloud_cover" = None ->
      w !! "precipitation_probability" = None ->
      w !! "dew_point" = None ->
      w !! "visibility" = None ->
      get w "cloud_cover" 100 = 100
      /\ get w "precipitation_probability" 100 = 100
      /\ get w "dew_point" (DEW_POINT_THRESHOLD_HIGH PyFloat.exact) = 10
      /\ get w "visibility" 0 = 0
      /\ calculate_hourly_rating PyFloat.exact w == 0).
Proof.
  intros Hc Hp Hv. split.
  - apply calculate_hourly_rating_bounds. unfold Frame.plausible. auto.
  - intros Ec Ep Ed Evis.
    repeat (split; [apply get_missing; assumption |]).
    rewrite calculate_hourly_rating_unfold.
    rewrite (get_missing _ _ _ Ec), (get_missing _ _ _ Ep),
      (get_missing _ _ _ Ed), (get_missing _ _ _ Evis).
    vm_compute. reflexivity.
Qed.

Lemma hourly_rating_range_witness :
  0 <= calculate_hourly_rating PyFloat.exact (hourly_entry 7 20 35 12000) <= 100
  /\ calculate_hourly_rating PyFloat.exact ∅ == 0.
Proof.
  split.
  - apply (hourly_rating_range (hourly_entry 7 20 35 12000)).
    + intros c H. vm_compute in H. injection H as <-. lra.
    + intros p H. vm_compute in H. injection H as <-. lra.
    + intros v H. vm_compute in H. injection H as <-. lra.
  - apply (hourly_rating_range ∅); try reflexivity;
      intros x H; vm_compute in H; discriminate.
Defined.

End HourlyRatingRange.

(* ===================================================================== *)
(** * Properties of the weather service *)
(* ===================================================================== *)

Section EventWeather.

Import PyDatetime Py WeatherService.

Variable ZoneInfo : string -> option tzinfo.

Lemma fold_left_Qplus (xs : list Q) (a : Q) :
  (fold_left Qplus xs a == a + fold_right Qplus 0 xs)%Q.
Proof.
  revert a. induction xs as [| x xs IH]; intros a; simpl.
  - ring.
  - rewrite IH. ring.
Qed.

Lemma py_sum_exact (xs : list Q) :
  (PyFloat.py_sum PyFloat.exact xs == fold_right Qplus 0 xs)%Q.
Proof. unfold PyFloat.py_sum; simpl. rewrite fold_left_Qplus. ring. Qed.

Lemma average_is_mean (hours : list (metrics Q)) :
  hours <> [] ->
  (calculate_average_weather_rating PyFloat.exact hours
   == RatingSpec.mean (map (calculate_hourly_rating PyFloat.exact) hours))%Q.
Proof.
  destruct hours as [| h hours]; [congruence | intros _].
  unfold calculate_average_weather_rating, RatingSpec.mean, PyFloat.py_len.
  cbn [PyFloat.div PyFloat.lit PyFloat.exact].
  unfold Qdiv. rewrite py_sum_exact. reflexivity.
Qed.

Lemma is_empty_true {A : Type} (l : list A) : is_empty l = true <-> l = [].
Proof. destruct l; simpl; split; congruence. Qed.

Lemma is_empty_false {A : Type} (l : list A) : is_empty l = false <-> l <> [].
Proof. destruct l; simpl; split; congruence. Qed.

Lemma wall_clock_plus_timedelta (dt : datetime) (d : Z) :
  wall_clock (plus_timedelta dt d) = (wall_clock dt + d)%Z.
Proof. destruct dt; reflexivity. Qed.

Lemma wall_clock_top_of_hour (dt : datetime) :
  wall_clock (replace_top_of_hour dt) = (wall_clock dt - wall_clock dt mod HOUR)%Z.
Proof. destruct dt; reflexivity. Qed.

(** The readings of the hours that [_generate_hourly_range] lists. *)
Lemma generate_hourly_range_readings (start end_ : datetime) (k : string) (tz : tzinfo) :
  ZoneInfo k = Some tz ->
  exists hourly_range,
    _generate_hourly_range ZoneInfo start end_ k = Ok hourly_range
    /\ map wall_clock hourly_range =
       map (fun i => (wall_clock (replace_top_of_hour (in_zone start tz))
                      + Z.of_nat i * HOUR)%Z)
           (seq 0 (Z.to_nat ((wall_clock (in_zone end_ tz)
                              - wall_clock (replace_top_of_hour (in_zone start tz)))
                             / HOUR + 1))).
Proof.
  intros Hz. unfold _generate_hourly_range, zone_info. rewrite Hz. simpl.
  eexists. split; [reflexivity |].
  rewrite map_map. apply map_ext. intros i.
  rewrite wall_clock_plus_timedelta. reflexivity.
Qed.

Lemma HOUR_pos : (0 < HOUR)%Z.
Proof. reflexivity. Qed.

(** A reading is among those of the range exactly when it is a full hour
    between the start, taken down to its hour, and the end. *)
Lemma hourly_readings_spec (s e h : Z) :
  h ∈ map (fun i => ((s - s mod HOUR) + Z.of_nat i * HOUR)%Z)
          (seq 0 (Z.to_nat ((e - (s - s mod HOUR)) / HOUR + 1)))
  <-> (h mod HOUR = 0 /\ s - s mod HOUR <= h <= e)%Z.
Proof.
  pose proof HOUR_pos as HP.
  set (s0 := (s - s mod HOUR)%Z).
  assert (Hs0 : (s0 mod HOUR = 0)%Z).
  { unfold s0. rewrite Zminus_mod, Zmod_mod, Z.sub_diag. reflexivity. }
  rewrite list_elem_of_fmap. split.
  - intros (i & -> & Hi). apply elem_of_seq in Hi. destruct Hi as [_ Hi].
    simpl in Hi.
    assert (Hq : (Z.of_nat i <= (e - s0) / HOUR)%Z) by lia.
    split.
    + rewrite Z.add_mod, Hs0, Z_mod_mult by lia. reflexivity.
    + split; [lia |].
      assert (Z.of_nat i * HOUR <= e - s0)%Z; [| lia].
      transitivity (HOUR * ((e - s0) / HOUR))%Z.
      * rewrite (Z.mul_comm HOUR). apply Z.mul_le_mono_nonneg_r; lia.
      * apply Z.mul_div_le. lia.
  - intros (Hh & Hlo & Hhi).
    exists (Z.to_nat ((h - s0) / HOUR)).
    assert (Hd : (HOUR * ((h - s0) / HOUR) = h - s0)%Z).
    { symmetry. apply Z_div_exact_full_2; [lia |].
      rewrite Zminus_mod, Hh, Hs0. reflexivity. }
    assert (Hq : (0 <= (h - s0) / HOUR)%Z) by (apply Z.div_pos; lia).
    split.
    + rewrite Z2Nat.id by lia. lia.
    + apply elem_of_seq. split; [lia |]. simpl.
      assert ((h - s0) / HOUR <= (e - s0) / HOUR)%Z
        by (apply Z.div_le_mono; lia).
      lia.
Qed.

Lemma matching_hours_nonempty {F : Type} (data : weather_by_time F)
    (hourly_range : list datetime) :
  matching_hours data hourly_range <> []
  <-> exists h, h ∈ map wall_clock hourly_range /\ is_Some (data !! h).
Proof.
  unfold matching_hours. split.
  - intros Hne. destruct (omap _ hourly_range) as [| m ms] eqn:E; [congruence |].
    assert (Hin : m ∈ omap (fun hour => data !! wall_clock hour) hourly_range)
      by (rewrite E; left).
    apply list_elem_of_omap in Hin. destruct Hin as (hour & Hhour & Hm).
    exists (wall_clock hour). split; [| eauto].
    apply list_elem_of_fmap. eauto.
  - intros (h & Hin & [m Hm]) E.
    apply list_elem_of_fmap in Hin. destruct Hin as (hour & -> & Hhour).
    assert (Hin : m ∈ omap (fun hour => data !! wall_clock hour) hourly_range)
      by (apply list_elem_of_omap; eauto).
    rewrite E in Hin. inversion Hin.
Qed.

(** The aggregate of at least one hour, in any float arithmetic: the sum
    of the hourly ratings, added from the left, over their number. *)
Lemma average_of_hours {F : Type} (o : PyFloat.ops F) (hours : list (metrics F)) :
  hours <> [] ->
  calculate_average_weather_rating o hours
  = PyFloat.div o (PyFloat.py_sum o (map (calculate_hourly_rating o) hours))
      (PyFloat.py_len o (map (calculate_hourly_rating o) hours)).
Proof. destruct hours; [congruence | reflexivity]. Qed.

(** What [get_event_weather] returns, in any float arithmetic. *)
Lemma get_event_weather_cases {F : Type} (o : PyFloat.ops F) (data : weather_by_time F)
    (event_start event_end : datetime) (config : Configuration.t)
    (hourly_range : list datetime) :
  _generate_hourly_range ZoneInfo event_start event_end (Configuration.timezone config)
    = Ok hourly_range ->
  let hourly_data := matching_hours data hourly_range in
  let aggregate := calculate_average_weather_rating o hourly_data in
  (hourly_data = []
   /\ get_event_weather ZoneInfo o data event_start event_end config
      = Ok (None, false, false))
  \/ (hourly_data <> []
      /\ get_event_weather ZoneInfo o data event_start event_end config
         = Ok (Some aggregate, PyFloat.ltb o aggregate (weather_threshold o config), true)).
Proof.
  intros Hrange hourly_data aggregate.
  unfold get_event_weather. rewrite Hrange. cbn [bind].
  fold hourly_data. destruct hourly_data as [| m ms] eqn:E.
  - left. split; reflexivity.
  - right. split; [discriminate | reflexivity].
Qed.

End EventWeather.

Section GetEventWeather.

Import PyDatetime Py WeatherService.

Variable ZoneInfo : string -> option tzinfo.

(** C6. In any float arithmetic, and so in binary64: when the configured
    zone is known, [get_event_weather] returns a triple (rating, warning,
    forecast) such that the hours it looks up are exactly the full hours
    from the start, taken down to its hour, to the end, both included,
    read in the configured zone; warning is true exactly when a rating is
    present and tests strictly below the threshold; forecast is true
    exactly when the fetched data has an entry for one of those hours; a
    rating is present exactly when some hour matches, and is then the
    aggregate of the matching hours, which is the sum of their hourly
    ratings over their number; the aggregate of no hours is 0. In exact
    arithmetic the aggregate is the arithmetic mean and the test is the
    order of the rationals. For the one hour of [hazy_hour] and the
    threshold 31 the exact rating is 31, without a warning, and the
    binary64 rating is 30.999999999999996, with a warning. *)
Theorem get_event_weather_spec :
  (forall (F : Type) (o : PyFloat.ops F) (data : weather_by_time F)
          (event_start event_end : datetime) (config : Configuration.t) (tz : tzinfo),
     ZoneInfo (Configuration.timezone config) = Some tz ->
     let start_reading := wall_clock (in_zone event_start tz) in
     let first_hour := (start_reading - start_reading mod HOUR)%Z in
     let end_reading := wall_clock (in_zone event_end tz) in
     let in_range :=
       fun h : Z => (h mod HOUR = 0 /\ first_hour <= h <= end_reading)%Z in
     exists hourly_range rating warning forecast,
       _generate_hourly_range ZoneInfo event_start event_end
         (Configuration.timezone config) = Ok hourly_range
       /\ get_event_weather ZoneInfo o data event_start event_end config
          = Ok (rating, warning, forecast)
       /\ (forall h, h ∈ map wall_clock hourly_range <-> in_range h)
       /\ (warning = true <->
           exists r, rating = Some r
                     /\ PyFloat.ltb o r (weather_threshold o config) = true)
       /\ (forecast = true <-> exists h, in_range h /\ is_Some (data !! h))
       /\ let hourly_data := matching_hours data hourly_range in
          let ratings := map (calculate_hourly_rating o) hourly_data in
          let aggregate := calculate_average_weather_rating o hourly_data in
          (hourly_data = [] -> rating = None /\ aggregate = PyFloat.lit o 0)
          /\ (hourly_data <> [] ->
              rating = Some aggregate
              /\ aggregate
                 = PyFloat.div o (PyFloat.py_sum o ratings) (PyFloat.py_len o ratings)))
  /\ (forall hourly_data : list (metrics Q),
        hourly_data <> [] ->
        (calculate_average_weather_rating PyFloat.exact hourly_data
         == RatingSpec.mean (map (calculate_hourly_rating PyFloat.exact) hourly_data))%Q)
  /\ (forall (r : Q) (config : Configuration.t),
        PyFloat.ltb PyFloat.exact r (weather_threshold PyFloat.exact config) = true
        <-> (r < inject_Z (Configuration.weather_threshold config))%Q)
  /\ (exists r : Q,
        get_event_weather Scenario.zoneinfo_db PyFloat.exact
          (Examples.hazy_hour PyFloat.exact)
          (Naive (Scenario.reading Scenario.june_1st 18 30))
          (Naive (Scenario.reading Scenario.june_1st 22 0)) Examples.config_31
        = Ok (Some r, false, true)
        /\ (r == 31)%Q)
  /\ get_event_weather Scenario.zoneinfo_db PyFloat.binary64
       (Examples.hazy_hour PyFloat.binary64)
       (Naive (Scenario.reading Scenario.june_1st 18 30))
       (Naive (Scenario.reading Scenario.june_1st 22 0)) Examples.config_31
     = Ok (Some 0x1e.ffffffffffffp0%float, true, true).
Proof.
  split; [| split; [| split; [| split]]].
  - intros F o data event_start event_end config tz Hz
      start_reading first_hour end_reading in_range.
    destruct (generate_hourly_range_readings ZoneInfo event_start event_end _ _ Hz)
      as (hourly_range & Hrange & Hreadings).
    rewrite wall_clock_top_of_hour in Hreadings.
    fold start_reading first_hour end_reading in Hreadings.
    assert (Hin : forall h, h ∈ map wall_clock hourly_range <-> in_range h).
    { intros h. rewrite Hreadings. apply hourly_readings_spec. }
    pose proof (matching_hours_nonempty data hourly_range) as Hmatch.
    destruct (get_event_weather_cases ZoneInfo o data event_start event_end config
                hourly_range Hrange) as [[Hnil Hget] | [Hne Hget]].
    + exists hourly_range, None, false, false.
      split; [exact Hrange |]. split; [exact Hget |]. split; [exact Hin |].
      split; [| split; [| split]].
      * split; [discriminate | intros (r & Hr & _); discriminate].
      * split; [discriminate |].
        intros (h & Hh & Hdata). exfalso.
        apply (proj2 Hmatch); [| exact Hnil].
        exists h. split; [apply Hin; exact Hh | exact Hdata].
      * intros _. split; [reflexivity |]. rewrite Hnil. reflexivity.
      * intros H. contradiction.
    + eexists hourly_range, _, _, _.
      split; [exact Hrange |]. split; [exact Hget |]. split; [exact Hin |].
      split; [| split; [| split]].
      * split.
        -- intros H. eexists. split; [reflexivity | exact H].
        -- intros (r & Hr & Hlt). injection Hr as <-. exact Hlt.
      * split; [intros _ | reflexivity].
        apply Hmatch in Hne. destruct Hne as (h & Hh & Hdata).
        exists h. split; [apply Hin; exact Hh | exact Hdata].
      * intros H. contradiction.
      * intros _. split; [reflexivity |]. apply average_of_hours. exact Hne.
  - intros hourly_data Hne. apply average_is_mean. exact Hne.
  - intros r config. apply Qltb_true.
  - eexists. split; [vm_compute; reflexivity | vm_compute; reflexivity].
  - vm_compute. reflexivity.
Qed.

End GetEventWeather.

Section WeatherRefresh.

Import PyDatetime Py WeatherService.

Variable ZoneInfo : string -> option tzinfo.

Context {F : Type} (o : PyFloat.ops F).
Variable value : F -> Q.

(** What [_update_event_weather] does to one event. *)
Lemma update_event_weather_spec (event : Slot.t) (data : weather_by_time F)
    (config : Configuration.t) (tz : tzinfo) :
  ZoneInfo (Configuration.timezone config) = Some tz ->
  exists hourly_range event',
    _generate_hourly_range ZoneInfo (Naive (Slot.start_time event))
      (Naive (Slot.end_time event)) (Configuration.timezone config) = Ok hourly_range
    /\ _update_event_weather ZoneInfo o value event data config = Ok event'
    /\ Frame.non_weather_fields event' = Frame.non_weather_fields event
    /\ let hourly_data := matching_hours data hourly_range in
       let ratings := map (calculate_hourly_rating o) hourly_data in
       let rating := calculate_average_weather_rating o hourly_data in
       (hourly_data = [] ->
        Slot.weather_forecast event' = false
        /\ Slot.weather_rating event' = Slot.weather_rating event
        /\ Slot.weather_warning event' = Slot.weather_warning event)
       /\ (hourly_data <> [] ->
           Slot.weather_rating event' = Some (value rating)
           /\ rating = PyFloat.div o (PyFloat.py_sum o ratings) (PyFloat.py_len o ratings)
           /\ Slot.weather_warning event'
              = PyFloat.ltb o rating (weather_threshold o config)
           /\ Slot.weather_forecast event' = true).
Proof.
  intros Hz.
  destruct (generate_hourly_range_readings ZoneInfo (Naive (Slot.start_time event))
              (Naive (Slot.end_time event)) _ _ Hz) as (hourly_range & Hrange & _).
  unfold _update_event_weather. rewrite Hrange. cbn [bind].
  remember (matching_hours data hourly_range) as hourly_data eqn:Hdef.
  exists hourly_range.
  destruct (is_empty hourly_data) eqn:E.
  - apply is_empty_true in E. eexists.
    split; [reflexivity |]. split; [reflexivity |]. split; [reflexivity |].
    cbv zeta. rewrite <- Hdef. split; [| congruence].
    intros _. repeat split.
  - apply is_empty_false in E. eexists.
    split; [reflexivity |]. split; [reflexivity |]. split; [reflexivity |].
    cbv zeta. rewrite <- Hdef. split; [congruence |].
    intros _. split; [reflexivity |].
    split; [apply average_of_hours; exact E |].
    split; reflexivity.
Qed.

(** The rows that the loop updates are those that the query returns. *)
Lemma upcoming_events_spec (rows : list Slot.t) (k : string) (now : Z) (tz : tzinfo) :
  ZoneInfo k = Some tz ->
  exists events,
    _get_upcoming_events ZoneInfo rows k now = Ok events
    /\ forall event, event ∈ events <-> event ∈ rows /\ upcoming tz now event = true.
Proof.
  intros Hz. unfold _get_upcoming_events, zone_info. rewrite Hz. cbn [bind].
  eexists. split; [reflexivity |]. intros event.
  rewrite !list_elem_of_In, List.filter_In. reflexivity.
Qed.

Lemma update_rows_lookup (tz : tzinfo) (now : Z) (data : weather_by_time F)
    (config : Configuration.t) (rows : list Slot.t) :
  ZoneInfo (Configuration.timezone config) = Some tz ->
  exists rows',
    update_rows ZoneInfo o value tz now data config rows = Ok rows'
    /\ length rows' = length rows
    /\ forall (i : nat) (event : Slot.t),
         rows !! i = Some event ->
         exists event',
           rows' !! i = Some event'
           /\ (if upcoming tz now event
               then _update_event_weather ZoneInfo o value event data config = Ok event'
               else event' = event).
Proof.
  intros Hz. induction rows as [| r rows IH].
  - exists []. split; [reflexivity |]. split; [reflexivity |].
    intros i event H. destruct i; discriminate.
  - destruct IH as (rows' & Hrows & Hlen & Hlookup).
    destruct (update_event_weather_spec r data config tz Hz)
      as (_ & r' & _ & Hr & _).
    cbn [update_rows]. rewrite Hrows.
    destruct (upcoming tz now r) eqn:Eup.
    + rewrite Hr. cbn [bind]. eexists. split; [reflexivity |].
      split; [simpl; congruence |].
      intros [| i] event H; simpl in H.
      * injection H as <-. exists r'. rewrite Eup. split; [reflexivity | exact Hr].
      * apply Hlookup. exact H.
    + cbn [bind]. eexists. split; [reflexivity |].
      split; [simpl; congruence |].
      intros [| i] event H; simpl in H.
      * injection H as <-. exists r. rewrite Eup. split; reflexivity.
      * apply Hlookup. exact H.
Qed.

(** Whatever the commit does, the refresh writes to no other table, and
    the slots table is either the one the loop built or the old one. *)
Lemma update_events_weather_tables (db : Models.Database) (data : weather_by_time F)
    (now : Z) (tz : tzinfo) (rows : list Slot.t) :
  let config := fst (Models.get_config db) in
  ZoneInfo (Configuration.timezone config) = Some tz ->
  update_rows ZoneInfo o value tz now data config (Models.slots db) = Ok rows ->
  let db' := update_events_weather ZoneInfo o value db data now in
  Models.bookings db' = Models.bookings db
  /\ Models.users db' = Models.users db
  /\ (commit_rows (Models.slots db) rows = Ok rows -> Models.slots db' = rows)
  /\ (commit_rows (Models.slots db) rows = Raise IntegrityError ->
      Models.slots db' = Models.slots db).
Proof.
  intros config Hz Hrows db'.
  unfold db', update_events_weather. subst config.
  unfold Models.get_config in *.
  destruct (Models.configuration db); cbn [fst snd] in *;
    unfold zone_info; rewrite Hz; cbn [bind]; simpl; rewrite Hrows; cbn [bind];
    unfold commit_rows; destruct (forallb _ _); simpl;
    repeat split; try reflexivity; discriminate.
Qed.

Lemma same_rating_refl (r : option Q) : Slot.same_rating r r = true.
Proof. destruct r as [x |]; simpl; [apply Qeq_bool_iff; reflexivity | reflexivity]. Qed.

Lemma check_on_update_same (s : Slot.t) : Slot.check_on_update s s = true.
Proof.
  unfold Slot.check_on_update. rewrite !Z.eqb_refl, same_rating_refl. reflexivity.
Qed.

Lemma commit_rows_passes (old new : list Slot.t) :
  length new = length old ->
  (forall i o n, old !! i = Some o -> new !! i = Some n ->
                 Slot.check_on_update o n = true) ->
  commit_rows old new = Ok new.
Proof.
  intros Hlen H. unfold commit_rows.
  assert (Hall : forallb (fun '(o, n) => Slot.check_on_update o n) (zip old new) = true).
  { revert new Hlen H. induction old as [| o' old IH]; intros [| n new] Hlen H;
      try reflexivity; try discriminate.
    simpl. rewrite (H 0%nat o' n eq_refl eq_refl). simpl.
    apply IH; [simpl in Hlen; lia |].
    intros i o'' n' Ho Hn. apply (H (S i)); assumption. }
  rewrite Hall. reflexivity.
Qed.

(** The row that [_update_event_weather] leaves passes the CHECK
    constraints when the rating it has computed, if any, denotes a
    number between 0 and 100. *)
Lemma updated_event_checks (event : Slot.t) (data : weather_by_time F)
    (config : Configuration.t) (tz : tzinfo) (event' : Slot.t) :
  ZoneInfo (Configuration.timezone config) = Some tz ->
  (forall hours : list (metrics F),
     hours <> [] -> (forall m, m ∈ hours -> exists h, data !! h = Some m) ->
     (0 <= value (calculate_average_weather_rating o hours) <= 100)%Q) ->
  _update_event_weather ZoneInfo o value event data config = Ok event' ->
  Slot.check_on_update event event' = true.
Proof.
  intros Hz Hdata Hupd.
  destruct (update_event_weather_spec event data config tz Hz)
    as (hourly_range & e & _ & Hupd' & Hframe & Hnone & Hsome).
  rewrite Hupd in Hupd'. injection Hupd' as <-.
  unfold Frame.non_weather_fields in Hframe.
  injection Hframe as _ _ _ Hst Het Hmax _.
  unfold Slot.check_on_update.
  rewrite Hst, Het, Hmax, !Z.eqb_refl. simpl.
  rewrite andb_true_r.
  destruct (matching_hours data hourly_range) as [| m ms] eqn:E.
  - destruct (Hnone eq_refl) as (_ & -> & _). rewrite same_rating_refl. reflexivity.
  - assert (Hne : m :: ms <> []) by discriminate.
    destruct (Hsome Hne) as (Hr & _).
    apply orb_true_iff. right.
    unfold Slot.check_weather_rating_range. rewrite Hr.
    destruct (Hdata (m :: ms) Hne) as [Hlo Hhi].
    { intros w Hw. rewrite <- E in Hw. apply list_elem_of_omap in Hw.
      destruct Hw as (hour & _ & Hlookup). eauto. }
    apply andb_true_iff. split; apply Qle_bool_iff; assumption.
Qed.

(** The commit of the refresh goes through when the ratings that the
    loop computes denote numbers between 0 and 100. *)
Lemma refresh_commits (tz : tzinfo) (now : Z) (data : weather_by_time F)
    (config : Configuration.t) (rows rows' : list Slot.t) :
  ZoneInfo (Configuration.timezone config) = Some tz ->
  (forall hours : list (metrics F),
     hours <> [] -> (forall m, m ∈ hours -> exists h, data !! h = Some m) ->
     (0 <= value (calculate_average_weather_rating o hours) <= 100)%Q) ->
  update_rows ZoneInfo o value tz now data config rows = Ok rows' ->
  commit_rows rows rows' = Ok rows'.
Proof.
  intros Hz Hdata Hrows.
  destruct (update_rows_lookup tz now data config rows Hz)
    as (rows'' & Hrows'' & Hlen & Hlookup).
  rewrite Hrows in Hrows''. injection Hrows'' as <-.
  apply commit_rows_passes; [exact Hlen |].
  intros i old n Ho Hn. destruct (Hlookup i old Ho) as (n' & Hn' & Hcase).
  rewrite Hn in Hn'. injection Hn' as <-.
  destruct (upcoming tz now old).
  - apply (updated_event_checks old data config tz); assumption.
  - subst n. apply check_on_update_same.
Qed.

(** What the refresh does to a slot that the query selects, in any float
    arithmetic. *)
Lemma refreshed_slot (db : Models.Database) (data : weather_by_time F)
    (now : Z) (tz : tzinfo) (i : nat) (event : Slot.t) :
  let config := fst (Models.get_config db) in
  ZoneInfo (Configuration.timezone config) = Some tz ->
  Models.slots db !! i = Some event ->
  upcoming tz now event = true ->
  let db' := update_events_weather ZoneInfo o value db data now in
  exists events hourly_range event' rows,
    _get_upcoming_events ZoneInfo (Models.slots db) (Configuration.timezone config) now
      = Ok events
    /\ event ∈ events
    /\ _generate_hourly_range ZoneInfo (Naive (Slot.start_time event))
         (Naive (Slot.end_time event)) (Configuration.timezone config) = Ok hourly_range
    /\ _update_event_weather ZoneInfo o value event data config = Ok event'
    /\ update_rows ZoneInfo o value tz now data config (Models.slots db) = Ok rows
    /\ rows !! i = Some event'
    /\ Frame.non_weather_fields event' = Frame.non_weather_fields event
    /\ (let hourly_data := matching_hours data hourly_range in
        let ratings := map (calculate_hourly_rating o) hourly_data in
        let rating := calculate_average_weather_rating o hourly_data in
        (hourly_data = [] ->
         Slot.weather_forecast event' = false
         /\ Slot.weather_rating event' = Slot.weather_rating event
         /\ Slot.weather_warning event' = Slot.weather_warning event)
        /\ (hourly_data <> [] ->
            Slot.weather_rating event' = Some (value rating)
            /\ rating
               = PyFloat.div o (PyFloat.py_sum o ratings) (PyFloat.py_len o ratings)
            /\ Slot.weather_warning event'
               = PyFloat.ltb o rating (weather_threshold o config)
            /\ Slot.weather_forecast event' = true))
    /\ Models.bookings db' = Models.bookings db
    /\ Models.users db' = Models.users db
    /\ (commit_rows (Models.slots db) rows = Ok rows ->
        Models.slots db' = rows /\ Models.slots db' !! i = Some event')
    /\ (commit_rows (Models.slots db) rows = Raise IntegrityError ->
        Models.slots db' = Models.slots db).
Proof.
  intros config Hz Hi Hup db'.
  destruct (upcoming_events_spec (Models.slots db) _ now tz Hz)
    as (events & Hevents & Hmem).
  destruct (update_event_weather_spec event data config tz Hz)
    as (hourly_range & event' & Hrange & Hupd & Hframe & Hcases).
  destruct (update_rows_lookup tz now data config (Models.slots db) Hz)
    as (rows & Hrows & _ & Hlookup).
  destruct (Hlookup i event Hi) as (event'' & Hi' & Hev).
  rewrite Hup, Hupd in Hev. injection Hev as <-.
  destruct (update_events_weather_tables db data now tz rows Hz Hrows)
    as (Hb & Hu & Hcommit & Hroll).
  exists events, hourly_range, event', rows.
  split; [exact Hevents |].
  split; [apply Hmem; split; [apply list_elem_of_lookup; eauto | exact Hup] |].
  split; [exact Hrange |]. split; [exact Hupd |]. split; [exact Hrows |].
  split; [exact Hi' |]. split; [exact Hframe |]. split; [exact Hcases |].
  split; [exact Hb |]. split; [exact Hu |]. split; [| exact Hroll].
  intros Hc. unfold db'. rewrite (Hcommit Hc). split; [reflexivity | exact Hi'].
Qed.

End WeatherRefresh.

Section RefreshInExactArithmetic.

Import PyDatetime Py WeatherService.

Variable ZoneInfo : string -> option tzinfo.

Lemma sum_in_range (xs : list Q) :
  (forall x, x ∈ xs -> 0 <= x <= 100)%Q ->
  (0 <= fold_right Qplus 0 xs <= 100 * inject_Z (Z.of_nat (length xs)))%Q.
Proof.
  induction xs as [| x xs IH]; intros H.
  - cbn [fold_right length]. change (inject_Z (Z.of_nat 0)) with 0%Q. lra.
  - assert (Hx : (0 <= x <= 100)%Q) by (apply H; left).
    assert (Hxs : (0 <= fold_right Qplus 0 xs
                   <= 100 * inject_Z (Z.of_nat (length xs)))%Q).
    { apply IH. intros y Hy. apply H. right. exact Hy. }
    cbn [fold_right length]. rewrite Nat2Z.inj_succ. unfold Z.succ.
    rewrite inject_Z_plus. change (inject_Z 1) with 1%Q.
    set (n := inject_Z (Z.of_nat (length xs))) in *.
    set (total := fold_right Qplus 0%Q xs) in *. lra.
Qed.

Lemma mean_in_range (xs : list Q) :
  xs <> [] ->
  (forall x, x ∈ xs -> 0 <= x <= 100)%Q ->
  (0 <= RatingSpec.mean xs <= 100)%Q.
Proof.
  intros Hne H. pose proof (sum_in_range xs H) as [Hlo Hhi].
  assert (Hn : (0 < inject_Z (Z.of_nat (length xs)))%Q).
  { destruct xs as [| x xs]; [congruence |].
    change 0%Q with (inject_Z 0). rewrite <- Zlt_Qlt. simpl. lia. }
  unfold RatingSpec.mean. split.
  - apply Qle_shift_div_l; [exact Hn |]. lra.
  - apply Qle_shift_div_r; [exact Hn |]. lra.
Qed.

(** In exact arithmetic the aggregate of hours whose values are as the
    provider documents them lies between 0 and 100. *)
Lemma exact_average_in_range (data : weather_by_time Q) (hours : list (metrics Q)) :
  (forall h m, data !! h = Some m -> Frame.plausible m) ->
  hours <> [] -> (forall m, m ∈ hours -> exists h, data !! h = Some m) ->
  (0 <= PyFloat.exact_value (calculate_average_weather_rating PyFloat.exact hours)
   <= 100)%Q.
Proof.
  intros Hdata Hne Hhours. unfold PyFloat.exact_value.
  rewrite average_is_mean by exact Hne.
  apply mean_in_range.
  - destruct hours; [congruence | discriminate].
  - intros x Hx. apply list_elem_of_fmap in Hx. destruct Hx as (w & -> & Hw).
    apply calculate_hourly_rating_bounds.
    destruct (Hhours w Hw) as (h & Hh). eapply Hdata. exact Hh.
Qed.

(** C8 (amended). When the periodic refresh runs with a known configured
    zone, in any float arithmetic and so in binary64: a slot that
    [_get_upcoming_events] selects (its start lies in the window of the
    next seven days) and for which no forecast hour matches gets
    [weather_forecast] set to false, while [weather_rating] and
    [weather_warning] are not assigned and keep the values they had; a
    selected slot with matching hours gets as its rating the number that
    the aggregate of the matching hours denotes, the aggregate being the
    sum of their hourly ratings over their number, the warning
    (rating < threshold) and [weather_forecast] true. In both cases the
    columns that are not about the weather are unchanged, and so are the
    users and bookings tables; after a commit that passes the CHECK
    constraints the slots table is the one the loop has built, and after
    one that does not it is the old one. In exact arithmetic the
    aggregate is the arithmetic mean of the hourly ratings, the test is
    the order of the rationals, and the commit passes whenever the
    forecast values are as the provider documents them. *)
Theorem update_events_weather_frame :
  (forall (F : Type) (o : PyFloat.ops F) (value : F -> Q)
          (db : Models.Database) (data : weather_by_time F)
          (now : Z) (tz : tzinfo) (i : nat) (event : Slot.t),
     let config := fst (Models.get_config db) in
     ZoneInfo (Configuration.timezone config) = Some tz ->
     Models.slots db !! i = Some event ->
     upcoming tz now event = true ->
     let db' := update_events_weather ZoneInfo o value db data now in
     exists events hourly_range event' rows,
       _get_upcoming_events ZoneInfo (Models.slots db) (Configuration.timezone config) now
         = Ok events
       /\ event ∈ events
       /\ _generate_hourly_range ZoneInfo (Naive (Slot.start_time event))
            (Naive (Slot.end_time event)) (Configuration.timezone config)
          = Ok hourly_range
       /\ _update_event_weather ZoneInfo o value event data config = Ok event'
       /\ update_rows ZoneInfo o value tz now data config (Models.slots db) = Ok rows
       /\ rows !! i = Some event'
       /\ Frame.non_weather_fields event' = Frame.non_weather_fields event
       /\ (let hourly_data := matching_hours data hourly_range in
           let ratings := map (calculate_hourly_rating o) hourly_data in
           let rating := calculate_average_weather_rating o hourly_data in
           (hourly_data = [] ->
            Slot.weather_forecast event' = false
            /\ Slot.weather_rating event' = Slot.weather_rating event
            /\ Slot.weather_warning event' = Slot.weather_warning event)
           /\ (hourly_data <> [] ->
               Slot.weather_rating event' = Some (value rating)
               /\ rating
                  = PyFloat.div o (PyFloat.py_sum o ratings) (PyFloat.py_len o ratings)
               /\ Slot.weather_warning event'
                  = PyFloat.ltb o rating (weather_threshold o config)
               /\ Slot.weather_forecast event' = true))
       /\ Models.bookings db' = Models.bookings db
       /\ Models.users db' = Models.users db
       /\ (commit_rows (Models.slots db) rows = Ok rows ->
           Models.slots db' = rows /\ Models.slots db' !! i = Some event')
       /\ (commit_rows (Models.slots db) rows = Raise IntegrityError ->
           Models.slots db' = Models.slots db))
  /\ (forall hourly_data : list (metrics Q),
        hourly_data <> [] ->
        (calculate_average_weather_rating PyFloat.exact hourly_data
         == RatingSpec.mean (map (calculate_hourly_rating PyFloat.exact) hourly_data))%Q)
  /\ (forall (r : Q) (config : Configuration.t),
        PyFloat.ltb PyFloat.exact r (weather_threshold PyFloat.exact config) = true
        <-> (r < inject_Z (Configuration.weather_threshold config))%Q)
  /\ (forall (db : Models.Database) (data : weather_by_time Q) (now : Z) (tz : tzinfo)
             (rows : list Slot.t),
        ZoneInfo (Configuration.timezone (fst (Models.get_config db))) = Some tz ->
        (forall h m, data !! h = Some m -> Frame.plausible m) ->
        update_rows ZoneInfo PyFloat.exact PyFloat.exact_value tz now data
          (fst (Models.get_config db)) (Models.slots db) = Ok rows ->
        commit_rows (Models.slots db) rows = Ok rows).
Proof.
  split; [| split; [| split]].
  - intros F o value db data now tz i event config Hz Hi Hup db'.
    exact (refreshed_slot ZoneInfo o value db data now tz i event Hz Hi Hup).
  - intros hourly_data Hne. apply average_is_mean. exact Hne.
  - intros r config. apply Qltb_true.
  - intros db data now tz rows Hz Hdata Hrows.
    apply (refresh_commits ZoneInfo PyFloat.exact PyFloat.exact_value tz now data
             (fst (Models.get_config db))); [exact Hz | | exact Hrows].
    intros hours Hne Hhours. apply (exact_average_in_range data); assumption.
Qed.

End RefreshInExactArithmetic.

(** C8 as stated fails. The refresh of 12:00 stores for [evening] the
    rating 30.999999999999996 with a warning. At 15:00 the fetch hands
    over no forecast: [evening] is among the slots that the query
    selects, no hour matches, and the refresh sets [weather_forecast] to
    false but leaves the rating and the warning of 12:00 where they
    are, so that the rating is not unset. *)
Lemma stale_rating_survives_refresh :
  map (fun s => (Slot.weather_rating s, Slot.weather_warning s, Slot.weather_forecast s))
      (Models.slots Examples.db_31)
    = [(None, false, false)]
  /\ map (fun s => (Slot.weather_rating s, Slot.weather_warning s, Slot.weather_forecast s))
         (Models.slots Examples.refreshed_at_noon)
     = [(Some (8725724278030335 # 281474976710656), true, true)]
  /\ WeatherService._get_upcoming_events Scenario.zoneinfo_db
       (Models.slots Examples.refreshed_at_noon) "UTC"
       (Scenario.reading (Scenario.june_1st - 1) 15 0)
     = Py.Ok (Models.slots Examples.refreshed_at_noon)
  /\ (forall hourly_range : list PyDatetime.datetime,
        WeatherService.matching_hours (F := float) ∅ hourly_range = [])
  /\ map (fun s => (Slot.weather_rating s, Slot.weather_warning s, Slot.weather_forecast s))
         (Models.slots Examples.refreshed_at_three)
     = [(Some (8725724278030335 # 281474976710656), true, false)]
  /\ map Slot.weather_rating (Models.slots Examples.refreshed_at_three) <> [None].
Proof.
  split; [| split; [| split; [| split; [| split]]]]; try (vm_compute; reflexivity).
  - intros hourly_range. unfold WeatherService.matching_hours.
    induction hourly_range as [| h hs IH]; [reflexivity |].
    simpl. rewrite lookup_empty. exact IH.
  - vm_compute. discriminate.
Qed.

(* ===================================================================== *)
(** * Properties of the booking service *)
(* ===================================================================== *)

Section Tables.

Import Models.
Open Scope Z_scope.

Lemma first_some_elem {A : Type} (p : A -> bool) (rows : list A) (r : A) :
  first p rows = Some r -> r ∈ rows /\ p r = true.
Proof.
  unfold first. intros H. apply find_some in H. destruct H as [Hin Hp].
  split; [apply list_elem_of_In; exact Hin | exact Hp].
Qed.

Lemma first_none {A : Type} (p : A -> bool) (rows : list A) :
  first p rows = None <-> forall r, r ∈ rows -> p r = false.
Proof.
  unfold first. split.
  - intros H r Hin. apply (find_none p rows H). apply list_elem_of_In. exact Hin.
  - intros H. induction rows as [| r rows IH]; [reflexivity |]. simpl.
    rewrite (H r) by left. apply IH. intros r' Hr'. apply H. right. exact Hr'.
Qed.

Lemma count_nil {A : Type} (p : A -> bool) : count p [] = 0.
Proof. reflexivity. Qed.

Lemma count_cons {A : Type} (p : A -> bool) (r : A) (rows : list A) :
  count p (r :: rows) = (if p r then 1 else 0) + count p rows.
Proof.
  unfold count. simpl. destruct (p r); simpl; lia.
Qed.

Lemma count_app {A : Type} (p : A -> bool) (l1 l2 : list A) :
  count p (l1 ++ l2) = count p l1 + count p l2.
Proof.
  unfold count. rewrite List.filter_app, length_app. lia.
Qed.

Lemma count_nonneg {A : Type} (p : A -> bool) (rows : list A) : 0 <= count p rows.
Proof. unfold count. lia. Qed.

Lemma count_zero {A : Type} (p : A -> bool) (rows : list A) :
  (forall r, r ∈ rows -> p r = false) -> count p rows = 0.
Proof.
  induction rows as [| r rows IH]; intros H; [reflexivity |].
  rewrite count_cons, (H r) by left. rewrite IH; [lia |].
  intros r' Hr'. apply H. right. exact Hr'.
Qed.

(** Deleting the first row under [p] takes one row away, and it is a row
    that passes [p]. *)
Lemma count_delete_first {A : Type} (p q : A -> bool) (rows : list A) (r0 : A) :
  first p rows = Some r0 ->
  count q (delete_first p rows) = count q rows - (if q r0 then 1 else 0).
Proof.
  unfold first. induction rows as [| r rows IH]; simpl; [discriminate |].
  destruct (p r) eqn:E.
  - intros [= <-]. rewrite count_cons. lia.
  - intros H. rewrite !count_cons, (IH H). lia.
Qed.

Lemma delete_first_app_new {A : Type} (p : A -> bool) (rows : list A) (r : A) :
  first p rows = None -> p r = true -> delete_first p (rows ++ [r]) = rows.
Proof.
  unfold first. induction rows as [| r' rows IH]; simpl; intros Hnone Hp.
  - rewrite Hp. reflexivity.
  - destruct (p r'); [discriminate |]. rewrite IH by assumption. reflexivity.
Qed.

Lemma first_app_new {A : Type} (p : A -> bool) (rows : list A) (r : A) :
  first p rows = None -> p r = true -> first p (rows ++ [r]) = Some r.
Proof.
  unfold first. induction rows as [| r' rows IH]; simpl; intros Hnone Hp.
  - rewrite Hp. reflexivity.
  - destruct (p r'); [discriminate |]. apply IH; assumption.
Qed.

Lemma update_slot_ids (row : Slot.t) (rows : list Slot.t) :
  map Slot.id (update_slot row rows) = map Slot.id rows.
Proof.
  induction rows as [| r rows IH]; simpl; [reflexivity |].
  destruct (Slot.id r =? Slot.id row) eqn:E; simpl.
  - apply Z.eqb_eq in E. rewrite E. reflexivity.
  - rewrite IH. reflexivity.
Qed.

Lemma update_slot_elem (row : Slot.t) (rows : list Slot.t) (s : Slot.t) :
  NoDup (map Slot.id rows) ->
  s ∈ update_slot row rows ->
  s = row \/ (s ∈ rows /\ Slot.id s <> Slot.id row).
Proof.
  induction rows as [| r rows IH]; simpl; intros Hnd Hin.
  - inversion Hin.
  - apply NoDup_cons in Hnd. destruct Hnd as [Hr Hnd].
    destruct (Slot.id r =? Slot.id row) eqn:E.
    + apply Z.eqb_eq in E. apply elem_of_cons in Hin.
      destruct Hin as [-> | Hin]; [left; reflexivity |].
      right. split; [right; exact Hin |].
      intros Heq. apply Hr. rewrite E, <- Heq.
      apply list_elem_of_fmap. exists s. split; [reflexivity | exact Hin].
    + apply Z.eqb_neq in E. apply elem_of_cons in Hin.
      destruct Hin as [-> | Hin].
      * right. split; [left | exact E].
      * destruct (IH Hnd Hin) as [-> | [Hs Hne]]; [left; reflexivity |].
        right. split; [right; exact Hs | exact Hne].
Qed.

(** Writing back a row that differs from the stored one in nothing. *)
Lemma update_slot_same (sid : Z) (rows : list Slot.t) (slot : Slot.t) :
  first (fun s => Slot.id s =? sid) rows = Some slot ->
  update_slot slot rows = rows.
Proof.
  unfold first. induction rows as [| r rows IH]; simpl; [discriminate |].
  destruct (Slot.id r =? sid) eqn:E.
  - intros [= <-]. rewrite Z.eqb_refl. reflexivity.
  - intros H. pose proof (find_some _ _ H) as [_ Hid].
    apply Z.eqb_eq in Hid. rewrite Hid, E, (IH H). reflexivity.
Qed.

(** Two writes to the same row: the later one wins. *)
Lemma update_slot_twice (row1 row2 : Slot.t) (rows : list Slot.t) :
  Slot.id row1 = Slot.id row2 ->
  update_slot row2 (update_slot row1 rows) = update_slot row2 rows.
Proof.
  intros Hid. induction rows as [| r rows IH]; simpl; [reflexivity |].
  rewrite Hid. destruct (Slot.id r =? Slot.id row2) eqn:E; simpl.
  - rewrite Hid, Z.eqb_refl. reflexivity.
  - rewrite E, IH. reflexivity.
Qed.

Lemma first_update_slot (sid : Z) (row : Slot.t) (rows : list Slot.t) (slot : Slot.t) :
  first (fun s => Slot.id s =? sid) rows = Some slot ->
  Slot.id row = sid ->
  first (fun s => Slot.id s =? sid) (update_slot row rows) = Some row.
Proof.
  unfold first. intros H Hrow. subst sid.
  induction rows as [| r rows IH]; simpl in *; [discriminate |].
  destruct (Slot.id r =? Slot.id row) eqn:E; simpl.
  - rewrite Z.eqb_refl. reflexivity.
  - rewrite E. apply IH. exact H.
Qed.

Lemma get_config_slots (db : Database) : slots (snd (get_config db)) = slots db.
Proof. unfold get_config. destruct (configuration db); reflexivity. Qed.

Lemma get_config_bookings (db : Database) :
  bookings (snd (get_config db)) = bookings db.
Proof. unfold get_config. destruct (configuration db); reflexivity. Qed.

Lemma get_config_users (db : Database) : users (snd (get_config db)) = users db.
Proof. unfold get_config. destruct (configuration db); reflexivity. Qed.

End Tables.

(** Reading the configuration touches no other table. *)
Create Rewrite HintDb tables.
#[global] Hint Rewrite get_config_slots get_config_bookings get_config_users : tables.

(** A call that ends with a message other than the success message and
    has written to no table but the configuration. *)
Ltac tables_kept :=
  left; simpl; autorewrite with tables; split; [discriminate | auto].

(** The rate limiter has answered no (hypothesis [Hr]). *)
Ltac not_limited Hr :=
  match goal with
  | |- context [Utils.is_rate_limited ?store ?t ?u] =>
      let limited := fresh "limited" in
      let store' := fresh "store" in
      destruct (Utils.is_rate_limited store t u) as [limited store'];
      simpl in Hr; subst limited
  end.

Section BookingSteps.

Import PyDatetime Py Models BookingService Invariant.
Open Scope Z_scope.

Variable ZoneInfo : string -> option tzinfo.

Lemma validate_inr (db : Database) (user_id slot_id : Z) (user : User.t) (slot : Slot.t) :
  _validate_user_and_slot db user_id slot_id = inr (user, slot) <->
  first (fun u => User.id u =? user_id) (users db) = Some user
  /\ User.blocked user = false
  /\ first (fun s => Slot.id s =? slot_id) (slots db) = Some slot.
Proof.
  unfold _validate_user_and_slot.
  destruct (first _ (users db)) as [u |]; [| split; [discriminate | intros [H _]; discriminate]].
  destruct (User.blocked u) eqn:Eb.
  - split; [discriminate |]. intros ([= ->] & Hb & _). congruence.
  - destruct (first _ (slots db)) as [s |].
    + split.
      * intros [= -> ->]. auto.
      * intros ([= ->] & _ & [= ->]). reflexivity.
    + split; [discriminate | intros (_ & _ & H); discriminate].
Qed.

Lemma validate_inl_not_confirmed (db : Database) (user_id slot_id : Z) (error : string) :
  _validate_user_and_slot db user_id slot_id = inl error ->
  error <> "Booking confirmed."%string
  /\ error <> "Booking cancelled successfully."%string.
Proof.
  unfold _validate_user_and_slot.
  destruct (first _ (users db)) as [u |]; [| intros [= <-]; split; discriminate].
  destruct (User.blocked u); [intros [= <-]; split; discriminate |].
  destruct (first _ (slots db)); [discriminate | intros [= <-]; split; discriminate].
Qed.

Lemma get_timezone_spec (d : Database) :
  _get_timezone ZoneInfo d =
  (WeatherService.zone_info ZoneInfo (Configuration.timezone (fst (get_config d))),
   snd (get_config d)).
Proof. unfold _get_timezone. destruct (get_config d); reflexivity. Qed.

(** The reading of the clock in the zone against the stored start. *)
Lemma started_spec (tz : tzinfo) (now start : Z) :
  datetime_ge (datetime_now tz now) (replace_tzinfo (Naive start) tz)
  = Some (start <=? now + offset_at_utc tz now).
Proof.
  unfold datetime_ge, datetime_now, replace_tzinfo, same_tzinfo. simpl.
  rewrite String.eqb_refl. reflexivity.
Qed.

(** [book_slot] either rejects and leaves the tables alone, or it adds one
    confirmed booking and may flag the slot as unavailable. *)
Lemma book_slot_cases (w : World) (clk : Clock) (user_id slot_id : Z) :
  let r := book_slot ZoneInfo w clk user_id slot_id in
  (fst r <> Returned "Booking confirmed."
   /\ slots (db (snd r)) = slots (db w)
   /\ bookings (db (snd r)) = bookings (db w)
   /\ users (db (snd r)) = users (db w))
  \/ (exists user slot tz,
        fst r = Returned "Booking confirmed."
        /\ _validate_user_and_slot (db w) user_id slot_id = inr (user, slot)
        /\ fst (Utils.is_rate_limited (rate_limit_store w) (time clk) user_id) = false
        /\ ZoneInfo (Configuration.timezone (fst (get_config (db w)))) = Some tz
        /\ now clk + offset_at_utc tz (now clk) < Slot.start_time slot
        /\ first (for_user_and_slot user_id slot_id) (bookings (db w)) = None
        /\ confirmed_count (db w) slot_id < Slot.max_bookings slot
        /\ uq_user_slot_booking
             (Booking.mk (next_id (map Booking.id (bookings (db w))))
                user_id slot_id Booking.confirmed) (bookings (db w)) = true
        /\ users (db (snd r)) = users (db w)
        /\ bookings (db (snd r)) =
           bookings (db w)
           ++ [Booking.mk (next_id (map Booking.id (bookings (db w))))
                 user_id slot_id Booking.confirmed]
        /\ slots (db (snd r)) =
           if Slot.max_bookings slot <=? confirmed_count (db w) slot_id + 1
           then update_slot (Slot.set_available false slot) (slots (db w))
           else slots (db w)).
Proof.
  cbv zeta. unfold book_slot.
  destruct (_validate_user_and_slot (db w) user_id slot_id) as [error | [user slot]] eqn:Ev.
  { left. apply validate_inl_not_confirmed in Ev. simpl.
    split; [intros [= H]; apply (proj1 Ev); exact H | auto]. }
  destruct (Utils.is_rate_limited (rate_limit_store w) (time clk) user_id)
    as [limited store] eqn:Er.
  destruct limited.
  { tables_kept. }
  rewrite get_timezone_spec. unfold WeatherService.zone_info.
  destruct (ZoneInfo (Configuration.timezone (fst (get_config (db w))))) as [tz |] eqn:Ez.
  2:{ tables_kept. }
  rewrite started_spec.
  destruct (Slot.start_time slot <=? now clk + offset_at_utc tz (now clk)) eqn:Et.
  { tables_kept. }
  rewrite !get_config_bookings, !get_config_slots.
  destruct (first (for_user_and_slot user_id slot_id) (bookings (db w))) eqn:Ef.
  { tables_kept. }
  fold (confirmed_count (db w) slot_id).
  destruct (Slot.max_bookings slot <=? confirmed_count (db w) slot_id) eqn:Efull.
  { tables_kept. }
  destruct (uq_user_slot_booking _ (bookings (db w))) eqn:Euq.
  2:{ tables_kept. }
  right. exists user, slot, tz. simpl.
  rewrite get_config_users.
  split; [reflexivity |]. split; [reflexivity |].
  split; [reflexivity |]. split; [reflexivity |].
  split; [apply Z.leb_gt; exact Et |]. split; [reflexivity |].
  split; [apply Z.leb_gt; exact Efull |].
  repeat split.
Qed.

(** [cancel_booking] either rejects and leaves the tables alone, or it
    deletes the confirmed booking of the pair and may flag the slot as
    available again. *)
Lemma cancel_booking_cases (w : World) (clk : Clock) (user_id slot_id : Z) :
  let r := cancel_booking ZoneInfo w clk user_id slot_id in
  (fst r <> Returned "Booking cancelled successfully."
   /\ slots (db (snd r)) = slots (db w)
   /\ bookings (db (snd r)) = bookings (db w)
   /\ users (db (snd r)) = users (db w))
  \/ (exists user slot tz booking,
        fst r = Returned "Booking cancelled successfully."
        /\ _validate_user_and_slot (db w) user_id slot_id = inr (user, slot)
        /\ fst (Utils.is_rate_limited (rate_limit_store w) (time clk) user_id) = false
        /\ ZoneInfo (Configuration.timezone (fst (get_config (db w)))) = Some tz
        /\ now clk + offset_at_utc tz (now clk) < Slot.start_time slot
        /\ first (for_user_and_slot user_id slot_id) (bookings (db w)) = Some booking
        /\ users (db (snd r)) = users (db w)
        /\ bookings (db (snd r)) =
           delete_first (for_user_and_slot user_id slot_id) (bookings (db w))
        /\ slots (db (snd r)) =
           if count (for_slot slot_id)
                (delete_first (for_user_and_slot user_id slot_id) (bookings (db w)))
              <? Slot.max_bookings slot
           then update_slot (Slot.set_available true slot) (slots (db w))
           else slots (db w)).
Proof.
  cbv zeta. unfold cancel_booking.
  destruct (_validate_user_and_slot (db w) user_id slot_id) as [error | [user slot]] eqn:Ev.
  { left. apply validate_inl_not_confirmed in Ev. simpl.
    split; [intros [= H]; apply (proj2 Ev); exact H | auto]. }
  destruct (Utils.is_rate_limited (rate_limit_store w) (time clk) user_id)
    as [limited store] eqn:Er.
  destruct limited.
  { tables_kept. }
  destruct (first (for_user_and_slot user_id slot_id) (bookings (db w)))
    as [booking |] eqn:Ef.
  2:{ tables_kept. }
  rewrite get_timezone_spec. unfold WeatherService.zone_info.
  destruct (ZoneInfo (Configuration.timezone (fst (get_config (db w))))) as [tz |] eqn:Ez.
  2:{ tables_kept. }
  rewrite started_spec.
  destruct (Slot.start_time slot <=? now clk + offset_at_utc tz (now clk)) eqn:Et.
  { tables_kept. }
  rewrite !get_config_bookings, !get_config_slots.
  right. exists user, slot, tz, booking. simpl.
  rewrite get_config_users.
  split; [reflexivity |]. split; [reflexivity |].
  split; [reflexivity |]. split; [reflexivity |].
  split; [apply Z.leb_gt; exact Et |].
  repeat split.
Qed.

End BookingSteps.

Section Capacity.

Import PyDatetime Py Models BookingService Invariant.
Open Scope Z_scope.

Variable ZoneInfo : string -> option tzinfo.

Lemma same_id_same_row (rows : list Slot.t) (s s' : Slot.t) :
  NoDup (map Slot.id rows) -> s ∈ rows -> s' ∈ rows ->
  Slot.id s = Slot.id s' -> s = s'.
Proof.
  induction rows as [| r rows IH]; intros Hnd Hs Hs' Hid.
  - inversion Hs.
  - simpl in Hnd. apply NoDup_cons in Hnd. destruct Hnd as [Hr Hnd].
    apply elem_of_cons in Hs. apply elem_of_cons in Hs'.
    destruct Hs as [-> | Hs], Hs' as [-> | Hs'].
    + reflexivity.
    + exfalso. apply Hr. rewrite Hid. apply list_elem_of_fmap. eauto.
    + exfalso. apply Hr. rewrite <- Hid. apply list_elem_of_fmap. eauto.
    + apply IH; assumption.
Qed.

Lemma capacity_ok_ext (d d' : Database) :
  slots d' = slots d -> bookings d' = bookings d ->
  capacity_ok d -> capacity_ok d'.
Proof.
  intros Hs Hb H s Hin. rewrite Hs in Hin.
  specialize (H s Hin). unfold slot_capacity_ok, confirmed_count in *.
  rewrite Hb. exact H.
Qed.

Lemma for_slot_of_pair (user_id slot_id x : Z) (b : Booking.t) :
  for_user_and_slot user_id slot_id b = true ->
  for_slot x b = (slot_id =? x).
Proof.
  unfold for_user_and_slot, for_slot. intros H.
  apply andb_true_iff in H. destruct H as [H Hst].
  apply andb_true_iff in H. destruct H as [_ Hsl].
  apply Z.eqb_eq in Hsl. rewrite Hsl, Hst, andb_true_r. reflexivity.
Qed.

Lemma first_slot_id (sid : Z) (rows : list Slot.t) (slot : Slot.t) :
  first (fun s => Slot.id s =? sid) rows = Some slot ->
  slot ∈ rows /\ Slot.id slot = sid.
Proof.
  intros H. apply first_some_elem in H. destruct H as [Hin Hid].
  split; [exact Hin | apply Z.eqb_eq; exact Hid].
Qed.

Lemma book_slot_keeps_capacity (w : World) (clk : Clock) (user_id slot_id : Z) :
  slot_ids_unique (db w) -> capacity_ok (db w) ->
  slot_ids_unique (db (snd (book_slot ZoneInfo w clk user_id slot_id)))
  /\ capacity_ok (db (snd (book_slot ZoneInfo w clk user_id slot_id))).
Proof.
  intros Hnd Hinv.
  destruct (book_slot_cases ZoneInfo w clk user_id slot_id)
    as [(_ & Hs & Hb & _) | (user & slot & tz & _ & Hv & _ & _ & _ & Hnone & Hfree & _ & _ & Hb & Hs)].
  { split.
    - unfold slot_ids_unique. rewrite Hs. exact Hnd.
    - apply (capacity_ok_ext (db w)); assumption. }
  apply validate_inr in Hv. destruct Hv as (_ & _ & Hslot).
  apply first_slot_id in Hslot. destruct Hslot as [Hslot Hid].
  set (w' := snd (book_slot ZoneInfo w clk user_id slot_id)) in *.
  assert (Hcount : forall x, confirmed_count (db w') x
                             = confirmed_count (db w) x + (if slot_id =? x then 1 else 0)).
  { intros x. unfold confirmed_count. rewrite Hb, count_app, count_cons, count_nil.
    unfold for_slot at 2. simpl. rewrite andb_true_r. lia. }
  split.
  { unfold slot_ids_unique. rewrite Hs.
    destruct (_ <=? _); [rewrite update_slot_ids |]; exact Hnd. }
  intros s Hin. rewrite Hs in Hin.
  pose proof (Hinv slot Hslot) as [Hav Hle].
  unfold slot_capacity_ok. rewrite Hcount.
  rewrite Hid in Hav, Hle.
  destruct (Slot.max_bookings slot <=? confirmed_count (db w) slot_id + 1) eqn:Elast.
  - apply Z.leb_le in Elast.
    apply update_slot_elem in Hin; [| exact Hnd].
    destruct Hin as [-> | [Hin Hne]].
    + simpl. rewrite Hid, Z.eqb_refl. split; [split; [lia | reflexivity] | lia].
    + simpl in Hne. rewrite Hid in Hne.
      rewrite (proj2 (Z.eqb_neq slot_id (Slot.id s))) by congruence.
      rewrite Z.add_0_r. apply Hinv. exact Hin.
  - apply Z.leb_gt in Elast.
    destruct (Z.eq_dec (Slot.id s) slot_id) as [Heq | Hne].
    + assert (s = slot) as ->.
      { apply (same_id_same_row (slots (db w))); try assumption. congruence. }
      rewrite Hid, Z.eqb_refl. split; [| lia].
      split; [intros H; apply Hav in H; lia | lia].
    + rewrite (proj2 (Z.eqb_neq slot_id (Slot.id s))) by congruence.
      rewrite Z.add_0_r. apply Hinv. exact Hin.
Qed.

Lemma cancel_booking_keeps_capacity (w : World) (clk : Clock) (user_id slot_id : Z) :
  slot_ids_unique (db w) -> capacity_ok (db w) ->
  slot_ids_unique (db (snd (cancel_booking ZoneInfo w clk user_id slot_id)))
  /\ capacity_ok (db (snd (cancel_booking ZoneInfo w clk user_id slot_id))).
Proof.
  intros Hnd Hinv.
  destruct (cancel_booking_cases ZoneInfo w clk user_id slot_id)
    as [(_ & Hs & Hb & _) | (user & slot & tz & booking & _ & Hv & _ & _ & _ & Hfirst & _ & Hb & Hs)].
  { split.
    - unfold slot_ids_unique. rewrite Hs. exact Hnd.
    - apply (capacity_ok_ext (db w)); assumption. }
  apply validate_inr in Hv. destruct Hv as (_ & _ & Hslot).
  apply first_slot_id in Hslot. destruct Hslot as [Hslot Hid].
  set (w' := snd (cancel_booking ZoneInfo w clk user_id slot_id)) in *.
  pose proof (first_some_elem _ _ _ Hfirst) as [Hbin Hbp].
  assert (Hcount : forall x, confirmed_count (db w') x
                             = confirmed_count (db w) x - (if slot_id =? x then 1 else 0)).
  { intros x. unfold confirmed_count. rewrite Hb.
    rewrite (count_delete_first _ _ _ _ Hfirst).
    rewrite (for_slot_of_pair _ _ x _ Hbp). reflexivity. }
  assert (Hc' : count (for_slot slot_id)
                  (delete_first (for_user_and_slot user_id slot_id) (bookings (db w)))
                = confirmed_count (db w) slot_id - 1).
  { rewrite (count_delete_first _ _ _ _ Hfirst), (for_slot_of_pair _ _ slot_id _ Hbp),
      Z.eqb_refl. reflexivity. }
  rewrite Hc' in Hs.
  pose proof (Hinv slot Hslot) as [Hav Hle].
  rewrite Hid in Hav, Hle.
  assert (Hlt : (confirmed_count (db w) slot_id - 1 <? Slot.max_bookings slot) = true)
    by (apply Z.ltb_lt; lia).
  rewrite Hlt in Hs.
  split.
  { unfold slot_ids_unique. rewrite Hs, update_slot_ids. exact Hnd. }
  intros s Hin. rewrite Hs in Hin.
  unfold slot_capacity_ok. rewrite Hcount.
  apply update_slot_elem in Hin; [| exact Hnd].
  destruct Hin as [-> | [Hin Hne]].
  - simpl. rewrite Hid, Z.eqb_refl. split; [split; [discriminate | lia] | lia].
  - simpl in Hne. rewrite Hid in Hne.
    rewrite (proj2 (Z.eqb_neq slot_id (Slot.id s))) by congruence.
    rewrite Z.sub_0_r. apply Hinv. exact Hin.
Qed.

(** C1. Starting from a database in which every slot is flagged
    unavailable exactly when it is full and none is over-booked (slot ids
    being a primary key), any sequence of [book_slot] and
    [cancel_booking] calls, successful or not, ends in a database in
    which, for every slot, [available] is false exactly when the count of
    confirmed bookings is at least [max_bookings], and that count does
    not exceed [max_bookings]. *)
Theorem capacity_invariant (w : World) (requests : list request) :
  slot_ids_unique (db w) ->
  capacity_ok (db w) ->
  forall s, s ∈ slots (db (run ZoneInfo w requests)) ->
    (Slot.available s = false <->
     Slot.max_bookings s <= confirmed_count (db (run ZoneInfo w requests)) (Slot.id s))
    /\ confirmed_count (db (run ZoneInfo w requests)) (Slot.id s) <= Slot.max_bookings s.
Proof.
  intros Hnd Hinv.
  assert (H : slot_ids_unique (db (run ZoneInfo w requests))
              /\ capacity_ok (db (run ZoneInfo w requests))).
  { revert w Hnd Hinv. unfold run.
    induction requests as [| r requests IH]; intros w Hnd Hinv; simpl.
    - split; assumption.
    - apply IH; destruct r as [clk u sid | clk u sid]; simpl.
      + apply book_slot_keeps_capacity; assumption.
      + apply cancel_booking_keeps_capacity; assumption.
      + apply book_slot_keeps_capacity; assumption.
      + apply cancel_booking_keeps_capacity; assumption. }
  destruct H as [_ H]. exact H.
Qed.

End Capacity.

Section Cancel.

Import PyDatetime Py Models BookingService Invariant.
Open Scope Z_scope.

Variable ZoneInfo : string -> option tzinfo.

Lemma no_confirmed_first_none (d : Database) (user_id slot_id : Z) :
  ~ has_confirmed d user_id slot_id <->
  first (for_user_and_slot user_id slot_id) (bookings d) = None.
Proof.
  rewrite first_none. unfold has_confirmed. split.
  - intros H r Hin. destruct (for_user_and_slot user_id slot_id r) eqn:E; [| reflexivity].
    exfalso. apply H. eauto.
  - intros H (b & Hin & Hb). rewrite (H b Hin) in Hb. discriminate.
Qed.

(** C7. For a user and a slot that exist, the user not blocked and the
    caller not rate-limited, if the user holds no confirmed booking of
    the slot then [cancel_booking] returns
    "No active booking found for this event." and the database is left
    as it was: no booking row is removed and no column of any slot,
    [available] included, changes. *)
Theorem cancel_without_booking (w : World) (clk : Clock) (user_id slot_id : Z)
    (user : User.t) (slot : Slot.t) :
  first (fun u => User.id u =? user_id) (users (db w)) = Some user ->
  User.blocked user = false ->
  first (fun s => Slot.id s =? slot_id) (slots (db w)) = Some slot ->
  fst (Utils.is_rate_limited (rate_limit_store w) (time clk) user_id) = false ->
  ~ has_confirmed (db w) user_id slot_id ->
  fst (cancel_booking ZoneInfo w clk user_id slot_id)
    = Returned "No active booking found for this event."
  /\ db (snd (cancel_booking ZoneInfo w clk user_id slot_id)) = db w.
Proof.
  intros Hu Hb Hs Hr Hnone.
  assert (Hv : _validate_user_and_slot (db w) user_id slot_id = inr (user, slot))
    by (apply validate_inr; auto).
  apply no_confirmed_first_none in Hnone.
  unfold cancel_booking. rewrite Hv.
  not_limited Hr. rewrite Hnone. split; reflexivity.
Qed.

End Cancel.

Lemma cancel_without_booking_witness :
  fst (BookingService.cancel_booking Scenario.zoneinfo_db Scenario.world_utc
         Scenario.day_before 1 1)
    = Py.Returned "No active booking found for this event."
  /\ BookingService.db
       (snd (BookingService.cancel_booking Scenario.zoneinfo_db Scenario.world_utc
               Scenario.day_before 1 1))
     = Scenario.db_utc.
Proof.
  apply (cancel_without_booking Scenario.zoneinfo_db Scenario.world_utc
           Scenario.day_before 1 1 Scenario.alice Scenario.evening).
  - reflexivity.
  - reflexivity.
  - reflexivity.
  - vm_compute. reflexivity.
  - intros (b & Hin & _). inversion Hin.
Defined.

Section DuplicateBooking.

Import PyDatetime Py Models BookingService Invariant.
Open Scope Z_scope.

Variable ZoneInfo : string -> option tzinfo.

Lemma book_slot_with_confirmed (w : World) (clk : Clock) (user_id slot_id : Z) :
  has_confirmed (db w) user_id slot_id ->
  fst (book_slot ZoneInfo w clk user_id slot_id) <> Returned "Booking confirmed."
  /\ bookings (db (snd (book_slot ZoneInfo w clk user_id slot_id))) = bookings (db w)
  /\ slots (db (snd (book_slot ZoneInfo w clk user_id slot_id))) = slots (db w).
Proof.
  intros Hc.
  destruct (book_slot_cases ZoneInfo w clk user_id slot_id)
    as [(Hm & Hs & Hb & _) | (user & slot & tz & _ & _ & _ & _ & _ & Hnone & _)].
  - auto.
  - exfalso. apply no_confirmed_first_none in Hnone. apply Hnone. exact Hc.
Qed.

Lemma book_slot_already_booked (w : World) (clk : Clock) (user_id slot_id : Z)
    (user : User.t) (slot : Slot.t) (tz : tzinfo) :
  has_confirmed (db w) user_id slot_id ->
  first (fun u => User.id u =? user_id) (users (db w)) = Some user ->
  User.blocked user = false ->
  first (fun s => Slot.id s =? slot_id) (slots (db w)) = Some slot ->
  fst (Utils.is_rate_limited (rate_limit_store w) (time clk) user_id) = false ->
  ZoneInfo (Configuration.timezone (fst (get_config (db w)))) = Some tz ->
  now clk + offset_at_utc tz (now clk) < Slot.start_time slot ->
  fst (book_slot ZoneInfo w clk user_id slot_id)
    = Returned "You have already booked this event.".
Proof.
  intros Hc Hu Hb Hs Hr Hz Ht.
  assert (Hv : _validate_user_and_slot (db w) user_id slot_id = inr (user, slot))
    by (apply validate_inr; auto).
  unfold book_slot. rewrite Hv.
  not_limited Hr.
  rewrite get_timezone_spec. unfold WeatherService.zone_info. rewrite Hz.
  rewrite started_spec. rewrite (proj2 (Z.leb_gt _ _) Ht).
  rewrite get_config_bookings.
  destruct (first (for_user_and_slot user_id slot_id) (bookings (db w))) eqn:Ef.
  - reflexivity.
  - exfalso. apply no_confirmed_first_none in Ef. apply Ef. exact Hc.
Qed.

Lemma pair_of_new_booking (user_id slot_id u s n : Z) :
  for_user_and_slot u s (Booking.mk n user_id slot_id Booking.confirmed)
  = (user_id =? u) && (slot_id =? s).
Proof. unfold for_user_and_slot. simpl. apply andb_true_r. Qed.

Lemma book_slot_keeps_one_per_pair (w : World) (clk : Clock) (user_id slot_id : Z) :
  one_confirmed_per_pair (db w) ->
  one_confirmed_per_pair (db (snd (book_slot ZoneInfo w clk user_id slot_id))).
Proof.
  intros Hinv u s.
  destruct (book_slot_cases ZoneInfo w clk user_id slot_id)
    as [(_ & _ & Hb & _) | (user & slot & tz & _ & _ & _ & _ & _ & Hnone & _ & _ & _ & Hb & _)].
  - rewrite Hb. apply Hinv.
  - rewrite Hb, count_app, count_cons, count_nil, pair_of_new_booking.
    destruct ((user_id =? u) && (slot_id =? s)) eqn:E.
    + apply andb_true_iff in E. destruct E as [Eu Es].
      apply Z.eqb_eq in Eu. apply Z.eqb_eq in Es. subst u s.
      rewrite (count_zero _ _ (proj1 (first_none _ _) Hnone)). lia.
    + specialize (Hinv u s). lia.
Qed.

Lemma cancel_booking_keeps_one_per_pair (w : World) (clk : Clock) (user_id slot_id : Z) :
  one_confirmed_per_pair (db w) ->
  one_confirmed_per_pair (db (snd (cancel_booking ZoneInfo w clk user_id slot_id))).
Proof.
  intros Hinv u s.
  destruct (cancel_booking_cases ZoneInfo w clk user_id slot_id)
    as [(_ & _ & Hb & _) | (user & slot & tz & booking & _ & _ & _ & _ & _ & Hfirst & _ & Hb & _)].
  - rewrite Hb. apply Hinv.
  - rewrite Hb, (count_delete_first _ _ _ _ Hfirst).
    specialize (Hinv u s). destruct (for_user_and_slot u s booking); lia.
Qed.

Lemma run_keeps_one_per_pair (w : World) (requests : list request) :
  one_confirmed_per_pair (db w) ->
  one_confirmed_per_pair (db (run ZoneInfo w requests)).
Proof.
  revert w. unfold run.
  induction requests as [| r requests IH]; intros w Hinv; simpl; [exact Hinv |].
  apply IH. destruct r as [clk u s | clk u s]; simpl.
  - apply book_slot_keeps_one_per_pair. exact Hinv.
  - apply cancel_booking_keeps_one_per_pair. exact Hinv.
Qed.

Lemma confirmed_after_booking (w : World) (clk : Clock) (user_id slot_id : Z) :
  fst (book_slot ZoneInfo w clk user_id slot_id) = Returned "Booking confirmed." ->
  has_confirmed (db (snd (book_slot ZoneInfo w clk user_id slot_id))) user_id slot_id.
Proof.
  intros Hok.
  destruct (book_slot_cases ZoneInfo w clk user_id slot_id)
    as [(Hm & _) | (user & slot & tz & _ & _ & _ & _ & _ & _ & _ & _ & _ & Hb & _)].
  - congruence.
  - eexists. split.
    + rewrite Hb. apply elem_of_app. right. left.
    + rewrite pair_of_new_booking, !Z.eqb_refl. reflexivity.
Qed.

(** C2 (amended). If the user already holds a confirmed booking of the
    slot, [book_slot] inserts no booking and does not confirm, whatever
    else holds; when moreover the checks that come first pass (the user
    exists and is not blocked, the slot exists, the caller is not
    rate-limited, the configured zone is known and the clock, read in that
    zone, is before the stored start), the message is
    "You have already booked this event.". Consequently no sequence of
    calls creates a second confirmed booking for a pair, and a second
    booking of the same slot by the same user right after a confirmed one
    is not confirmed and inserts nothing. *)
Theorem duplicate_booking_rejected :
  (forall w clk user_id slot_id,
     has_confirmed (db w) user_id slot_id ->
     fst (book_slot ZoneInfo w clk user_id slot_id) <> Returned "Booking confirmed."
     /\ bookings (db (snd (book_slot ZoneInfo w clk user_id slot_id))) = bookings (db w)
     /\ forall user slot tz,
          first (fun u => User.id u =? user_id) (users (db w)) = Some user ->
          User.blocked user = false ->
          first (fun s => Slot.id s =? slot_id) (slots (db w)) = Some slot ->
          fst (Utils.is_rate_limited (rate_limit_store w) (time clk) user_id) = false ->
          ZoneInfo (Configuration.timezone (fst (get_config (db w)))) = Some tz ->
          now clk + offset_at_utc tz (now clk) < Slot.start_time slot ->
          fst (book_slot ZoneInfo w clk user_id slot_id)
            = Returned "You have already booked this event.")
  /\ (forall w requests,
        one_confirmed_per_pair (db w) ->
        one_confirmed_per_pair (db (run ZoneInfo w requests)))
  /\ (forall w clk clk' user_id slot_id,
        fst (book_slot ZoneInfo w clk user_id slot_id) = Returned "Booking confirmed." ->
        let w' := snd (book_slot ZoneInfo w clk user_id slot_id) in
        fst (book_slot ZoneInfo w' clk' user_id slot_id) <> Returned "Booking confirmed."
        /\ bookings (db (snd (book_slot ZoneInfo w' clk' user_id slot_id)))
           = bookings (db w')).
Proof.
  split; [| split].
  - intros w clk user_id slot_id Hc.
    destruct (book_slot_with_confirmed w clk user_id slot_id Hc) as (Hm & Hb & _).
    split; [exact Hm |]. split; [exact Hb |].
    intros user slot tz. apply book_slot_already_booked. exact Hc.
  - exact run_keeps_one_per_pair.
  - intros w clk clk' user_id slot_id Hok w'.
    pose proof (confirmed_after_booking w clk user_id slot_id Hok) as Hc.
    destruct (book_slot_with_confirmed w' clk' user_id slot_id Hc) as (Hm & Hb & _).
    split; assumption.
Qed.

End DuplicateBooking.

(** C2 as stated fails: the blocked user of [db_blocked_booked] holds a
    confirmed booking of slot 1, and [book_slot] answers
    "Your account is blocked.". *)
Lemma blocked_user_gets_other_message :
  Invariant.has_confirmed Scenario.db_blocked_booked 4 1
  /\ fst (BookingService.book_slot Scenario.zoneinfo_db
            (BookingService.mk_world Scenario.db_blocked_booked ∅)
            Scenario.day_before 4 1)
     = Py.Returned "Your account is blocked."
  /\ fst (BookingService.book_slot Scenario.zoneinfo_db
            (BookingService.mk_world Scenario.db_blocked_booked ∅)
            Scenario.day_before 4 1)
     <> Py.Returned "You have already booked this event.".
Proof.
  split; [| split].
  - exists (Booking.mk 1 4 1 Booking.confirmed). split; [left | reflexivity].
  - vm_compute. reflexivity.
  - vm_compute. discriminate.
Qed.

Section RoundTrip.

Import PyDatetime Py Models BookingService Invariant.
Open Scope Z_scope.

Variable ZoneInfo : string -> option tzinfo.

Lemma get_config_again (d : Database) :
  fst (get_config (snd (get_config d))) = fst (get_config d).
Proof.
  unfold get_config. destruct (configuration d) eqn:E; simpl.
  - rewrite E. reflexivity.
  - reflexivity.
Qed.

Lemma get_config_of_tables (d : Database) (ss : list Slot.t) (bs : list Booking.t) :
  fst (get_config (set_bookings bs (set_slots ss d))) = fst (get_config d).
Proof. unfold get_config. simpl. destruct (configuration d); reflexivity. Qed.

(** The configuration that a call reads is the one the next call reads. *)
Lemma book_slot_config (w : World) (clk : Clock) (user_id slot_id : Z) :
  fst (get_config (db (snd (book_slot ZoneInfo w clk user_id slot_id))))
  = fst (get_config (db w)).
Proof.
  unfold book_slot.
  destruct (_validate_user_and_slot (db w) user_id slot_id) as [error | [user slot]];
    [reflexivity |].
  destruct (Utils.is_rate_limited (rate_limit_store w) (time clk) user_id)
    as [limited store].
  destruct limited; [reflexivity |].
  rewrite get_timezone_spec.
  destruct (WeatherService.zone_info ZoneInfo _); [| apply get_config_again].
  destruct (datetime_ge _ _) as [[|] |]; try apply get_config_again.
  destruct (first _ _); [apply get_config_again |].
  destruct (_ <=? _); [apply get_config_again |].
  destruct (uq_user_slot_booking _ _); [| apply get_config_again].
  simpl. rewrite get_config_of_tables. apply get_config_again.
Qed.

Lemma no_row_no_confirmed (d : Database) (user_id slot_id : Z) :
  ~ has_row d user_id slot_id -> ~ has_confirmed d user_id slot_id.
Proof.
  intros H (b & Hin & Hb). apply H. exists b. split; [exact Hin |].
  unfold for_user_and_slot in Hb.
  apply andb_true_iff in Hb. destruct Hb as [Hb _].
  apply andb_true_iff in Hb. destruct Hb as [Hu Hs].
  split; apply Z.eqb_eq; assumption.
Qed.

Lemma no_row_unique (d : Database) (user_id slot_id n : Z) (st : Booking.Status) :
  ~ has_row d user_id slot_id ->
  uq_user_slot_booking (Booking.mk n user_id slot_id st) (bookings d) = true.
Proof.
  intros H. unfold uq_user_slot_booking. apply negb_true_iff.
  destruct (existsb _ (bookings d)) eqn:E; [| reflexivity].
  exfalso. apply H. apply existsb_exists in E. destruct E as (b & Hin & Hb).
  simpl in Hb. apply andb_true_iff in Hb. destruct Hb as [Hu Hs].
  exists b. split; [apply list_elem_of_In; exact Hin |].
  split; apply Z.eqb_eq; assumption.
Qed.

Lemma book_slot_succeeds (w : World) (clk : Clock) (user_id slot_id : Z)
    (user : User.t) (slot : Slot.t) (tz : tzinfo) :
  _validate_user_and_slot (db w) user_id slot_id = inr (user, slot) ->
  fst (Utils.is_rate_limited (rate_limit_store w) (time clk) user_id) = false ->
  ZoneInfo (Configuration.timezone (fst (get_config (db w)))) = Some tz ->
  now clk + offset_at_utc tz (now clk) < Slot.start_time slot ->
  ~ has_row (db w) user_id slot_id ->
  confirmed_count (db w) slot_id < Slot.max_bookings slot ->
  fst (book_slot ZoneInfo w clk user_id slot_id) = Returned "Booking confirmed.".
Proof.
  intros Hv Hr Hz Ht Hrow Hfree.
  unfold book_slot. rewrite Hv.
  not_limited Hr.
  rewrite get_timezone_spec. unfold WeatherService.zone_info. rewrite Hz.
  rewrite started_spec, (proj2 (Z.leb_gt _ _) Ht).
  rewrite !get_config_bookings.
  rewrite (proj1 (no_confirmed_first_none _ _ _) (no_row_no_confirmed _ _ _ Hrow)).
  fold (confirmed_count (db w) slot_id).
  rewrite (proj2 (Z.leb_gt _ _) Hfree).
  rewrite (no_row_unique _ _ _ _ _ Hrow). reflexivity.
Qed.

Lemma cancel_booking_succeeds (w : World) (clk : Clock) (user_id slot_id : Z)
    (user : User.t) (slot : Slot.t) (tz : tzinfo) (booking : Booking.t) :
  _validate_user_and_slot (db w) user_id slot_id = inr (user, slot) ->
  fst (Utils.is_rate_limited (rate_limit_store w) (time clk) user_id) = false ->
  first (for_user_and_slot user_id slot_id) (bookings (db w)) = Some booking ->
  ZoneInfo (Configuration.timezone (fst (get_config (db w)))) = Some tz ->
  now clk + offset_at_utc tz (now clk) < Slot.start_time slot ->
  fst (cancel_booking ZoneInfo w clk user_id slot_id)
    = Returned "Booking cancelled successfully.".
Proof.
  intros Hv Hr Hf Hz Ht.
  unfold cancel_booking. rewrite Hv.
  not_limited Hr. rewrite Hf.
  rewrite get_timezone_spec. unfold WeatherService.zone_info. rewrite Hz.
  rewrite started_spec, (proj2 (Z.leb_gt _ _) Ht). reflexivity.
Qed.

Lemma set_available_back (slot : Slot.t) :
  Slot.available slot = true ->
  Slot.set_available true (Slot.set_available false slot) = slot
  /\ Slot.set_available true slot = slot.
Proof. destruct slot; simpl. intros ->. split; reflexivity. Qed.

(** Booking and then cancelling, where both calls pass the checks of the
    service as it makes them. From a state in which the user exists and
    is not blocked, the slot exists and is available, the configured zone
    is known, the start check of the service (the clock read in the
    configured zone against the stored reading of the start) lets both
    calls through, neither call is rate-limited, the user holds no
    booking row of the slot, and the confirmed count is below
    [max_bookings]: [book_slot] returns "Booking confirmed.", the
    [cancel_booking] that follows returns
    "Booking cancelled successfully.", and afterwards the bookings table
    and the slots table are what they were before the booking. *)
Lemma book_then_cancel (w : World) (clk1 clk2 : Clock) (user_id slot_id : Z)
    (user : User.t) (slot : Slot.t) (tz : tzinfo) :
  first (fun u => User.id u =? user_id) (users (db w)) = Some user ->
  User.blocked user = false ->
  first (fun s => Slot.id s =? slot_id) (slots (db w)) = Some slot ->
  Slot.available slot = true ->
  ZoneInfo (Configuration.timezone (fst (get_config (db w)))) = Some tz ->
  now clk1 + offset_at_utc tz (now clk1) < Slot.start_time slot ->
  now clk2 + offset_at_utc tz (now clk2) < Slot.start_time slot ->
  ~ has_row (db w) user_id slot_id ->
  confirmed_count (db w) slot_id < Slot.max_bookings slot ->
  let booked := book_slot ZoneInfo w clk1 user_id slot_id in
  let cancelled := cancel_booking ZoneInfo (snd booked) clk2 user_id slot_id in
  fst (Utils.is_rate_limited (rate_limit_store w) (time clk1) user_id) = false ->
  fst (Utils.is_rate_limited (rate_limit_store (snd booked)) (time clk2) user_id) = false ->
  fst booked = Returned "Booking confirmed."
  /\ fst cancelled = Returned "Booking cancelled successfully."
  /\ bookings (db (snd cancelled)) = bookings (db w)
  /\ slots (db (snd cancelled)) = slots (db w)
  /\ first (fun s => Slot.id s =? slot_id) (slots (db (snd cancelled))) = Some slot.
Proof.
  intros Hu Hb Hs Hav Hz Ht1 Ht2 Hrow Hfree booked cancelled Hr1 Hr2.
  assert (Hv : _validate_user_and_slot (db w) user_id slot_id = inr (user, slot))
    by (apply validate_inr; auto).
  pose proof (book_slot_succeeds w clk1 user_id slot_id user slot tz
                Hv Hr1 Hz Ht1 Hrow Hfree) as Hok1.
  fold booked in Hok1.
  destruct (book_slot_cases ZoneInfo w clk1 user_id slot_id)
    as [(Hm & _) | (user' & slot' & tz' & _ & Hv' & _ & _ & _ & Hnone & _ & _ & Hu1 & Hb1 & Hs1)];
    [fold booked in Hm; congruence |].
  fold booked in Hu1, Hb1, Hs1.
  rewrite Hv in Hv'. injection Hv' as <- <-.
  pose proof (first_slot_id _ _ _ Hs) as [_ Hid].
  set (new := Booking.mk (next_id (map Booking.id (bookings (db w))))
                user_id slot_id Booking.confirmed) in *.
  set (slot1 := if Slot.max_bookings slot <=? confirmed_count (db w) slot_id + 1
                then Slot.set_available false slot else slot).
  assert (Hid1 : Slot.id slot1 = slot_id)
    by (unfold slot1; destruct (_ <=? _); simpl; exact Hid).
  assert (Hst1 : Slot.start_time slot1 = Slot.start_time slot)
    by (unfold slot1; destruct (_ <=? _); reflexivity).
  assert (Hmax1 : Slot.max_bookings slot1 = Slot.max_bookings slot)
    by (unfold slot1; destruct (_ <=? _); reflexivity).
  assert (Hfirst1 : first (fun s => Slot.id s =? slot_id) (slots (db (snd booked)))
                    = Some slot1).
  { rewrite Hs1. unfold slot1. destruct (_ <=? _).
    - apply (first_update_slot _ _ _ slot); [exact Hs | exact Hid].
    - exact Hs. }
  assert (Hv1 : _validate_user_and_slot (db (snd booked)) user_id slot_id
                = inr (user, slot1)).
  { apply validate_inr. rewrite Hu1. auto. }
  assert (Hnew : for_user_and_slot user_id slot_id new = true)
    by (unfold new; rewrite pair_of_new_booking, !Z.eqb_refl; reflexivity).
  assert (Hf1 : first (for_user_and_slot user_id slot_id) (bookings (db (snd booked)))
                = Some new).
  { rewrite Hb1. apply first_app_new; assumption. }
  assert (Hz1 : ZoneInfo (Configuration.timezone (fst (get_config (db (snd booked)))))
                = Some tz).
  { unfold booked. rewrite book_slot_config. exact Hz. }
  rewrite <- Hst1 in Ht2.
  pose proof (cancel_booking_succeeds (snd booked) clk2 user_id slot_id user slot1 tz new
                Hv1 Hr2 Hf1 Hz1 Ht2) as Hok2.
  fold cancelled in Hok2.
  destruct (cancel_booking_cases ZoneInfo (snd booked) clk2 user_id slot_id)
    as [(Hm & _) | (user2 & slot2 & tz2 & b2 & _ & Hv2 & _ & _ & _ & _ & _ & Hb2 & Hs2)];
    [fold cancelled in Hm; congruence |].
  fold cancelled in Hb2, Hs2.
  rewrite Hv1 in Hv2. injection Hv2 as <- <-.
  assert (Hback : bookings (db (snd cancelled)) = bookings (db w)).
  { rewrite Hb2, Hb1. apply delete_first_app_new; assumption. }
  assert (Hslots : slots (db (snd cancelled)) = slots (db w)).
  { rewrite Hs2. rewrite Hb1, (delete_first_app_new _ _ _ Hnone Hnew).
    fold (confirmed_count (db w) slot_id). rewrite Hmax1.
    rewrite (proj2 (Z.ltb_lt _ _) Hfree).
    destruct (set_available_back slot Hav) as [Hback1 Hback2].
    rewrite Hs1. unfold slot1. destruct (_ <=? _).
    - rewrite update_slot_twice by reflexivity.
      rewrite Hback1. apply (update_slot_same slot_id). exact Hs.
    - rewrite Hback2. apply (update_slot_same slot_id). exact Hs. }
  split; [exact Hok1 |]. split; [exact Hok2 |].
  split; [exact Hback |]. split; [exact Hslots |].
  rewrite Hslots. exact Hs.
Qed.

End RoundTrip.

(* ===================================================================== *)
(** * Properties of slot scheduling *)
(* ===================================================================== *)

Section SaveEvent.

Import PyDatetime Py Models AdminService.
Open Scope Z_scope.

Lemma DAY_pos : 0 < DAY.
Proof. reflexivity. Qed.

Lemma is_not_none_first {A : Type} (p : A -> bool) (rows : list A) :
  is_not_none (first p rows) = false <-> forall r, r ∈ rows -> p r = false.
Proof.
  rewrite <- first_none. destruct (first p rows); simpl; split; congruence.
Qed.

(** The query of [_check_next_day_overlap] selects nothing: it asks for a
    start on the day after the day of [end_time] that is also before
    [end_time]. *)
Lemma check_next_day_overlap_false (db : Database) (existing_event : option Slot.t)
    (end_time : datetime) :
  _check_next_day_overlap db existing_event end_time = false.
Proof.
  unfold _check_next_day_overlap. apply is_not_none_first. intros s _.
  unfold replace_midnight, timedelta_days.
  pose proof DAY_pos as HD.
  pose proof (Z.mod_pos_bound (wall_clock end_time) DAY HD) as Hm.
  destruct (Z.leb_spec (wall_clock end_time - wall_clock end_time mod DAY + 1 * DAY)
              (Slot.start_time s)) as [H1 | H1]; [| reflexivity].
  destruct (Z.ltb_spec (Slot.start_time s) (wall_clock end_time)) as [H2 | H2].
  - lia.
  - rewrite andb_false_r. reflexivity.
Qed.

(** The last query of [_save_event] uses strict inequalities and leaves
    out the event that is being edited. *)
Lemma overlaps_spec (existing_event : option Slot.t) (start_time end_time : datetime)
    (s : Slot.t) :
  overlaps existing_event start_time end_time s = true <->
  wall_clock start_time < Slot.end_time s
  /\ Slot.start_time s < wall_clock end_time
  /\ forall e, existing_event = Some e -> Slot.id s <> Slot.id e.
Proof.
  unfold overlaps, not_existing.
  rewrite !andb_true_iff, !Z.ltb_lt.
  destruct existing_event as [e |].
  - rewrite negb_true_iff, Z.eqb_neq. split.
    + intros [[H1 H2] H3]. repeat split; try assumption. intros e' [= <-]. exact H3.
    + intros (H1 & H2 & H3). repeat split; try assumption. apply H3. reflexivity.
  - split.
    + intros [[H1 H2] _]. repeat split; try assumption. discriminate.
    + intros (H1 & H2 & _). repeat split; assumption.
Qed.

(** The order of the rejections of [_save_event], and that a rejection
    writes nothing. *)
Lemma save_event_rejections (db : Database) (existing_event : option Slot.t)
    (event_data : EventData) :
  let start := start_time event_data in
  let end_ := end_time event_data in
  (_check_same_day_start db existing_event start = true ->
   _save_event db existing_event event_data
   = (Returned "Only one event can start per day.", db))
  /\ (_check_same_day_start db existing_event start = false ->
      _check_prev_day_overlap db existing_event start = true ->
      _save_event db existing_event event_data
      = (Returned "Start time overlaps with previous day's event.", db))
  /\ (_check_same_day_start db existing_event start = false ->
      _check_prev_day_overlap db existing_event start = false ->
      forall s, first (overlaps existing_event start end_) (slots db) = Some s ->
      _save_event db existing_event event_data
      = (Returned ("Time conflict with another event (ID: "
                   ++ str (Slot.id s) ++ ").")%string, db))
  /\ (forall s, Slot.end_time s = wall_clock start \/ Slot.start_time s = wall_clock end_ ->
      overlaps existing_event start end_ s = false).
Proof.
  cbv zeta. unfold _save_event. repeat split.
  - intros ->. reflexivity.
  - intros -> ->. reflexivity.
  - intros -> -> s ->. rewrite check_next_day_overlap_false. reflexivity.
  - intros s H. destruct (overlaps _ _ _ s) eqn:E; [| reflexivity].
    apply overlaps_spec in E. lia.
Qed.

(** C4 at the input where it fails. The stored slot [small_hours] starts
    on the UTC day after the day on which the new event [overnight]
    starts, and before the new event ends; no slot starts on the day of
    the new event, and none of the day before runs into it. The third
    check nevertheless answers no, as it does on every input, and the
    rejection comes from the fourth query with its own message. *)
Theorem next_day_check_never_rejects :
  (forall db existing_event end_time,
     _check_next_day_overlap db existing_event end_time = false)
  /\ replace_midnight (Slot.start_time OverlapScenario.small_hours)
     = replace_midnight (wall_clock (start_time OverlapScenario.overnight))
       + timedelta_days 1
  /\ Slot.start_time OverlapScenario.small_hours
     < wall_clock (end_time OverlapScenario.overnight)
  /\ _check_same_day_start OverlapScenario.db_small_hours None
       (start_time OverlapScenario.overnight) = false
  /\ _check_prev_day_overlap OverlapScenario.db_small_hours None
       (start_time OverlapScenario.overnight) = false
  /\ _save_event OverlapScenario.db_small_hours None OverlapScenario.overnight
     = (Returned "Time conflict with another event (ID: 1).",
        OverlapScenario.db_small_hours)
  /\ fst (_save_event OverlapScenario.db_small_hours None OverlapScenario.overnight)
     <> Returned "End time overlaps with next day's event.".
Proof.
  split; [exact check_next_day_overlap_false |].
  repeat split; try (vm_compute; congruence).
Qed.

End SaveEvent.

Section StartGuard.

Import PyDatetime Py Models BookingService Invariant.
Open Scope Z_scope.

Variable ZoneInfo : string -> option tzinfo.

(** What the start check of [book_slot] compares: the clock read in the
    configured zone against the stored reading of the start, which
    [_calculate_event_times_full] took in UTC. *)
Lemma book_slot_start_guard (w : World) (clk : Clock) (user_id slot_id : Z)
    (user : User.t) (slot : Slot.t) (tz : tzinfo) :
  _validate_user_and_slot (db w) user_id slot_id = inr (user, slot) ->
  fst (Utils.is_rate_limited (rate_limit_store w) (time clk) user_id) = false ->
  ZoneInfo (Configuration.timezone (fst (get_config (db w)))) = Some tz ->
  (Slot.start_time slot <= now clk + offset_at_utc tz (now clk) ->
   fst (book_slot ZoneInfo w clk user_id slot_id)
     = Returned "Event is no longer available for booking."
   /\ bookings (db (snd (book_slot ZoneInfo w clk user_id slot_id))) = bookings (db w))
  /\ (fst (book_slot ZoneInfo w clk user_id slot_id) = Returned "Booking confirmed." ->
      now clk + offset_at_utc tz (now clk) < Slot.start_time slot).
Proof.
  intros Hv Hr Hz. split.
  - intros Hlate. unfold book_slot. rewrite Hv.
    not_limited Hr.
    rewrite get_timezone_spec. unfold WeatherService.zone_info. rewrite Hz.
    rewrite started_spec, (proj2 (Z.leb_le _ _) Hlate). simpl.
    rewrite get_config_bookings. split; reflexivity.
  - intros Hok.
    destruct (book_slot_cases ZoneInfo w clk user_id slot_id)
      as [(Hm & _) | (user' & slot' & tz' & _ & Hv' & _ & Hz' & Ht & _)];
      [congruence |].
    rewrite Hv in Hv'. injection Hv' as <- <-.
    rewrite Hz in Hz'. injection Hz' as <-. exact Ht.
Qed.

End StartGuard.

(** C5 at the input where it fails. The administrator of a site in
    [Etc/GMT+5] enters an event for 2025-06-01 from 18:00 local time; its
    start is stored as the UTC reading 23:00. At the instant 23:30 UTC,
    half an hour after the start, alice passes the existence, blocked and
    rate-limit checks, and [book_slot] confirms the booking and inserts
    it: the check sets the local reading 18:30 against the stored 23:00. *)
Theorem booking_confirmed_after_start :
  AdminService.start_local Scenario.western_times
    = PyDatetime.Aware (Scenario.reading Scenario.june_1st 18 0) Scenario.western_zone
  /\ AdminService.start_utc Scenario.western_times
     = PyDatetime.Aware (Scenario.reading Scenario.june_1st 23 0) PyDatetime.utc
  /\ map Slot.start_time (Models.slots Scenario.db_west)
     = [Scenario.reading Scenario.june_1st 23 0]
  /\ BookingService.now Scenario.half_past_start
     = (Scenario.reading Scenario.june_1st 23 0 + 30 * PyDatetime.MINUTE)%Z
  /\ BookingService._validate_user_and_slot Scenario.db_west 1 1
     = inr (Scenario.alice,
            Slot.mk 1 "Perseids" "Meteor watch" (Scenario.reading Scenario.june_1st 23 0)
              (Scenario.reading (Scenario.june_1st + 1) 3 0) true None 2 false false)
  /\ fst (Utils.is_rate_limited ∅ (BookingService.time Scenario.half_past_start) 1)
     = false
  /\ BookingService.book_slot Scenario.zoneinfo_db
       (BookingService.mk_world Scenario.db_west ∅) Scenario.half_past_start 1 1
     = (Py.Returned "Booking confirmed.",
        BookingService.mk_world
          (Models.set_bookings [Booking.mk 1 1 1 Booking.confirmed] Scenario.db_west)
          {[ 1%Z := [BookingService.time Scenario.half_past_start] ]}).
Proof.
  repeat split; vm_compute; reflexivity.
Qed.

(** C9 at an input where it fails. The administrator of a site in
    [Etc/GMT-2] enters an event for 2025-06-01 from 20:00 local time; its
    start is stored as the UTC reading 18:00. At the instant 17:00 UTC,
    one hour before the start, alice exists and is not blocked, the slot
    exists and is available, alice is not rate-limited and holds no
    booking, and no place is taken; yet [book_slot] answers
    "Event is no longer available for booking." and inserts nothing, so
    that there is no booking to cancel: the check sets the local reading
    19:00 against the stored 18:00. *)
Theorem round_trip_refused_before_start :
  AdminService.start_local Examples.eastern_times
    = PyDatetime.Aware (Scenario.reading Scenario.june_1st 20 0) Examples.eastern_zone
  /\ AdminService.start_utc Examples.eastern_times
     = PyDatetime.Aware (Scenario.reading Scenario.june_1st 18 0) PyDatetime.utc
  /\ map Slot.start_time (Models.slots Examples.db_east)
     = [Scenario.reading Scenario.june_1st 18 0]
  /\ BookingService.now Examples.hour_before_start
     = (Scenario.reading Scenario.june_1st 18 0 - PyDatetime.HOUR)%Z
  /\ BookingService._validate_user_and_slot Examples.db_east 1 1
     = inr (Scenario.alice,
            Slot.mk 1 "Perseids" "Meteor watch" (Scenario.reading Scenario.june_1st 18 0)
              (Scenario.reading Scenario.june_1st 21 0) true None 2 false false)
  /\ User.blocked Scenario.alice = false
  /\ fst (Utils.is_rate_limited ∅ (BookingService.time Examples.hour_before_start) 1)
     = false
  /\ Models.bookings Examples.db_east = []
  /\ Invariant.confirmed_count Examples.db_east 1 = 0%Z
  /\ BookingService.book_slot Examples.zoneinfo_east
       (BookingService.mk_world Examples.db_east ∅) Examples.hour_before_start 1 1
     = (Py.Returned "Event is no longer available for booking.",
        BookingService.mk_world Examples.db_east
          {[ 1%Z := [BookingService.time Examples.hour_before_start] ]})
  /\ fst (BookingService.cancel_booking Examples.zoneinfo_east
            (snd (BookingService.book_slot Examples.zoneinfo_east
                    (BookingService.mk_world Examples.db_east ∅)
                    Examples.hour_before_start 1 1))
            Examples.hour_before_start 1 1)
     = Py.Returned "No active booking found for this event."
  /\ BookingService.book_slot Scenario.zoneinfo_db
       (BookingService.mk_world
          (Models.set_configuration (Some (Scenario.config_in "UTC")) Examples.db_east) ∅)
       Examples.hour_before_start 1 1
     = (Py.Returned "Booking confirmed.",
        BookingService.mk_world
          (Models.set_bookings [Booking.mk 1 1 1 Booking.confirmed]
             (Models.set_configuration (Some (Scenario.config_in "UTC")) Examples.db_east))
          {[ 1%Z := [BookingService.time Examples.hour_before_start] ]}).
Proof.
  repeat split; vm_compute; reflexivity.
Qed.

(* ===================================================================== *)
(** * The statements at concrete inputs *)
(* ===================================================================== *)

(** The scenario of the specification: two places, three askers, one
    cancellation. *)
Example busy_evening_outcomes :
  map (fun w => (map Slot.available (Models.slots (BookingService.db w)),
                 Invariant.confirmed_count (BookingService.db w) 1))
      [BookingService.run Scenario.zoneinfo_db Scenario.world_utc (take 1 Traces.busy_evening);
       BookingService.run Scenario.zoneinfo_db Scenario.world_utc (take 2 Traces.busy_evening);
       BookingService.run Scenario.zoneinfo_db Scenario.world_utc (take 3 Traces.busy_evening);
       BookingService.run Scenario.zoneinfo_db Scenario.world_utc Traces.busy_evening]
  = [([true], 1%Z); ([false], 2%Z); ([false], 2%Z); ([true], 1%Z)]
  /\ fst (BookingService.book_slot Scenario.zoneinfo_db
            (BookingService.run Scenario.zoneinfo_db Scenario.world_utc
               (take 2 Traces.busy_evening))
            Scenario.day_before 3 1)
     = Py.Returned "Event is fully booked.".
Proof. split; vm_compute; reflexivity. Qed.

(** The other scenario of the specification: a second slot that starts on
    the day of [evening] is turned away by the first rule, and editing
    [evening] itself to the same times is not. *)
Example same_day_start_rejected :
  AdminService._save_event Scenario.db_utc None OverlapScenario.same_day
    = (Py.Returned "Only one event can start per day.", Scenario.db_utc)
  /\ fst (AdminService._save_event Scenario.db_utc (Some Scenario.evening)
            OverlapScenario.same_day)
     = Py.Returned "Event updated successfully.".
Proof. split; vm_compute; reflexivity. Qed.

(** The refresh on the day before: [evening] has forecast data for three
    of its five hours, whose ratings are 87.5, 100 and 34.75. *)
Example refresh_of_evening :
  exists rating,
    map (fun s => (Slot.weather_rating s, Slot.weather_warning s, Slot.weather_forecast s))
        (Models.slots
           (WeatherService.update_events_weather Scenario.zoneinfo_db PyFloat.exact
              PyFloat.exact_value Scenario.db_utc Scenario.forecast
              (BookingService.now Scenario.day_before)))
    = [(Some rating, false, true)]
    /\ (rating == (87.5 + 100 + 34.75) / 3)%Q.
Proof. eexists. split; vm_compute; reflexivity. Qed.

Lemma forecast_plausible (h : Z) (m : WeatherService.metrics Q) :
  Scenario.forecast !! h = Some m -> Frame.plausible m.
Proof.
  unfold Scenario.forecast. intros H.
  repeat (apply lookup_insert_Some in H as [[_ <-] | [_ H]];
          [unfold Frame.plausible; split; [| split]; intros x Hx;
           vm_compute in Hx; injection Hx as <-; try split; vm_compute; discriminate |]).
  rewrite lookup_empty in H. discriminate.
Qed.

Lemma hourly_rating_formula_witness :
  (WeatherService.dew_rating_of PyFloat.exact 3 == 100)%Q
  /\ (WeatherService.dew_rating_of PyFloat.exact 7.5 == 100 - (7.5 - 5) * 20)%Q
  /\ (WeatherService.dew_rating_of PyFloat.exact 12 == 0)%Q.
Proof.
  destruct hourly_rating_formula as (_ & _ & Hlow & Hmid & Hhigh & _).
  split; [| split].
  - apply Hlow. reflexivity.
  - apply Hmid. split; discriminate.
  - apply Hhigh. reflexivity.
Defined.

Lemma capacity_invariant_witness :
  let d := BookingService.db
             (BookingService.run Scenario.zoneinfo_db Scenario.world_utc
                Traces.busy_evening) in
  (Slot.available Scenario.evening = false <->
   (Slot.max_bookings Scenario.evening
    <= Invariant.confirmed_count d (Slot.id Scenario.evening))%Z)
  /\ (Invariant.confirmed_count d (Slot.id Scenario.evening)
      <= Slot.max_bookings Scenario.evening)%Z.
Proof.
  apply (capacity_invariant Scenario.zoneinfo_db Scenario.world_utc Traces.busy_evening).
  - unfold Invariant.slot_ids_unique. simpl. apply NoDup_singleton.
  - intros s Hin. simpl in Hin.
    apply elem_of_cons in Hin. destruct Hin as [-> | Hin]; [| inversion Hin].
    split; [split |]; vm_compute; congruence.
  - vm_compute. left.
Defined.

Lemma duplicate_booking_rejected_witness :
  fst (BookingService.book_slot Scenario.zoneinfo_db Traces.alice_booked
         Scenario.day_before 1 1)
    = Py.Returned "You have already booked this event."
  /\ Invariant.one_confirmed_per_pair
       (BookingService.db
          (BookingService.run Scenario.zoneinfo_db Scenario.world_utc
             Traces.busy_evening))
  /\ Models.bookings
       (BookingService.db
          (snd (BookingService.book_slot Scenario.zoneinfo_db Traces.alice_booked
                  Scenario.day_before 1 1)))
     = Models.bookings (BookingService.db Traces.alice_booked).
Proof.
  assert (Hc : Invariant.has_confirmed (BookingService.db Traces.alice_booked) 1 1).
  { exists (Booking.mk 1 1 1 Booking.confirmed). split; [vm_compute; left | reflexivity]. }
  destruct (duplicate_booking_rejected Scenario.zoneinfo_db) as (Hfirst & Hruns & Htwice).
  split; [| split].
  - apply (proj2 (proj2 (Hfirst Traces.alice_booked Scenario.day_before 1%Z 1%Z Hc))
             Scenario.alice Scenario.evening (PyDatetime.fixed_offset "UTC" 0)).
    + reflexivity.
    + reflexivity.
    + reflexivity.
    + vm_compute. reflexivity.
    + reflexivity.
    + vm_compute. reflexivity.
  - apply Hruns. intros u s. vm_compute. discriminate.
  - apply (Htwice Scenario.world_utc Scenario.day_before Scenario.day_before 1%Z 1%Z).
    vm_compute. reflexivity.
Defined.

Lemma get_event_weather_spec_witness :
  exists rating warning forecast,
    WeatherService.get_event_weather Scenario.zoneinfo_db PyFloat.binary64
      (Examples.forecast_in PyFloat.binary64)
      (PyDatetime.Naive (Scenario.reading Scenario.june_1st 18 30))
      (PyDatetime.Naive (Scenario.reading Scenario.june_1st 22 0))
      (Scenario.config_in "UTC")
    = Py.Ok (rating, warning, forecast)
    /\ forecast = true.
Proof.
  destruct (proj1 (get_event_weather_spec Scenario.zoneinfo_db) float PyFloat.binary64
              (Examples.forecast_in PyFloat.binary64)
              (PyDatetime.Naive (Scenario.reading Scenario.june_1st 18 30))
              (PyDatetime.Naive (Scenario.reading Scenario.june_1st 22 0))
              (Scenario.config_in "UTC") (PyDatetime.fixed_offset "UTC" 0) eq_refl)
    as (hourly_range & rating & warning & forecast & _ & Hget & _ & _ & Hforecast & _).
  exists rating, warning, forecast. split; [exact Hget |].
  apply Hforecast. exists (Scenario.reading Scenario.june_1st 19 0).
  split.
  - vm_compute. repeat split; congruence.
  - exists (WeatherService.hourly_entry (PyFloat.lit PyFloat.binary64 4)
              (PyFloat.lit PyFloat.binary64 0) (PyFloat.lit PyFloat.binary64 0)
              (PyFloat.lit PyFloat.binary64 20000)).
    vm_compute. reflexivity.
Defined.

Lemma update_events_weather_frame_witness :
  (exists event' rating,
     Models.slots
       (WeatherService.update_events_weather Scenario.zoneinfo_db PyFloat.exact
          PyFloat.exact_value Scenario.db_utc Scenario.forecast
          (BookingService.now Scenario.day_before)) !! 0%nat = Some event'
     /\ Frame.non_weather_fields event' = Frame.non_weather_fields Scenario.evening
     /\ Slot.weather_rating event' = Some rating
     /\ (rating == (87.5 + 100 + 34.75) / 3)%Q
     /\ Slot.weather_warning event' = false
     /\ Slot.weather_forecast event' = true)
  /\ (exists event',
        Models.slots
          (WeatherService.update_events_weather Scenario.zoneinfo_db PyFloat.binary64
             PyFloat.binary64_value Scenario.db_utc (Examples.forecast_in PyFloat.binary64)
             (BookingService.now Scenario.day_before)) !! 0%nat = Some event'
        /\ Frame.non_weather_fields event' = Frame.non_weather_fields Scenario.evening
        /\ Slot.weather_rating event' = Some (5213151131161941 # 70368744177664)
        /\ Slot.weather_warning event' = false
        /\ Slot.weather_forecast event' = true).
Proof.
  destruct (update_events_weather_frame Scenario.zoneinfo_db)
    as (Hslot & _ & _ & Hcommit).
  split.
  - destruct (Hslot Q PyFloat.exact PyFloat.exact_value Scenario.db_utc Scenario.forecast
                (BookingService.now Scenario.day_before)
                (PyDatetime.fixed_offset "UTC" 0) 0%nat Scenario.evening
                eq_refl eq_refl eq_refl)
      as (events & hourly_range & event' & rows & _ & _ & _ & Hupd & Hrows & _
          & _ & _ & _ & _ & Hdone & _).
    pose proof (Hcommit Scenario.db_utc Scenario.forecast
                  (BookingService.now Scenario.day_before)
                  (PyDatetime.fixed_offset "UTC" 0) rows eq_refl forecast_plausible Hrows)
      as Hpass.
    destruct (Hdone Hpass) as [_ Hi].
    vm_compute in Hupd. injection Hupd as <-.
    eexists _, _. split; [exact Hi |].
    split; [reflexivity |]. split; [reflexivity |].
    split; [vm_compute; reflexivity |]. split; reflexivity.
  - destruct (Hslot float PyFloat.binary64 PyFloat.binary64_value Scenario.db_utc
                (Examples.forecast_in PyFloat.binary64)
                (BookingService.now Scenario.day_before)
                (PyDatetime.fixed_offset "UTC" 0) 0%nat Scenario.evening
                eq_refl eq_refl eq_refl)
      as (events & hourly_range & event' & rows & _ & _ & _ & Hupd & Hrows & _
          & _ & _ & _ & _ & Hdone & _).
    vm_compute in Hrows. injection Hrows as <-.
    destruct Hdone as [_ Hi]; [vm_compute; reflexivity |].
    vm_compute in Hupd. injection Hupd as <-.
    eexists. split; [exact Hi |].
    split; [reflexivity |]. split; [reflexivity |]. split; reflexivity.
Defined.

Lemma book_then_cancel_witness :
  fst (BookingService.book_slot Scenario.zoneinfo_db Scenario.world_utc
         Scenario.day_before 1 1)
    = Py.Returned "Booking confirmed."
  /\ fst (BookingService.cancel_booking Scenario.zoneinfo_db Traces.alice_booked
            Scenario.day_before 1 1)
     = Py.Returned "Booking cancelled successfully."
  /\ Models.bookings
       (BookingService.db
          (snd (BookingService.cancel_booking Scenario.zoneinfo_db Traces.alice_booked
                  Scenario.day_before 1 1)))
     = Models.bookings Scenario.db_utc.
Proof.
  destruct (book_then_cancel Scenario.zoneinfo_db Scenario.world_utc
              Scenario.day_before Scenario.day_before 1 1
              Scenario.alice Scenario.evening (PyDatetime.fixed_offset "UTC" 0))
    as (H1 & H2 & H3 & _).
  - reflexivity.
  - reflexivity.
  - reflexivity.
  - reflexivity.
  - reflexivity.
  - vm_compute. reflexivity.
  - vm_compute. reflexivity.
  - intros (b & Hin & _). inversion Hin.
  - vm_compute. reflexivity.
  - vm_compute. reflexivity.
  - vm_compute. reflexivity.
  - split; [exact H1 |]. split; [exact H2 | exact H3].
Defined.

(* ===================================================================== *)
(** * The rate limiter *)
(* ===================================================================== *)
Section RateLimiter.

Import Utils RateLimit.
Open Scope Q_scope.

Lemma in_window_true (current_time t : Q) :
  PyFloat.Qltb (current_time - t) RATE_LIMIT_SECONDS = true <-> current_time - t < 20.
Proof. apply Qltb_true. Qed.

Lemma filter_all {A : Type} (p : A -> bool) (l : list A) :
  (forall x, x ∈ l -> p x = true) -> List.filter p l = l.
Proof.
  induction l as [|a l IH]; intros H; simpl; [reflexivity|].
  rewrite (H a) by apply list_elem_of_here.
  f_equal. apply IH. intros x Hx. apply H. now apply list_elem_of_further.
Qed.

Lemma filter_none {A : Type} (p : A -> bool) (l : list A) :
  (forall x, x ∈ l -> p x = false) -> List.filter p l = [].
Proof.
  induction l as [|a l IH]; intros H; simpl; [reflexivity|].
  rewrite (H a) by apply list_elem_of_here.
  apply IH. intros x Hx. apply H. now apply list_elem_of_further.
Qed.

Lemma filter_length_le {A : Type} (p : A -> bool) (l : list A) :
  (length (List.filter p l) <= length l)%nat.
Proof.
  induction l as [|a l IH]; simpl; [lia|]. destruct (p a); simpl; lia.
Qed.

Lemma log_insert (store : rate_limit_store) (user_id : Z) (l : list Q) :
  log (<[user_id := l]> store) user_id = l.
Proof. unfold log. now rewrite lookup_insert_eq. Qed.

Lemma log_insert_ne (store : rate_limit_store) (u v : Z) (l : list Q) :
  u <> v -> log (<[u := l]> store) v = log store v.
Proof. intros H. unfold log. now rewrite lookup_insert_ne. Qed.

(** A call whose user has fewer than [MAX_REQUESTS] logged times, all of
    them less than 20 seconds old, is let through and logged. *)
Lemma is_rate_limited_allowed (store : rate_limit_store) (t : Q) (u : Z) :
  (forall x, x ∈ log store u -> t - x < 20) ->
  (length (log store u) < MAX_REQUESTS)%nat ->
  is_rate_limited store t u = (false, <[u := log store u ++ [t]]> store).
Proof.
  intros Hwin Hlen. unfold is_rate_limited. fold (log store u).
  rewrite filter_all by (intros x Hx; apply in_window_true; auto).
  destruct (MAX_REQUESTS <=? length (log store u))%nat eqn:E.
  - apply Nat.leb_le in E. lia.
  - now rewrite insert_insert_eq.
Qed.

Lemma calls_app (store : rate_limit_store) (r1 r2 : list (Q * Z)) :
  calls store (r1 ++ r2) =
  (fst (calls store r1) ++ fst (calls (snd (calls store r1)) r2),
   snd (calls (snd (calls store r1)) r2)).
Proof.
  revert store. induction r1 as [|[t u] r1 IH]; intros store; simpl.
  - now destruct (calls store r2).
  - destruct (is_rate_limited store t u) as [limited store1].
    rewrite IH. destruct (calls store1 r1) as [a1 s1]. simpl.
    now destruct (calls s1 r2).
Qed.

(** Calls of one user that all fall within a span of less than 20 seconds
    are let through as long as the log has room. *)
Lemma calls_within_window (store : rate_limit_store) (u : Z) (times : list Q) :
  (forall x t, x ∈ log store u ++ times -> t ∈ times -> t - x < 20) ->
  (length (log store u) + length times <= MAX_REQUESTS)%nat ->
  fst (calls store (by_user u times)) = replicate (length times) false
  /\ log (snd (calls store (by_user u times))) u = log store u ++ times
  /\ forall v, v <> u -> snd (calls store (by_user u times)) !! v = store !! v.
Proof.
  revert store. induction times as [|t times IH]; intros store Hwin Hlen.
  - simpl. now rewrite app_nil_r.
  - simpl in *.
    rewrite is_rate_limited_allowed; cycle 1.
    { intros x Hx. apply Hwin; [apply elem_of_app; now left | apply list_elem_of_here]. }
    { lia. }
    destruct (IH (<[u := log store u ++ [t]]> store)) as (Ha & Hl & Hv).
    { rewrite log_insert. intros x t' Hx Ht'. apply Hwin.
      - rewrite <- app_assoc in Hx. exact Hx.
      - now apply list_elem_of_further. }
    { rewrite log_insert, length_app. simpl. lia. }
    destruct (calls (<[u := log store u ++ [t]]> store) (by_user u times))
      as [answers store'] eqn:E.
    simpl in *. split; [now rewrite Ha|]. split.
    + rewrite Hl, log_insert, <- app_assoc. reflexivity.
    + intros v Hne. rewrite Hv by exact Hne. now rewrite lookup_insert_ne.
Qed.

Lemma is_rate_limited_log_length (store : rate_limit_store) (t : Q) (u v : Z) :
  (length (log store v) <= MAX_REQUESTS)%nat ->
  (length (log (snd (is_rate_limited store t u)) v) <= MAX_REQUESTS)%nat.
Proof.
  intros H. unfold is_rate_limited. fold (log store u).
  set (recent := List.filter _ (log store u)).
  destruct (decide (u = v)) as [->|Hne].
  - assert (length recent <= length (log store v))%nat by apply filter_length_le.
    destruct (MAX_REQUESTS <=? length recent)%nat eqn:E; simpl.
    + rewrite log_insert. lia.
    + rewrite log_insert. apply Nat.leb_gt in E. rewrite length_app. simpl. lia.
  - destruct (MAX_REQUESTS <=? length recent)%nat; simpl;
      repeat rewrite log_insert_ne by exact Hne; exact H.
Qed.

Lemma filter_filter_weaker {A : Type} (p q : A -> bool) (l : list A) :
  (forall x, q x = true -> p x = true) ->
  List.filter q (List.filter p l) = List.filter q l.
Proof.
  intros H. induction l as [|a l IH]; simpl; [reflexivity|].
  destruct (p a) eqn:Ep; simpl.
  - now rewrite IH.
  - destruct (q a) eqn:Eq; [|exact IH].
    apply H in Eq. congruence.
Qed.

Lemma is_rate_limited_refused (store : rate_limit_store) (t : Q) (u : Z) :
  (forall x, x ∈ log store u -> t - x < 20) ->
  (MAX_REQUESTS <= length (log store u))%nat ->
  is_rate_limited store t u = (true, <[u := log store u]> store).
Proof.
  intros Hwin Hlen. unfold is_rate_limited. fold (log store u).
  rewrite filter_all by (intros x Hx; apply in_window_true; auto).
  destruct (MAX_REQUESTS <=? length (log store u))%nat eqn:E; [reflexivity|].
  apply Nat.leb_gt in E. lia.
Qed.

Lemma is_rate_limited_expired (store : rate_limit_store) (t : Q) (u : Z) :
  (forall x, x ∈ log store u -> 20 <= t - x) ->
  is_rate_limited store t u = (false, <[u := [t]]> store).
Proof.
  intros Hold. unfold is_rate_limited. fold (log store u).
  rewrite filter_none by (intros x Hx; apply Qltb_false; now apply Hold).
  cbn [length app]. unfold MAX_REQUESTS. cbn [Nat.leb].
  now rewrite insert_insert_eq.
Qed.

(** X1: Ten requests of a user with an empty log are all let through when
    their times lie within a span of less than 20 seconds; an eleventh
    in the same span is refused; a request at least 20 seconds after all
    of them is let through again, and the log then holds this request
    only. *)
Theorem rate_limit_burst (store : rate_limit_store) (u : Z) (times : list Q)
    (t11 t12 : Q) :
  log store u = [] ->
  length times = MAX_REQUESTS ->
  (forall x t, x ∈ times -> t ∈ times ++ [t11] -> t - x < 20) ->
  (forall x, x ∈ times -> 20 <= t12 - x) ->
  fst (calls store (by_user u (times ++ [t11; t12])))
    = replicate 10 false ++ [true; false]
  /\ log (snd (calls store (by_user u (times ++ [t11; t12])))) u = [t12].
Proof.
  intros Hlog Hlen Hspan Hlater.
  destruct (calls_within_window store u times) as (Ha & Hl & _).
  { rewrite Hlog. simpl. intros x t Hx Ht. apply Hspan; [exact Hx|].
    apply elem_of_app. now left. }
  { rewrite Hlog. simpl. lia. }
  unfold by_user in *. rewrite map_app, calls_app.
  destruct (calls store (map (fun t => (t, u)) times)) as [answers store1].
  cbn [fst snd] in *. rewrite Hlog in Hl. cbn [app] in Hl.
  cbn [map calls].
  rewrite is_rate_limited_refused; cycle 1.
  { rewrite Hl. intros x Hx. apply Hspan; [exact Hx|].
    apply elem_of_app. right. apply list_elem_of_here. }
  { rewrite Hl, Hlen. lia. }
  rewrite is_rate_limited_expired; cycle 1.
  { rewrite log_insert, Hl. exact Hlater. }
  cbn [fst snd]. rewrite log_insert.
  split; [|reflexivity]. rewrite Ha, Hlen. reflexivity.
Qed.

(** X2: When no log of the store holds more than [MAX_REQUESTS] times,
    none does after any sequence of calls, whatever the users and the
    clock readings. *)
Theorem rate_limit_log_bounded (store : rate_limit_store) (requests : list (Q * Z)) :
  (forall u, (length (log store u) <= MAX_REQUESTS)%nat) ->
  forall u, (length (log (snd (calls store requests)) u) <= MAX_REQUESTS)%nat.
Proof.
  revert store. induction requests as [|[t v] rest IH]; intros store H u; simpl.
  - apply H.
  - pose proof (fun x => is_rate_limited_log_length store t v x (H x)) as Hstep.
    destruct (is_rate_limited store t v) as [limited store1]. simpl in Hstep.
    specialize (IH store1 Hstep u).
    now destruct (calls store1 rest).
Qed.

(** X3: A refused request leaves no trace: the answer to, and the store
    after, any request of the same user at the same or a later time are
    what they would have been without the refused request. *)
Theorem refused_request_leaves_no_trace (store : rate_limit_store) (t t' : Q) (u : Z) :
  fst (is_rate_limited store t u) = true ->
  t <= t' ->
  is_rate_limited (snd (is_rate_limited store t u)) t' u = is_rate_limited store t' u.
Proof.
  intros Href Hle. unfold is_rate_limited in *. fold (log store u) in *.
  set (recent := List.filter _ (log store u)) in *.
  destruct (MAX_REQUESTS <=? length recent)%nat eqn:E; simpl in Href; [|discriminate].
  cbn [fst snd]. unfold log. rewrite lookup_insert_eq. cbn [default from_option]. unfold id. subst recent.
  rewrite filter_filter_weaker; cycle 1.
  { intros x Hx. apply Qltb_true in Hx. apply Qltb_true.
    unfold RATE_LIMIT_SECONDS in *. lra. }
  now rewrite !insert_insert_eq.
Qed.

End RateLimiter.

Lemma max_id_bound (ids : list Z) (x : Z) : x ∈ ids -> (x <= fold_right Z.max 0 ids)%Z.
Proof.
  induction ids as [| a ids IH]; intros Hx.
  - now apply elem_of_nil in Hx.
  - apply elem_of_cons in Hx as [-> | Hx]; simpl; [lia |].
    specialize (IH Hx). lia.
Qed.

Lemma next_id_fresh (ids : list Z) : Models.next_id ids ∉ ids.
Proof.
  intros Hin. apply max_id_bound in Hin. unfold Models.next_id in Hin. lia.
Qed.

(* ===================================================================== *)
(** * Keys, references and frame of the booking service *)
(* ===================================================================== *)

Section BookingIntegrity.

Import PyDatetime Py Models BookingService Invariant Integrity.
Open Scope Z_scope.

Variable ZoneInfo : string -> option tzinfo.

Lemma run_invariant (P : World -> Prop) :
  (forall w r, P w -> P (snd (serve ZoneInfo w r))) ->
  forall w requests, P w -> P (run ZoneInfo w requests).
Proof.
  intros Hstep w requests. revert w. unfold run.
  induction requests as [| r requests IH]; intros w Hw; simpl; [exact Hw |].
  apply IH. apply Hstep. exact Hw.
Qed.

Lemma delete_first_elem {A : Type} (p : A -> bool) (rows : list A) (r : A) :
  r ∈ delete_first p rows -> r ∈ rows.
Proof.
  induction rows as [| a rows IH]; simpl; intros H; [exact H |].
  destruct (p a).
  - now apply list_elem_of_further.
  - apply elem_of_cons in H as [-> | H]; [apply list_elem_of_here |].
    apply list_elem_of_further. now apply IH.
Qed.

Lemma delete_first_NoDup {A B : Type} (f : A -> B) (p : A -> bool) (rows : list A) :
  NoDup (map f rows) -> NoDup (map f (delete_first p rows)).
Proof.
  induction rows as [| a rows IH]; simpl; intros H; [exact H |].
  apply NoDup_cons in H as [Hnin Hnd].
  destruct (p a); [exact Hnd |].
  simpl. apply NoDup_cons. split; [| now apply IH].
  intros Hin. apply Hnin.
  apply list_elem_of_fmap in Hin as (y & -> & Hy).
  apply list_elem_of_fmap. exists y. split; [reflexivity |].
  now apply delete_first_elem in Hy.
Qed.

Lemma uq_new_pair (b : Booking.t) (rows : list Booking.t) :
  uq_user_slot_booking b rows = true ->
  user_slot_pair b ∉ map user_slot_pair rows.
Proof.
  unfold uq_user_slot_booking. rewrite negb_true_iff. intros H Hin.
  apply list_elem_of_fmap in Hin as (r & Hr & Hin).
  assert (existsb (fun r => (Booking.user_id r =? Booking.user_id b)
                            && (Booking.slot_id r =? Booking.slot_id b)) rows = true).
  { apply existsb_exists. exists r. split; [now apply list_elem_of_In |].
    unfold user_slot_pair in Hr. injection Hr as Hu Hs.
    rewrite Hu, Hs, !Z.eqb_refl. reflexivity. }
  congruence.
Qed.

Lemma NoDup_snoc {A : Type} (l : list A) (x : A) :
  NoDup l -> x ∉ l -> NoDup (l ++ [x]).
Proof.
  intros Hnd Hx. apply NoDup_app. split; [exact Hnd |]. split.
  - intros y Hy Hy'. apply elem_of_cons in Hy' as [-> | Hy']; [contradiction |].
    now apply elem_of_nil in Hy'.
  - apply NoDup_singleton.
Qed.

Lemma serve_keeps_keys (w : World) (r : request) :
  booking_ids_unique (db w) /\ user_slot_pairs_unique (db w) ->
  booking_ids_unique (db (snd (serve ZoneInfo w r)))
  /\ user_slot_pairs_unique (db (snd (serve ZoneInfo w r))).
Proof.
  intros [Hid Hpair]. unfold booking_ids_unique, user_slot_pairs_unique in *.
  destruct r as [clk u s | clk u s]; simpl.
  - destruct (book_slot_cases ZoneInfo w clk u s)
      as [(_ & _ & Hb & _)
         | (user & slot & tz & _ & _ & _ & _ & _ & _ & _ & Huq & _ & Hb & _)].
    + rewrite Hb. split; assumption.
    + rewrite Hb, !map_app. simpl. split.
      * apply NoDup_snoc; [exact Hid | apply next_id_fresh].
      * apply NoDup_snoc; [exact Hpair |].
        apply (uq_new_pair _ _ Huq).
  - destruct (cancel_booking_cases ZoneInfo w clk u s)
      as [(_ & _ & Hb & _)
         | (user & slot & tz & booking & _ & _ & _ & _ & _ & _ & _ & Hb & _)].
    + rewrite Hb. split; assumption.
    + rewrite Hb. split; now apply delete_first_NoDup.
Qed.

(** X4: Sequences of [book_slot] and [cancel_booking] calls keep the keys
    of the bookings table: when the booking ids are pairwise different
    and no two rows share a user and a slot, the same holds after the
    calls. *)
Theorem run_keeps_booking_keys (w : World) (requests : list request) :
  booking_ids_unique (db w) ->
  user_slot_pairs_unique (db w) ->
  booking_ids_unique (db (run ZoneInfo w requests))
  /\ user_slot_pairs_unique (db (run ZoneInfo w requests)).
Proof.
  intros Hid Hpair.
  apply (run_invariant
           (fun w => booking_ids_unique (db w) /\ user_slot_pairs_unique (db w))).
  - intros w' r. apply serve_keeps_keys.
  - split; assumption.
Qed.

Lemma update_slot_id_elem (row : Slot.t) (rows : list Slot.t) (sid : Z) :
  (exists s, s ∈ rows /\ Slot.id s = sid) ->
  exists s, s ∈ update_slot row rows /\ Slot.id s = sid.
Proof.
  intros (s & Hs & Hid).
  assert (Hin : sid ∈ map Slot.id (update_slot row rows)).
  { rewrite update_slot_ids. apply list_elem_of_fmap. now exists s. }
  apply list_elem_of_fmap in Hin as (s' & Hid' & Hs'). now exists s'.
Qed.

Lemma references_ok_ext (d d' : Database) :
  users d' = users d ->
  map Slot.id (slots d') = map Slot.id (slots d) ->
  (forall b, b ∈ bookings d' ->
     b ∈ bookings d
     \/ (exists u, u ∈ users d /\ User.id u = Booking.user_id b)
        /\ (exists s, s ∈ slots d /\ Slot.id s = Booking.slot_id b)) ->
  references_ok d -> references_ok d'.
Proof.
  intros Hu Hs Hb Hok b Hin.
  assert (Href : (exists u, u ∈ users d /\ User.id u = Booking.user_id b)
                 /\ (exists s, s ∈ slots d /\ Slot.id s = Booking.slot_id b)).
  { destruct (Hb b Hin) as [Hold | Hnew]; [now apply Hok | exact Hnew]. }
  destruct Href as [Huser (s & Hsin & Hsid)]. rewrite Hu. split; [exact Huser |].
  assert (Hin' : Booking.slot_id b ∈ map Slot.id (slots d')).
  { rewrite Hs. apply list_elem_of_fmap. now exists s. }
  apply list_elem_of_fmap in Hin' as (s' & Hid' & Hs'). now exists s'.
Qed.

Lemma first_user_id (uid : Z) (rows : list User.t) (user : User.t) :
  first (fun u => User.id u =? uid) rows = Some user ->
  user ∈ rows /\ User.id user = uid.
Proof.
  intros H. apply first_some_elem in H as [Hin Hp].
  split; [exact Hin | now apply Z.eqb_eq].
Qed.

Lemma serve_keeps_references (w : World) (r : request) :
  references_ok (db w) -> references_ok (db (snd (serve ZoneInfo w r))).
Proof.
  intros Hok. destruct r as [clk u s | clk u s]; simpl.
  - destruct (book_slot_cases ZoneInfo w clk u s)
      as [(_ & Hs & Hb & Hu)
         | (user & slot & tz & _ & Hv & _ & _ & _ & _ & _ & _ & Hu & Hb & Hs)].
    + apply (references_ok_ext (db w)); [exact Hu | now rewrite Hs | | exact Hok].
      intros b Hin. left. now rewrite <- Hb.
    + apply validate_inr in Hv as (Hfu & _ & Hfs).
      apply first_user_id in Hfu as [Huin Huid].
      apply first_slot_id in Hfs as [Hsin Hsid].
      apply (references_ok_ext (db w)); [exact Hu | | | exact Hok].
      * rewrite Hs. destruct (_ <=? _); [apply update_slot_ids | reflexivity].
      * intros b Hin. rewrite Hb in Hin. apply elem_of_app in Hin as [Hin | Hin].
        -- now left.
        -- right. apply elem_of_cons in Hin as [-> | Hin];
             [| now apply elem_of_nil in Hin].
           simpl. split; [now exists user | now exists slot].
  - destruct (cancel_booking_cases ZoneInfo w clk u s)
      as [(_ & Hs & Hb & Hu)
         | (user & slot & tz & booking & _ & _ & _ & _ & _ & _ & Hu & Hb & Hs)].
    + apply (references_ok_ext (db w)); [exact Hu | now rewrite Hs | | exact Hok].
      intros b Hin. left. now rewrite <- Hb.
    + apply (references_ok_ext (db w)); [exact Hu | | | exact Hok].
      * rewrite Hs. destruct (_ <? _); [apply update_slot_ids | reflexivity].
      * intros b Hin. left. rewrite Hb in Hin. now apply delete_first_elem in Hin.
Qed.

(** X5: Sequences of [book_slot] and [cancel_booking] calls keep the
    foreign keys of the bookings table: when every booking names a stored
    user and a stored slot, the same holds after the calls. *)
Theorem run_keeps_references (w : World) (requests : list request) :
  references_ok (db w) ->
  references_ok (db (run ZoneInfo w requests)).
Proof.
  intros Hok.
  apply (run_invariant (fun w => references_ok (db w))); [| exact Hok].
  intros w' r. apply serve_keeps_references.
Qed.

Lemma update_slot_all_but_available (sid : Z) (b : bool) (slot : Slot.t)
    (rows : list Slot.t) :
  first (fun s => Slot.id s =? sid) rows = Some slot ->
  map all_but_available (update_slot (Slot.set_available b slot) rows)
  = map all_but_available rows.
Proof.
  induction rows as [| r rows IH]; simpl; [discriminate |].
  destruct (Slot.id r =? sid) eqn:E.
  - intros [= ->]. apply Z.eqb_eq in E.
    rewrite Z.eqb_refl. reflexivity.
  - intros H. pose proof (first_slot_id _ _ _ H) as [_ Hid].
    rewrite Hid, E. simpl. f_equal. now apply IH.
Qed.

Lemma serve_all_but_available (w : World) (r : request) :
  map all_but_available (slots (db (snd (serve ZoneInfo w r))))
  = map all_but_available (slots (db w))
  /\ users (db (snd (serve ZoneInfo w r))) = users (db w).
Proof.
  destruct r as [clk u s | clk u s]; simpl.
  - destruct (book_slot_cases ZoneInfo w clk u s)
      as [(_ & Hs & _ & Hu)
         | (user & slot & tz & _ & Hv & _ & _ & _ & _ & _ & _ & Hu & _ & Hs)].
    + now rewrite Hs, Hu.
    + apply validate_inr in Hv as (_ & _ & Hfs).
      rewrite Hs, Hu. split; [| reflexivity].
      destruct (_ <=? _); [| reflexivity].
      now apply (update_slot_all_but_available s).
  - destruct (cancel_booking_cases ZoneInfo w clk u s)
      as [(_ & Hs & _ & Hu)
         | (user & slot & tz & booking & _ & Hv & _ & _ & _ & _ & Hu & _ & Hs)].
    + now rewrite Hs, Hu.
    + apply validate_inr in Hv as (_ & _ & Hfs).
      rewrite Hs, Hu. split; [| reflexivity].
      destruct (_ <? _); [| reflexivity].
      now apply (update_slot_all_but_available s).
Qed.

(** X6: Sequences of [book_slot] and [cancel_booking] calls write no
    column of the slots table but [available]: the rows are the same in
    number and order, and each keeps its id, title, description, times,
    capacity and weather columns; the users table is not written at
    all. *)
Theorem run_writes_only_available (w : World) (requests : list request) :
  map all_but_available (slots (db (run ZoneInfo w requests)))
  = map all_but_available (slots (db w))
  /\ users (db (run ZoneInfo w requests)) = users (db w).
Proof.
  revert w. unfold run.
  induction requests as [| r requests IH]; intros w; simpl; [now split |].
  destruct (IH (snd (serve ZoneInfo w r))) as [Hs Hu].
  destruct (serve_all_but_available w r) as [Hs' Hu'].
  split; congruence.
Qed.

Lemma filter_delete_first {A : Type} (p q : A -> bool) (rows : list A) :
  (forall r, p r = true -> q r = false) ->
  List.filter q (delete_first p rows) = List.filter q rows.
Proof.
  intros H. induction rows as [| a rows IH]; simpl; [reflexivity |].
  destruct (p a) eqn:Ep.
  - now rewrite (H a Ep).
  - simpl. now rewrite IH.
Qed.

(** X7: A [book_slot] or [cancel_booking] call for a user and a slot
    leaves every other booking row where it is: the rows that are not a
    confirmed booking of that user for that slot are the same, in the
    same order, before and after the call. *)
Theorem other_bookings_untouched (w : World) (clk : Clock) (user_id slot_id : Z) :
  let others := fun b => negb (for_user_and_slot user_id slot_id b) in
  List.filter others (bookings (db (snd (book_slot ZoneInfo w clk user_id slot_id))))
  = List.filter others (bookings (db w))
  /\ List.filter others
       (bookings (db (snd (cancel_booking ZoneInfo w clk user_id slot_id))))
     = List.filter others (bookings (db w)).
Proof.
  intros others. split.
  - destruct (book_slot_cases ZoneInfo w clk user_id slot_id)
      as [(_ & _ & Hb & _)
         | (user & slot & tz & _ & _ & _ & _ & _ & _ & _ & _ & _ & Hb & _)].
    + now rewrite Hb.
    + rewrite Hb, List.filter_app. simpl. unfold others at 2.
      rewrite pair_of_new_booking, !Z.eqb_refl. simpl. apply app_nil_r.
  - destruct (cancel_booking_cases ZoneInfo w clk user_id slot_id)
      as [(_ & _ & Hb & _)
         | (user & slot & tz & booking & _ & _ & _ & _ & _ & _ & _ & Hb & _)].
    + now rewrite Hb.
    + rewrite Hb. apply filter_delete_first.
      intros r Hr. unfold others. now rewrite Hr.
Qed.

End BookingIntegrity.

(* ===================================================================== *)
(** * When a booking and a cancellation go through *)
(* ===================================================================== *)

Section BookingAnswers.

Import PyDatetime Py Models BookingService Invariant Integrity.
Open Scope Z_scope.

Variable ZoneInfo : string -> option tzinfo.

Lemma unique_no_row (d : Database) (user_id slot_id n : Z) (st : Booking.Status) :
  uq_user_slot_booking (Booking.mk n user_id slot_id st) (bookings d) = true ->
  ~ has_row d user_id slot_id.
Proof.
  unfold uq_user_slot_booking. rewrite negb_true_iff.
  intros H (b & Hin & Hu & Hs).
  assert (existsb (fun r => (Booking.user_id r =? user_id)
                            && (Booking.slot_id r =? slot_id)) (bookings d) = true).
  { apply existsb_exists. exists b. split; [now apply list_elem_of_In |].
    rewrite Hu, Hs, !Z.eqb_refl. reflexivity. }
  simpl in H. congruence.
Qed.

(** X8: [book_slot] answers "Booking confirmed." exactly when the user
    exists and is not blocked, the slot exists, the caller is not
    rate-limited, the configured zone is known, the clock read in that
    zone is before the stored start, the user has no booking row of the
    slot (whatever its status) and the slot has fewer confirmed bookings
    than [max_bookings]. *)
Theorem book_slot_confirmed_iff (w : World) (clk : Clock) (user_id slot_id : Z) :
  fst (book_slot ZoneInfo w clk user_id slot_id) = Returned "Booking confirmed."
  <-> exists user slot tz,
        first (fun u => User.id u =? user_id) (users (db w)) = Some user
        /\ User.blocked user = false
        /\ first (fun s => Slot.id s =? slot_id) (slots (db w)) = Some slot
        /\ fst (Utils.is_rate_limited (rate_limit_store w) (time clk) user_id) = false
        /\ ZoneInfo (Configuration.timezone (fst (get_config (db w)))) = Some tz
        /\ now clk + offset_at_utc tz (now clk) < Slot.start_time slot
        /\ ~ has_row (db w) user_id slot_id
        /\ confirmed_count (db w) slot_id < Slot.max_bookings slot.
Proof.
  split.
  - intros Hok.
    destruct (book_slot_cases ZoneInfo w clk user_id slot_id)
      as [(Hm & _)
         | (user & slot & tz & _ & Hv & Hr & Hz & Ht & _ & Hfree & Huq & _)];
      [congruence |].
    apply validate_inr in Hv as (Hu & Hb & Hs).
    exists user, slot, tz. repeat (split; [assumption |]).
    split; [| exact Hfree]. exact (unique_no_row _ _ _ _ _ Huq).
  - intros (user & slot & tz & Hu & Hb & Hs & Hr & Hz & Ht & Hrow & Hfree).
    apply (book_slot_succeeds ZoneInfo w clk user_id slot_id user slot tz); try assumption.
    apply validate_inr. auto.
Qed.

(** X9: [cancel_booking] answers "Booking cancelled successfully."
    exactly when the user exists and is not blocked, the slot exists, the
    caller is not rate-limited, the user holds a confirmed booking of the
    slot, the configured zone is known and the clock read in that zone is
    before the stored start. *)
Theorem cancel_booking_done_iff (w : World) (clk : Clock) (user_id slot_id : Z) :
  fst (cancel_booking ZoneInfo w clk user_id slot_id)
    = Returned "Booking cancelled successfully."
  <-> exists user slot tz,
        first (fun u => User.id u =? user_id) (users (db w)) = Some user
        /\ User.blocked user = false
        /\ first (fun s => Slot.id s =? slot_id) (slots (db w)) = Some slot
        /\ fst (Utils.is_rate_limited (rate_limit_store w) (time clk) user_id) = false
        /\ has_confirmed (db w) user_id slot_id
        /\ ZoneInfo (Configuration.timezone (fst (get_config (db w)))) = Some tz
        /\ now clk + offset_at_utc tz (now clk) < Slot.start_time slot.
Proof.
  split.
  - intros Hok.
    destruct (cancel_booking_cases ZoneInfo w clk user_id slot_id)
      as [(Hm & _)
         | (user & slot & tz & booking & _ & Hv & Hr & Hz & Ht & Hf & _)];
      [congruence |].
    apply validate_inr in Hv as (Hu & Hb & Hs).
    exists user, slot, tz. repeat (split; [assumption |]).
    split; [| split; assumption].
    apply first_some_elem in Hf as [Hin Hp]. now exists booking.
  - intros (user & slot & tz & Hu & Hb & Hs & Hr & Hc & Hz & Ht).
    destruct (first (for_user_and_slot user_id slot_id) (bookings (db w)))
      as [booking |] eqn:Hf.
    + apply (cancel_booking_succeeds ZoneInfo w clk user_id slot_id user slot tz booking);
        try assumption.
      apply validate_inr. auto.
    + apply no_confirmed_first_none in Hf. contradiction.
Qed.

(** X10: A confirmed booking raises the number of confirmed bookings of
    its slot by exactly one, a successful cancellation lowers it by
    exactly one, and any other answer leaves it as it was; the numbers of
    the other slots never change. *)
Theorem confirmed_count_steps (w : World) (clk : Clock) (user_id slot_id : Z) :
  let booked := book_slot ZoneInfo w clk user_id slot_id in
  let cancelled := cancel_booking ZoneInfo w clk user_id slot_id in
  ((fst booked = Returned "Booking confirmed."
    /\ forall x, confirmed_count (db (snd booked)) x =
                 confirmed_count (db w) x + (if x =? slot_id then 1 else 0))
   \/ (fst booked <> Returned "Booking confirmed."
       /\ forall x, confirmed_count (db (snd booked)) x = confirmed_count (db w) x))
  /\ ((fst cancelled = Returned "Booking cancelled successfully."
       /\ forall x, confirmed_count (db (snd cancelled)) x =
                    confirmed_count (db w) x - (if x =? slot_id then 1 else 0))
      \/ (fst cancelled <> Returned "Booking cancelled successfully."
          /\ forall x, confirmed_count (db (snd cancelled)) x = confirmed_count (db w) x)).
Proof.
  cbv zeta. unfold confirmed_count. split.
  - destruct (book_slot_cases ZoneInfo w clk user_id slot_id)
      as [(Hm & _ & Hb & _)
         | (user & slot & tz & Hm & _ & _ & _ & _ & _ & _ & _ & _ & Hb & _)].
    + right. split; [exact Hm |]. intros x. now rewrite Hb.
    + left. split; [exact Hm |]. intros x.
      rewrite Hb, count_app, count_cons, count_nil. unfold for_slot at 2. simpl.
      rewrite andb_true_r, (Z.eqb_sym slot_id x). lia.
  - destruct (cancel_booking_cases ZoneInfo w clk user_id slot_id)
      as [(Hm & _ & Hb & _)
         | (user & slot & tz & booking & Hm & _ & _ & _ & _ & Hf & _ & Hb & _)].
    + right. split; [exact Hm |]. intros x. now rewrite Hb.
    + left. split; [exact Hm |]. intros x.
      rewrite Hb, (count_delete_first _ _ _ _ Hf).
      apply first_some_elem in Hf as [_ Hp].
      rewrite (for_slot_of_pair _ _ x _ Hp), (Z.eqb_sym slot_id x). lia.
Qed.

(**  When the zone named by the configuration is not in the zone
    database, a call that passes the validation and the rate limiter
    raises [ZoneInfoNotFoundError] out of [book_slot], and out of
    [cancel_booking] when the user holds a confirmed booking; the tables
    of users, slots and bookings are left as they were. *)
Lemma unknown_zone_raises (w : World) (clk : Clock) (user_id slot_id : Z)
    (user : User.t) (slot : Slot.t) :
  _validate_user_and_slot (db w) user_id slot_id = inr (user, slot) ->
  fst (Utils.is_rate_limited (rate_limit_store w) (time clk) user_id) = false ->
  ZoneInfo (Configuration.timezone (fst (get_config (db w)))) = None ->
  let key := Configuration.timezone (fst (get_config (db w))) in
  let booked := book_slot ZoneInfo w clk user_id slot_id in
  let cancelled := cancel_booking ZoneInfo w clk user_id slot_id in
  fst booked = Raised (ZoneInfoNotFoundError key)
  /\ bookings (db (snd booked)) = bookings (db w)
  /\ slots (db (snd booked)) = slots (db w)
  /\ (has_confirmed (db w) user_id slot_id ->
      fst cancelled = Raised (ZoneInfoNotFoundError key)
      /\ bookings (db (snd cancelled)) = bookings (db w)
      /\ slots (db (snd cancelled)) = slots (db w)).
Proof.
  intros Hv Hr Hz. cbv zeta.
  unfold book_slot, cancel_booking. rewrite Hv.
  not_limited Hr.
  rewrite get_timezone_spec. unfold WeatherService.zone_info. rewrite Hz. simpl.
  autorewrite with tables.
  split; [reflexivity |]. split; [reflexivity |]. split; [reflexivity |].
  intros Hc.
  destruct (first (for_user_and_slot user_id slot_id) (bookings (db w))) eqn:Hf.
  - simpl. autorewrite with tables. auto.
  - apply no_confirmed_first_none in Hf. contradiction.
Qed.

End BookingAnswers.

(* ===================================================================== *)
(** * More on the hourly range and the ratings *)
(* ===================================================================== *)

Section HourlyRange.

Import PyDatetime Py WeatherService.
Open Scope Z_scope.

Variable ZoneInfo : string -> option tzinfo.

Lemma floor_hour_mod (x : Z) : (x - x mod HOUR) mod HOUR = 0.
Proof. rewrite Zminus_mod, Zmod_mod, Z.sub_diag. reflexivity. Qed.

(** The number of full hours between two hour marks. *)
Lemma hours_between (s0 e : Z) :
  s0 mod HOUR = 0 ->
  (e - s0) / HOUR * HOUR = e - e mod HOUR - s0.
Proof.
  intros Hs0. pose proof HOUR_pos as HP.
  pose proof (Z.div_mod (e - s0) HOUR ltac:(lia)) as Hdm.
  assert (Hmod : (e - s0) mod HOUR = e mod HOUR).
  { rewrite Zminus_mod, Hs0, Z.sub_0_r, Zmod_mod. reflexivity. }
  rewrite Hmod in Hdm. lia.
Qed.

(** X11: With a known zone, [_generate_hourly_range] lists the full hours
    from the hour of the start to the hour of the end, both included,
    one hour apart: it is empty when the end lies before the hour of the
    start; otherwise it begins with the start taken down to its hour and
    ends with the end taken down to its hour. *)
Theorem hourly_range_endpoints (start end_ : datetime) (k : string) (tz : tzinfo) :
  ZoneInfo k = Some tz ->
  let s := wall_clock (in_zone start tz) in
  let e := wall_clock (in_zone end_ tz) in
  let first_hour := s - s mod HOUR in
  let last_hour := e - e mod HOUR in
  exists hourly_range,
    _generate_hourly_range ZoneInfo start end_ k = Ok hourly_range
    /\ (e < first_hour -> hourly_range = [])
    /\ (first_hour <= e ->
        Z.of_nat (length hourly_range) = (last_hour - first_hour) / HOUR + 1
        /\ head (map wall_clock hourly_range) = Some first_hour
        /\ last (map wall_clock hourly_range) = Some last_hour)
    /\ (forall (i : nat) (h : Z),
          map wall_clock hourly_range !! i = Some h ->
          h = first_hour + Z.of_nat i * HOUR).
Proof.
  intros Hz s e first_hour last_hour. pose proof HOUR_pos as HP.
  destruct (generate_hourly_range_readings ZoneInfo start end_ k tz Hz)
    as (hourly_range & Hrange & Hread).
  rewrite wall_clock_top_of_hour in Hread.
  fold s e first_hour in Hread.
  set (n := Z.to_nat ((e - first_hour) / HOUR + 1)) in Hread.
  assert (Hlen : length hourly_range = n).
  { rewrite <- (length_map wall_clock), Hread, length_map, length_seq. reflexivity. }
  assert (Hf0 : first_hour mod HOUR = 0) by apply floor_hour_mod.
  exists hourly_range. split; [exact Hrange |]. split; [| split].
  - intros Hlt. apply length_zero_iff_nil. rewrite Hlen. unfold n.
    assert ((e - first_hour) / HOUR < 0) by (apply Z.div_lt_upper_bound; lia).
    lia.
  - intros Hle.
    assert (Hq : 0 <= (e - first_hour) / HOUR) by (apply Z.div_pos; lia).
    assert (Hdiv : (last_hour - first_hour) / HOUR = (e - first_hour) / HOUR).
    { unfold last_hour. rewrite <- (hours_between first_hour e Hf0).
      apply Z.div_mul. lia. }
    split; [rewrite Hlen, Hdiv; unfold n; lia |].
    rewrite Hread.
    assert (Hn : n = S (Z.to_nat ((e - first_hour) / HOUR))) by (unfold n; lia).
    rewrite Hn. split.
    + simpl. f_equal. lia.
    + rewrite seq_S, map_app. cbn [map]. rewrite last_snoc. f_equal. simpl.
      rewrite Z2Nat.id by lia.
      rewrite (hours_between first_hour e Hf0). unfold last_hour. lia.
  - intros i h Hi. rewrite Hread in Hi.
    rewrite list_lookup_fmap in Hi.
    destruct (seq 0 n !! i) as [j |] eqn:Ej; [| discriminate].
    apply lookup_seq in Ej as [-> _]. simpl in Hi. now injection Hi as <-.
Qed.

End HourlyRange.

Section RatingOrder.

Import WeatherService.
Open Scope Q_scope.

Lemma get_insert_eq {F : Type} (w : metrics F) (k : string) (v d : F) :
  get (<[k := v]> w) k d = v.
Proof. unfold get. now rewrite lookup_insert_eq. Qed.

Lemma get_insert_ne {F : Type} (w : metrics F) (k k' : string) (v d : F) :
  k <> k' -> get (<[k := v]> w) k' d = get w k' d.
Proof. intros H. unfold get. now rewrite lookup_insert_ne. Qed.

Lemma Qmax_0_antitone (x y : Q) : x <= y -> Qmax 0 (100 - y) <= Qmax 0 (100 - x).
Proof.
  intros H.
  destruct (Q.max_spec 0 (100 - y)) as [[_ ->] | [_ ->]];
    destruct (Q.max_spec 0 (100 - x)) as [[? ->] | [? ->]]; lra.
Qed.

Lemma dew_line (d : Q) : 100 * ((10 - d) / (10 - 5)) == 20 * (10 - d).
Proof. field. Qed.

Lemma dew_spec_antitone (x y : Q) : x <= y -> RatingSpec.dew y <= RatingSpec.dew x.
Proof.
  intros H. unfold RatingSpec.dew.
  destruct (Qlt_le_dec y 5), (Qlt_le_dec x 5); try lra;
    destruct (Qlt_le_dec 10 y), (Qlt_le_dec 10 x); try lra;
    rewrite ?dew_line; lra.
Qed.

Lemma visibility_scale (v : Q) : v / 20000 * 100 == v / 200.
Proof. field. Qed.

Lemma visibility_rating_monotone (x y : Q) :
  x <= y -> Qmin 100 (x / 20000 * 100) <= Qmin 100 (y / 20000 * 100).
Proof.
  intros H. rewrite !visibility_scale.
  assert (x / 200 <= y / 200).
  { unfold Qdiv. apply Qmult_le_compat_r; [exact H |]. discriminate. }
  destruct (Q.min_spec 100 (x / 200)) as [[? ->] | [? ->]];
    destruct (Q.min_spec 100 (y / 200)) as [[? ->] | [? ->]]; lra.
Qed.

(** X12: The hourly rating never rises when the cloud cover, the
    precipitation probability or the dew point rises, and never falls
    when the visibility rises, the other three values being the same. *)
Theorem hourly_rating_monotone (w : metrics Q) (x y : Q) :
  x <= y ->
  calculate_hourly_rating PyFloat.exact (<["cloud_cover" := y]> w)
    <= calculate_hourly_rating PyFloat.exact (<["cloud_cover" := x]> w)
  /\ calculate_hourly_rating PyFloat.exact (<["precipitation_probability" := y]> w)
     <= calculate_hourly_rating PyFloat.exact (<["precipitation_probability" := x]> w)
  /\ calculate_hourly_rating PyFloat.exact (<["dew_point" := y]> w)
     <= calculate_hourly_rating PyFloat.exact (<["dew_point" := x]> w)
  /\ calculate_hourly_rating PyFloat.exact (<["visibility" := x]> w)
     <= calculate_hourly_rating PyFloat.exact (<["visibility" := y]> w).
Proof.
  intros H.
  pose proof (Qmax_0_antitone x y H) as Hmax.
  pose proof (dew_spec_antitone x y H) as Hdew.
  pose proof (visibility_rating_monotone x y H) as Hvis.
  rewrite !calculate_hourly_rating_unfold.
  rewrite !get_insert_eq.
  rewrite !get_insert_ne by discriminate.
  repeat split; lra.
Qed.

Lemma average_in_range (hours : list (metrics Q)) :
  hours <> [] ->
  (forall m, m ∈ hours -> Frame.plausible m) ->
  0 <= calculate_average_weather_rating PyFloat.exact hours <= 100.
Proof.
  intros Hne Hall. rewrite (average_is_mean hours Hne).
  apply mean_in_range.
  - destruct hours; [congruence | discriminate].
  - intros x Hx. apply list_elem_of_fmap in Hx as (m & -> & Hm).
    apply calculate_hourly_rating_bounds. now apply Hall.
Qed.

End RatingOrder.

Section EventWeatherRange.

Import PyDatetime Py WeatherService.
Open Scope Q_scope.

Variable ZoneInfo : string -> option tzinfo.

(** X13: In exact arithmetic, with a known zone and forecast values as
    the provider documents them, the rating that [get_event_weather]
    returns lies between 0 and 100 whenever there is one; there is one
    exactly when the forecast flag is set, and without a forecast there is
    no warning. *)
Theorem event_weather_in_range (data : weather_by_time Q)
    (event_start event_end : datetime) (config : Configuration.t) (tz : tzinfo) :
  ZoneInfo (Configuration.timezone config) = Some tz ->
  (forall h m, data !! h = Some m -> Frame.plausible m) ->
  exists rating warning forecast,
    get_event_weather ZoneInfo PyFloat.exact data event_start event_end config
      = Ok (rating, warning, forecast)
    /\ (forall r, rating = Some r -> 0 <= r <= 100)
    /\ (forecast = true <-> is_Some rating)
    /\ (forecast = false -> warning = false).
Proof.
  intros Hz Hdata.
  destruct (generate_hourly_range_readings ZoneInfo event_start event_end _ _ Hz)
    as (hourly_range & Hrange & _).
  unfold get_event_weather. rewrite Hrange. cbn [bind].
  remember (matching_hours data hourly_range) as hourly_data eqn:Hdef.
  destruct (is_empty hourly_data) eqn:E.
  - do 3 eexists. split; [reflexivity |]. split; [discriminate |].
    split; [| reflexivity]. simpl. split; [discriminate | intros [? [=]]].
  - apply is_empty_false in E.
    do 3 eexists. split; [reflexivity |]. split; [| split].
    + intros r [= <-]. apply average_in_range; [exact E |].
      intros m Hm. rewrite Hdef in Hm. apply list_elem_of_omap in Hm.
      destruct Hm as (hour & _ & Hlookup). eapply Hdata. exact Hlookup.
    + simpl. split; [eauto | reflexivity].
    + discriminate.
Qed.

End EventWeatherRange.

(* ===================================================================== *)
(** * More on the refresh of the event weather *)
(* ===================================================================== *)
Section RefreshAgain.

Import PyDatetime Py Models WeatherService.
Open Scope Z_scope.

Variable ZoneInfo : string -> option tzinfo.

Context {F : Type} (o : PyFloat.ops F).
Variable value : F -> Q.

Lemma upcoming_start (tz : tzinfo) (now : Z) (a b : Slot.t) :
  Slot.start_time a = Slot.start_time b -> upcoming tz now a = upcoming tz now b.
Proof. intros H. unfold upcoming. now rewrite H. Qed.

Lemma update_event_weather_again (event event' : Slot.t) (data : weather_by_time F)
    (config : Configuration.t) :
  _update_event_weather ZoneInfo o value event data config = Ok event' ->
  _update_event_weather ZoneInfo o value event' data config = Ok event'
  /\ Frame.non_weather_fields event' = Frame.non_weather_fields event.
Proof.
  unfold _update_event_weather.
  destruct (_generate_hourly_range ZoneInfo (Naive (Slot.start_time event))
              (Naive (Slot.end_time event)) (Configuration.timezone config))
    as [hourly_range |] eqn:Er; [| discriminate].
  cbn [bind].
  destruct (is_empty (matching_hours data hourly_range)) eqn:E;
    intros [= <-]; simpl; rewrite Er; cbn [bind]; rewrite E; split; reflexivity.
Qed.

Lemma update_rows_again (tz : tzinfo) (now : Z) (data : weather_by_time F)
    (config : Configuration.t) (rows rows' : list Slot.t) :
  update_rows ZoneInfo o value tz now data config rows = Ok rows' ->
  update_rows ZoneInfo o value tz now data config rows' = Ok rows'
  /\ map Frame.non_weather_fields rows' = map Frame.non_weather_fields rows
  /\ forall (i : nat) (event : Slot.t),
       rows !! i = Some event -> upcoming tz now event = false ->
       rows' !! i = Some event.
Proof.
  revert rows'. induction rows as [| r rows IH]; intros rows'; cbn [update_rows].
  - intros [= <-]. split; [reflexivity |]. split; [reflexivity |].
    intros i event H. destruct i; discriminate.
  - destruct (upcoming tz now r) eqn:Eup.
    + destruct (_update_event_weather ZoneInfo o value r data config) as [r' |] eqn:Hr;
        [| discriminate].
      cbn [bind].
      destruct (update_rows ZoneInfo o value tz now data config rows) as [rest |] eqn:Hrest;
        [| discriminate].
      cbn [bind]. intros [= <-].
      destruct (IH rest eq_refl) as (Hagain & Hframe & Hkept).
      destruct (update_event_weather_again r r' data config Hr) as [Hr' Hf].
      split; [| split].
      * cbn [update_rows].
        assert (Hs : Slot.start_time r' = Slot.start_time r).
        { unfold Frame.non_weather_fields in Hf. now injection Hf. }
        rewrite (upcoming_start tz now r' r Hs), Eup, Hr', Hagain. reflexivity.
      * simpl. now rewrite Hf, Hframe.
      * intros [| i] event H Hup; simpl in *.
        -- injection H as <-. congruence.
        -- now apply Hkept.
    + cbn [bind].
      destruct (update_rows ZoneInfo o value tz now data config rows) as [rest |] eqn:Hrest;
        [| discriminate].
      cbn [bind]. intros [= <-].
      destruct (IH rest eq_refl) as (Hagain & Hframe & Hkept).
      split; [| split].
      * cbn [update_rows]. rewrite Eup, Hagain. reflexivity.
      * simpl. now rewrite Hframe.
      * intros [| i] event H Hup; simpl in *; [exact H | now apply Hkept].
Qed.

Lemma commit_rows_same (rows : list Slot.t) : commit_rows rows rows = Ok rows.
Proof.
  apply commit_rows_passes; [reflexivity |].
  intros i old n Ho Hn. rewrite Ho in Hn. injection Hn as <-.
  apply check_on_update_same.
Qed.

Lemma get_config_stored (d : Database) :
  get_config (snd (get_config d)) = (fst (get_config d), snd (get_config d)).
Proof. unfold get_config. destruct (configuration d) eqn:E; simpl; now rewrite ?E. Qed.

(** X14: The refresh is idempotent in any float arithmetic: running
    [update_events_weather] a second time with the same forecast data
    and the same clock reading leaves the database as the first run left
    it. *)
Theorem refresh_twice (db : Database) (data : weather_by_time F) (now : Z) :
  update_events_weather ZoneInfo o value (update_events_weather ZoneInfo o value db data now) data now
  = update_events_weather ZoneInfo o value db data now.
Proof.
  unfold update_events_weather at 2 3.
  destruct (get_config db) as [config db1] eqn:Ec.
  assert (Hc1 : get_config db1 = (config, db1)).
  { pose proof (get_config_stored db) as H. now rewrite Ec in H. }
  assert (Hs : forall rows, get_config (set_slots rows db1) = (config, set_slots rows db1)).
  { intros rows. unfold get_config in *. simpl.
    destruct (configuration db1) eqn:E1; [now injection Hc1 as -> |].
    injection Hc1 as _ Hd. apply (f_equal configuration) in Hd.
    simpl in Hd. congruence. }
  unfold zone_info.
  destruct (ZoneInfo (Configuration.timezone config)) as [tz |] eqn:Ez; cbn [bind].
  2:{ unfold update_events_weather. rewrite Hc1. unfold zone_info. now rewrite Ez. }
  destruct (update_rows ZoneInfo o value tz now data config (slots db1)) as [rows |] eqn:Er;
    cbn [bind].
  2:{ unfold update_events_weather. rewrite Hc1. unfold zone_info.
      rewrite Ez. cbn [bind]. now rewrite Er. }
  destruct (commit_rows (slots db1) rows) as [rows' |] eqn:Ecommit.
  2:{ unfold update_events_weather. rewrite Hc1. unfold zone_info.
      rewrite Ez. cbn [bind]. rewrite Er. cbn [bind]. now rewrite Ecommit. }
  assert (rows' = rows) as ->.
  { unfold commit_rows in Ecommit. destruct (forallb _ _); congruence. }
  unfold update_events_weather. rewrite Hs. unfold zone_info. rewrite Ez. cbn [bind].
  simpl slots.
  destruct (update_rows_again tz now data config _ _ Er) as (-> & _).
  cbn [bind]. rewrite commit_rows_same. reflexivity.
Qed.

(** X15: Whatever the forecast data, the float arithmetic, the clock and
    the zone database, [update_events_weather] writes nothing but weather
    columns: the
    users and bookings tables are as before, the slots are the same in
    number and order with their id, title, description, times, capacity
    and [available] flag, a slot outside the window of the next seven
    days keeps all its columns, and with a zone that the zone database
    does not know no slot changes at all. *)
Theorem refresh_frame (db : Database) (data : weather_by_time F) (now : Z) :
  let db' := update_events_weather ZoneInfo o value db data now in
  let zone := ZoneInfo (Configuration.timezone (fst (get_config db))) in
  users db' = users db
  /\ bookings db' = bookings db
  /\ map Frame.non_weather_fields (slots db') = map Frame.non_weather_fields (slots db)
  /\ (forall tz (i : nat) (event : Slot.t),
        zone = Some tz ->
        slots db !! i = Some event -> upcoming tz now event = false ->
        slots db' !! i = Some event)
  /\ (zone = None -> slots db' = slots db).
Proof.
  cbv zeta. unfold update_events_weather.
  pose proof (get_config_users db) as Hu.
  pose proof (get_config_bookings db) as Hb.
  pose proof (get_config_slots db) as Hs.
  destruct (get_config db) as [config db1] eqn:Ec. simpl in Hu, Hb, Hs |- *.
  unfold zone_info.
  assert (Hsame : forall zone : option tzinfo,
            users db1 = users db
            /\ bookings db1 = bookings db
            /\ map Frame.non_weather_fields (slots db1)
               = map Frame.non_weather_fields (slots db)
            /\ (forall tz (i : nat) (event : Slot.t),
                  zone = Some tz ->
                  slots db !! i = Some event -> upcoming tz now event = false ->
                  slots db1 !! i = Some event)
            /\ (zone = None -> slots db1 = slots db)).
  { intros zone. rewrite Hu, Hb, Hs.
    split; [reflexivity |]. split; [reflexivity |]. split; [reflexivity |].
    split; [| reflexivity]. intros tz i event _ H _. exact H. }
  destruct (ZoneInfo (Configuration.timezone config)) as [tz |] eqn:Ez; cbn [bind];
    [| apply Hsame].
  destruct (update_rows ZoneInfo o value tz now data config (slots db1)) as [rows |] eqn:Er;
    cbn [bind]; [| apply Hsame].
  destruct (update_rows_again tz now data config _ _ Er) as (_ & Hframe & Hkept).
  destruct (commit_rows (slots db1) rows) as [rows' |] eqn:Ecommit; [| apply Hsame].
  assert (rows' = rows) as ->.
  { unfold commit_rows in Ecommit. destruct (forallb _ _); congruence. }
  simpl. rewrite Hu, Hb, <- Hs, Hframe.
  split; [reflexivity |]. split; [reflexivity |]. split; [reflexivity |].
  split; [| discriminate].
  intros tz' i event [= <-] Hi Hup. apply Hkept; exact Hi || exact Hup.
Qed.

(** X16: In a zone of constant offset the slots that
    [_get_upcoming_events] selects are those whose stored start lies
    between the current UTC instant and seven days later, both bounds
    included, whatever the offset. *)
Theorem upcoming_window (name : string) (off now : Z) (s : Slot.t) :
  name <> key utc ->
  upcoming (fixed_offset name off) now s = true
  <-> now <= Slot.start_time s <= now + 7 * DAY.
Proof.
  intros Hname. unfold upcoming, datetime_now, astimezone, same_tzinfo.
  assert (E : String.eqb (key (fixed_offset name off)) (key utc) = false).
  { apply String.eqb_neq. exact Hname. }
  rewrite E. simpl. unfold utc_instant, timedelta_days. simpl.
  rewrite andb_true_iff, !Z.leb_le. lia.
Qed.

End RefreshAgain.

(* ===================================================================== *)
(** * The cache decorator *)
(* ===================================================================== *)

Section CacheFacts.

Import Py TtlCache.
Open Scope Q_scope.

Context {K V E : Type} `{Countable K}.

Variable ttl : Z.
Variable func : K -> E -> result V * E.

Lemma wrapper_stale (cache : gmap K (V * Q)) (current_time : Q) (key : K) (env : E) :
  stale ttl cache current_time key ->
  wrapper ttl func cache current_time key env =
  match func key env with
  | (Ok result, env) => (Ok result, <[key := (result, current_time)]> cache, env)
  | (Raise e, env) => (Raise e, cache, env)
  end.
Proof.
  intros Hstale. unfold wrapper.
  destruct (cache !! key) as [[result stamp] |] eqn:E1; [| reflexivity].
  specialize (Hstale result stamp E1).
  apply Qltb_false in Hstale. now rewrite Hstale.
Qed.

Lemma wrapper_fresh (cache : gmap K (V * Q)) (current_time : Q) (key : K) (env : E)
    (result : V) (stamp : Q) :
  cache !! key = Some (result, stamp) ->
  current_time - stamp < inject_Z (ttl * 3600) ->
  wrapper ttl func cache current_time key env = (Ok result, cache, env).
Proof.
  intros Hc Hlt. unfold wrapper. rewrite Hc.
  apply Qltb_true in Hlt. now rewrite Hlt.
Qed.

(** X17: When the cache holds nothing young enough for the arguments,
    the decorated function runs; if it returns, then for less than [ttl]
    hours from that call every call with the same arguments is answered
    with the same result without running the function and without
    touching the cache, and from [ttl] hours on the function runs again;
    if it raises, nothing is stored. *)
Theorem ttl_cache_window (cache : gmap K (V * Q)) (t1 : Q) (key : K) (env : E) :
  stale ttl cache t1 key ->
  match func key env with
  | (Ok result, env1) =>
      wrapper ttl func cache t1 key env
        = (Ok result, <[key := (result, t1)]> cache, env1)
      /\ (forall t2 env2,
            t2 - t1 < inject_Z (ttl * 3600) ->
            wrapper ttl func (<[key := (result, t1)]> cache) t2 key env2
              = (Ok result, <[key := (result, t1)]> cache, env2))
      /\ (forall t2 env2,
            inject_Z (ttl * 3600) <= t2 - t1 ->
            fst (fst (wrapper ttl func (<[key := (result, t1)]> cache) t2 key env2))
              = fst (func key env2)
            /\ snd (wrapper ttl func (<[key := (result, t1)]> cache) t2 key env2)
               = snd (func key env2))
  | (Raise e, env1) =>
      wrapper ttl func cache t1 key env = (Raise e, cache, env1)
  end.
Proof.
  intros Hstale. rewrite (wrapper_stale _ _ _ _ Hstale).
  destruct (func key env) as [[result | e] env1]; [| reflexivity].
  split; [reflexivity |]. split.
  - intros t2 env2 Hlt. apply (wrapper_fresh _ _ _ _ result t1); [| exact Hlt].
    apply lookup_insert_eq.
  - intros t2 env2 Hge. rewrite wrapper_stale.
    + destruct (func key env2) as [[r2 | e2] env3]; split; reflexivity.
    + intros r s Hl. rewrite lookup_insert_eq in Hl. injection Hl as _ <-. exact Hge.
Qed.

End CacheFacts.

(* ===================================================================== *)
(** * The forecast feed *)
(* ===================================================================== *)

Section FeedFacts.

Import PyDatetime Py WeatherService WeatherFeed.

Variable ZoneInfo : string -> option tzinfo.
Variable fromisoformat : string -> option Z.

Context {F : Type} (o : PyFloat.ops F).
Variable value : F -> Q.

Lemma zip5_lookup {A B C D E : Type} (la : list A) (lb : list B) (lc : list C)
    (ld : list D) (le : list E) (i : nat) (a : A) (b : B) (c : C) (d : D) (e : E) :
  zip5 la lb lc ld le !! i = Some (a, b, c, d, e)
  <-> la !! i = Some a /\ lb !! i = Some b /\ lc !! i = Some c
      /\ ld !! i = Some d /\ le !! i = Some e.
Proof.
  revert lb lc ld le i.
  induction la as [| a0 la IH]; intros lb lc ld le i.
  - simpl. split; [discriminate | intros [H _]; destruct i; discriminate].
  - destruct lb as [| b0 lb], lc as [| c0 lc], ld as [| d0 ld], le as [| e0 le];
      simpl; try (split; [discriminate |];
                  intros (H1 & H2 & H3 & H4 & H5); destruct i; discriminate).
    destruct i as [| i]; simpl.
    + split.
      * intros [= -> -> -> -> ->]. auto.
      * intros ([= ->] & [= ->] & [= ->] & [= ->] & [= ->]). reflexivity.
    + apply IH.
Qed.

Lemma process_rows_spec (rows : list (string * json F * json F * json F * json F))
    (k : string) (tz : tzinfo) (acc : weather_by_time F) :
  ZoneInfo k = Some tz ->
  (forall t d p c v, (t, d, p, c, v) ∈ rows ->
     d <> Null /\ p <> Null /\ c <> Null /\ v <> Null) ->
  exists data,
    process_rows ZoneInfo fromisoformat rows k acc = Ok data
    /\ forall h m,
         data !! h = Some m <->
         (exists i t d p c v,
            rows !! i = Some (t, Number d, Number p, Number c, Number v)
            /\ fromisoformat t = Some h
            /\ m = hourly_entry d p c v
            /\ forall j t' d' p' c' v',
                 (i < j)%nat -> rows !! j = Some (t', d', p', c', v') ->
                 fromisoformat t' <> Some h)
         \/ (acc !! h = Some m
             /\ forall j t' d' p' c' v',
                  rows !! j = Some (t', d', p', c', v') -> fromisoformat t' <> Some h).
Proof.
  intros Hz. revert acc.
  induction rows as [| [[[[t0 d0] p0] c0] v0] rows IH]; intros acc Hnum.
  - exists acc. split; [reflexivity |]. intros h m. split.
    + intros H. right. split; [exact H |]. intros j ? ? ? ? ? Hj. destruct j; discriminate.
    + intros [(i & ? & ? & ? & ? & ? & Hi & _) | [H _]]; [destruct i; discriminate | exact H].
  - assert (Hrest : forall t d p c v, (t, d, p, c, v) ∈ rows ->
                      d <> Null /\ p <> Null /\ c <> Null /\ v <> Null).
    { intros t d p c v Hin. apply (Hnum t). now apply list_elem_of_further. }
    cbn [process_rows].
    destruct (fromisoformat t0) as [h0 |] eqn:Ep.
    + destruct (Hnum t0 d0 p0 c0 v0 (list_elem_of_here _ _)) as (Hd & Hp & Hc & Hv).
      destruct d0 as [| d0]; [congruence |]. destruct p0 as [| p0]; [congruence |].
      destruct c0 as [| c0]; [congruence |]. destruct v0 as [| v0]; [congruence |].
      unfold zone_info. rewrite Hz. cbn [bind py_float].
      destruct (IH (<[h0 := hourly_entry d0 p0 c0 v0]> acc) Hrest) as (data & Hdata & Hspec).
      exists data. split; [exact Hdata |]. intros h m. rewrite Hspec. split.
      * intros [(i & t & d & p & c & v & Hi & Hpi & Hm & Hlast) | [Hacc Hnone]].
        -- left. exists (S i), t, d, p, c, v. split; [exact Hi |].
           split; [exact Hpi |]. split; [exact Hm |].
           intros [| j] t' d' p' c' v' Hlt Hj; [lia |].
           apply (Hlast j t' d' p' c' v'); [lia | exact Hj].
        -- destruct (decide (h0 = h)) as [-> | Hne].
           ++ rewrite lookup_insert_eq in Hacc. injection Hacc as <-.
              left. exists 0%nat, t0, d0, p0, c0, v0.
              split; [reflexivity |]. split; [exact Ep |]. split; [reflexivity |].
              intros [| j] t' d' p' c' v' Hlt Hj; [lia |].
              apply (Hnone j t' d' p' c' v' Hj).
           ++ rewrite lookup_insert_ne in Hacc by exact Hne.
              right. split; [exact Hacc |].
              intros [| j] t' d' p' c' v' Hj.
              ** injection Hj as <- _ _ _ _. rewrite Ep. congruence.
              ** apply (Hnone j t' d' p' c' v' Hj).
      * intros [(i & t & d & p & c & v & Hi & Hpi & Hm & Hlast) | [Hacc Hnone]].
        -- destruct i as [| i].
           ++ injection Hi as <- <- <- <- <-. right.
              assert (h0 = h) as -> by congruence.
              split; [rewrite lookup_insert_eq; now rewrite Hm |].
              intros j t' d' p' c' v' Hj.
              apply (Hlast (S j) t' d' p' c' v'); [lia | exact Hj].
           ++ left. exists i, t, d, p, c, v. split; [exact Hi |].
              split; [exact Hpi |]. split; [exact Hm |].
              intros j t' d' p' c' v' Hlt Hj.
              apply (Hlast (S j) t' d' p' c' v'); [lia | exact Hj].
        -- right. split.
           ++ rewrite lookup_insert_ne; [exact Hacc |].
              intros ->. apply (Hnone 0%nat t0 (Number d0) (Number p0) (Number c0) (Number v0));
                [reflexivity | exact Ep].
           ++ intros j t' d' p' c' v' Hj.
              apply (Hnone (S j) t' d' p' c' v' Hj).
    + destruct (IH acc Hrest) as (data & Hdata & Hspec).
      exists data. split; [exact Hdata |]. intros h m. rewrite Hspec. split.
      * intros [(i & t & d & p & c & v & Hi & Hpi & Hm & Hlast) | [Hacc Hnone]].
        -- left. exists (S i), t, d, p, c, v. split; [exact Hi |].
           split; [exact Hpi |]. split; [exact Hm |].
           intros [| j] t' d' p' c' v' Hlt Hj; [lia |].
           apply (Hlast j t' d' p' c' v'); [lia | exact Hj].
        -- right. split; [exact Hacc |].
           intros [| j] t' d' p' c' v' Hj.
           ** injection Hj as <- _ _ _ _. rewrite Ep. discriminate.
           ** apply (Hnone j t' d' p' c' v' Hj).
      * intros [(i & t & d & p & c & v & Hi & Hpi & Hm & Hlast) | [Hacc Hnone]].
        -- destruct i as [| i].
           ++ injection Hi as <- _ _ _ _. congruence.
           ++ left. exists i, t, d, p, c, v. split; [exact Hi |].
              split; [exact Hpi |]. split; [exact Hm |].
              intros j t' d' p' c' v' Hlt Hj.
              apply (Hlast (S j) t' d' p' c' v'); [lia | exact Hj].
        -- right. split; [exact Hacc |].
           intros j t' d' p' c' v' Hj. apply (Hnone (S j) t' d' p' c' v' Hj).
Qed.

Lemma zip5_elem {A B C D E : Type} (la : list A) (lb : list B) (lc : list C)
    (ld : list D) (le : list E) (a : A) (b : B) (c : C) (d : D) (e : E) :
  (a, b, c, d, e) ∈ zip5 la lb lc ld le ->
  a ∈ la /\ b ∈ lb /\ c ∈ lc /\ d ∈ ld /\ e ∈ le.
Proof.
  intros Hin. apply list_elem_of_lookup in Hin as [i Hi].
  apply zip5_lookup in Hi as (H1 & H2 & H3 & H4 & H5).
  repeat split; eapply list_elem_of_lookup_2; eassumption.
Qed.

(** X18: With a known zone and arrays without [null], the dict that
    [_process_hourly_data] builds holds, under a reading, the four values
    found at one index of the arrays whose time string parses to that
    reading; the arrays are read up to the length of the shortest, a time
    string that does not parse is skipped, and of two indices with the
    same reading the later one wins. *)
Theorem process_hourly_data_entries (wd : WeatherData F) (tz : tzinfo) :
  ZoneInfo (tz_str wd) = Some tz ->
  Null ∉ dew_points wd -> Null ∉ precip_probs wd ->
  Null ∉ cloud_covers wd -> Null ∉ visibilities wd ->
  exists data,
    _process_hourly_data ZoneInfo fromisoformat wd = Ok data
    /\ forall h m,
         data !! h = Some m <->
         exists i t d p c v,
           times wd !! i = Some t
           /\ dew_points wd !! i = Some (Number d)
           /\ precip_probs wd !! i = Some (Number p)
           /\ cloud_covers wd !! i = Some (Number c)
           /\ visibilities wd !! i = Some (Number v)
           /\ fromisoformat t = Some h
           /\ m = hourly_entry d p c v
           /\ forall j t',
                (i < j)%nat -> times wd !! j = Some t' ->
                is_Some (dew_points wd !! j) -> is_Some (precip_probs wd !! j) ->
                is_Some (cloud_covers wd !! j) -> is_Some (visibilities wd !! j) ->
                fromisoformat t' <> Some h.
Proof.
  intros Hz Hd Hp Hc Hv. unfold _process_hourly_data.
  set (rows := zip5 (times wd) (dew_points wd) (precip_probs wd)
                 (cloud_covers wd) (visibilities wd)).
  destruct (process_rows_spec rows (tz_str wd) tz ∅ Hz) as (data & Hdata & Hspec).
  { intros t d p c v Hin. apply zip5_elem in Hin as (_ & Hd' & Hp' & Hc' & Hv').
    repeat split; intros ->; contradiction. }
  exists data. split; [exact Hdata |]. intros h m. rewrite Hspec. split.
  - intros [(i & t & d & p & c & v & Hi & Hpi & Hm & Hlast) | [Hacc _]].
    2:{ rewrite lookup_empty in Hacc. discriminate. }
    apply zip5_lookup in Hi as (H1 & H2 & H3 & H4 & H5).
    exists i, t, d, p, c, v. repeat (split; [assumption |]).
    intros j t' Hlt Hj [d' Hd'] [p' Hp'] [c' Hc'] [v' Hv'].
    apply (Hlast j t' d' p' c' v' Hlt). apply zip5_lookup. auto.
  - intros (i & t & d & p & c & v & H1 & H2 & H3 & H4 & H5 & Hpi & Hm & Hlast).
    left. exists i, t, d, p, c, v. split; [apply zip5_lookup; auto |].
    split; [exact Hpi |]. split; [exact Hm |].
    intros j t' d' p' c' v' Hlt Hj.
    apply zip5_lookup in Hj as (J1 & J2 & J3 & J4 & J5).
    apply (Hlast j t' Hlt J1); eauto.
Qed.

Lemma py_float_values (d p c v : json F) :
  d = Null \/ p = Null \/ c = Null \/ v = Null ->
  forall (A : Type) (k : F -> F -> F -> F -> result A),
    (d <- py_float d ;; p <- py_float p ;; c <- py_float c ;; v <- py_float v ;;
     k d p c v) = Raise TypeError.
Proof.
  intros H A k.
  destruct d; [reflexivity |]. destruct p; [reflexivity |].
  destruct c; [reflexivity |]. destruct v; [reflexivity |].
  destruct H as [H | [H | [H | H]]]; discriminate.
Qed.

(** A [null] in a row whose time string parses makes the loop raise. *)
Lemma process_rows_null (rows : list (string * json F * json F * json F * json F))
    (k : string) (tz : tzinfo) (acc : weather_by_time F) (i : nat) (t : string)
    (d p c v : json F) (h : Z) :
  ZoneInfo k = Some tz ->
  rows !! i = Some (t, d, p, c, v) ->
  fromisoformat t = Some h ->
  d = Null \/ p = Null \/ c = Null \/ v = Null ->
  process_rows ZoneInfo fromisoformat rows k acc = Raise TypeError.
Proof.
  intros Hz. revert acc i.
  induction rows as [| [[[[t0 d0] p0] c0] v0] rows IH]; intros acc i Hi Hp Hnull.
  - destruct i; discriminate.
  - cbn [process_rows]. destruct i as [| i].
    + injection Hi as -> -> -> -> ->. rewrite Hp.
      unfold zone_info. rewrite Hz. cbn [bind].
      apply (py_float_values d p c v Hnull).
    + simpl in Hi.
      destruct (fromisoformat t0) as [h0 |]; [| now apply (IH acc i)].
      unfold zone_info. rewrite Hz. cbn [bind].
      destruct d0 as [| d0]; [reflexivity |]. destruct p0 as [| p0]; [reflexivity |].
      destruct c0 as [| c0]; [reflexivity |]. destruct v0 as [| v0]; [reflexivity |].
      cbn [bind py_float]. now apply (IH _ i).
Qed.

Lemma fetch_weather_data_stale (svc : Service F) (current_time : Q) (where_ : location) :
  TtlCache.stale 3 (cache svc) current_time where_ ->
  fetch_weather_data ZoneInfo fromisoformat svc current_time where_ =
  match fetch ZoneInfo fromisoformat where_ (upstream svc) with
  | (Ok data, up) => (Ok data, mk_service (<[where_ := (data, current_time)]> (cache svc)) up)
  | (Raise e, up) => (Raise e, mk_service (cache svc) up)
  end.
Proof.
  intros Hstale. unfold fetch_weather_data.
  rewrite (wrapper_stale 3 _ _ _ _ _ Hstale).
  destruct (fetch ZoneInfo fromisoformat where_ (upstream svc)) as [[data | e] up];
    reflexivity.
Qed.

(** X19: A [null] in the feed aborts the refresh. When the request is
    sent (the cache holds nothing young enough), the configured zone is
    known and the response has, at an index within all five arrays, a
    time string that parses and a [null] among the four values, then
    [update_events_weather] raises [TypeError]; no slot is written and
    nothing is cached, so that the next refresh sends a request again. *)
Theorem null_in_feed_aborts_refresh (svc : Service F) (current_time : Q)
    (db : Models.Database) (now : Z) (tz : tzinfo)
    (time : list string) (dew precip cloud vis : list (json F))
    (i : nat) (t : string) (d p c v : json F) (h : Z) :
  let config := fst (Models.get_config db) in
  let where_ := location_of config in
  ZoneInfo (Configuration.timezone config) = Some tz ->
  TtlCache.stale 3 (cache svc) current_time where_ ->
  answer (upstream svc) (requests (upstream svc)) where_
    = Hourly time dew precip cloud vis ->
  time !! i = Some t -> dew !! i = Some d -> precip !! i = Some p ->
  cloud !! i = Some c -> vis !! i = Some v ->
  fromisoformat t = Some h ->
  d = Null \/ p = Null \/ c = Null \/ v = Null ->
  update_events_weather ZoneInfo fromisoformat o value svc current_time db now
  = (Raise TypeError, snd (Models.get_config db),
     mk_service (cache svc)
       (mk_upstream (S (requests (upstream svc))) (answer (upstream svc)))).
Proof.
  intros config where_ Hz Hstale Hans Ht Hd Hp Hc Hv Hparse Hnull.
  unfold update_events_weather.
  destruct (Models.get_config db) as [config' db1] eqn:Ec.
  simpl in config. subst config. fold where_.
  rewrite (fetch_weather_data_stale _ _ _ Hstale).
  unfold fetch, http_get. unfold where_ at 1. unfold location_of at 1.
  fold where_. rewrite Hans.
  unfold _process_hourly_data. cbn [times dew_points precip_probs cloud_covers
                                     visibilities tz_str].
  rewrite (process_rows_null _ _ tz ∅ i t d p c v h Hz); try assumption.
  - reflexivity.
  - apply zip5_lookup. auto.
Qed.

Lemma matching_hours_empty (hourly_range : list datetime) :
  matching_hours (F := F) ∅ hourly_range = [].
Proof.
  unfold matching_hours. induction hourly_range as [| x l IHl]; [reflexivity |].
  simpl. rewrite lookup_empty. exact IHl.
Qed.

(** X20: A failed request is cached as an empty forecast. When the
    request is sent and fails, [fetch_weather_data] returns the empty
    dict; for the next three hours every call for the same location gets
    the empty dict from the cache without a request, whatever the
    provider would answer, and [get_event_weather] reports no rating, no
    warning and no forecast. *)
Theorem failed_fetch_is_cached (svc : Service F) (t1 : Q) (where_ : location) :
  TtlCache.stale 3 (cache svc) t1 where_ ->
  answer (upstream svc) (requests (upstream svc)) where_ = Failed ->
  let fetched := fetch_weather_data ZoneInfo fromisoformat svc t1 where_ in
  fst fetched = Ok ∅
  /\ requests (upstream (snd fetched)) = S (requests (upstream svc))
  /\ forall (t2 : Q) (up2 : Upstream F),
       (t2 - t1 < 10800)%Q ->
       let svc2 := mk_service (cache (snd fetched)) up2 in
       fetch_weather_data ZoneInfo fromisoformat svc2 t2 where_ = (Ok ∅, svc2)
       /\ forall (event_start event_end : datetime) (config : Configuration.t) (tz : tzinfo),
            location_of config = where_ ->
            ZoneInfo (Configuration.timezone config) = Some tz ->
            get_event_weather ZoneInfo fromisoformat o svc2 t2 event_start event_end config
            = (Ok (None, false, false), svc2).
Proof.
  intros Hstale Hans. cbv zeta.
  rewrite (fetch_weather_data_stale _ _ _ Hstale).
  unfold fetch, http_get. destruct where_ as [[lat lon] k]. rewrite Hans.
  cbn [fst snd cache upstream requests].
  split; [reflexivity |]. split; [reflexivity |].
  intros t2 up2 Hlt.
  assert (Hhit : fetch_weather_data ZoneInfo fromisoformat
                   (mk_service (<[(lat, lon, k) := (∅, t1)]> (cache svc)) up2) t2 (lat, lon, k)
                 = (Ok ∅, mk_service (<[(lat, lon, k) := (∅, t1)]> (cache svc)) up2)).
  { unfold fetch_weather_data. cbn [cache upstream].
    rewrite (wrapper_fresh 3 _ _ t2 (lat, lon, k) up2 ∅ t1); [reflexivity | |].
    - apply lookup_insert_eq.
    - exact Hlt. }
  split; [exact Hhit |].
  intros event_start event_end config tz Hloc Hz.
  unfold get_event_weather. rewrite Hloc, Hhit. cbn [bind].
  destruct (generate_hourly_range_readings ZoneInfo event_start event_end _ _ Hz)
    as (hourly_range & Hrange & _).
  unfold WeatherService.get_event_weather. rewrite Hrange. cbn [bind].
  rewrite matching_hours_empty. reflexivity.
Qed.

End FeedFacts.

(* ===================================================================== *)
(** * What [_save_event] keeps *)
(* ===================================================================== *)
Section SaveEventKeeps.

Import PyDatetime Py Models AdminService Invariant Schedule.
Open Scope Z_scope.

Lemma same_day_iff (x y : Z) :
  replace_midnight x <= y < replace_midnight x + DAY
  <-> replace_midnight y = replace_midnight x.
Proof.
  unfold replace_midnight. pose proof DAY_pos as HD.
  pose proof (Z.div_mod x DAY ltac:(lia)) as Hx.
  pose proof (Z.div_mod y DAY ltac:(lia)) as Hy.
  pose proof (Z.mod_pos_bound x DAY HD) as Bx.
  pose proof (Z.mod_pos_bound y DAY HD) as By.
  split; intros H; [| lia].
  assert (y / DAY = x / DAY); [| lia].
  assert (x / DAY <= y / DAY) by (apply Z.div_le_lower_bound; lia).
  assert (y / DAY < x / DAY + 1) by (apply Z.div_lt_upper_bound; lia).
  lia.
Qed.

Lemma pairwise_app_new {A : Type} (R : A -> A -> Prop) (rows : list A) (x : A) :
  pairwise R rows ->
  (forall r, r ∈ rows -> R r x /\ R x r) ->
  pairwise R (rows ++ [x]).
Proof.
  intros Hold Hnew i j a b Hne Hi Hj.
  apply lookup_app_Some in Hi as [Hi | [Hi Hi']];
    apply lookup_app_Some in Hj as [Hj | [Hj Hj']].
  - exact (Hold i j a b Hne Hi Hj).
  - destruct (j - length rows)%nat; [| destruct n; discriminate].
    injection Hj' as <-. apply Hnew. eapply list_elem_of_lookup_2. exact Hi.
  - destruct (i - length rows)%nat; [| destruct n; discriminate].
    injection Hi' as <-. apply Hnew. eapply list_elem_of_lookup_2. exact Hj.
  - exfalso.
    assert (i - length rows = 0)%nat.
    { destruct (i - length rows)%nat; [reflexivity | destruct n; discriminate]. }
    assert (j - length rows = 0)%nat.
    { destruct (j - length rows)%nat; [reflexivity | destruct n; discriminate]. }
    lia.
Qed.

Lemma update_slot_lookup (row : Slot.t) (rows : list Slot.t) (i : nat) (s : Slot.t) :
  NoDup (map Slot.id rows) ->
  update_slot row rows !! i = Some s ->
  (rows !! i = Some s /\ Slot.id s <> Slot.id row)
  \/ (s = row /\ exists r, rows !! i = Some r /\ Slot.id r = Slot.id row).
Proof.
  revert i. induction rows as [| r rows IH]; simpl; intros i Hnd Hi; [discriminate |].
  apply NoDup_cons in Hnd as [Hr Hnd].
  destruct (Slot.id r =? Slot.id row) eqn:E.
  - apply Z.eqb_eq in E. destruct i as [| i]; simpl in *.
    + injection Hi as <-. right. split; [reflexivity |]. now exists r.
    + left. split; [exact Hi |]. intros Heq. apply Hr. rewrite E, <- Heq.
      apply list_elem_of_fmap. exists s. split; [reflexivity |].
      eapply list_elem_of_lookup_2. exact Hi.
  - apply Z.eqb_neq in E. destruct i as [| i]; simpl in *.
    + injection Hi as <-. left. split; [reflexivity | exact E].
    + apply (IH i Hnd Hi).
Qed.

Lemma pairwise_update_slot (R : Slot.t -> Slot.t -> Prop) (row : Slot.t)
    (rows : list Slot.t) :
  NoDup (map Slot.id rows) ->
  pairwise R rows ->
  (forall r, r ∈ rows -> Slot.id r <> Slot.id row -> R r row /\ R row r) ->
  pairwise R (update_slot row rows).
Proof.
  intros Hnd Hold Hnew i j a b Hne Hi Hj.
  apply (update_slot_lookup _ _ _ _ Hnd) in Hi as [[Hi Hia] | [-> (ri & Hi & Hia)]];
    apply (update_slot_lookup _ _ _ _ Hnd) in Hj as [[Hj Hjb] | [-> (rj & Hj & Hjb)]].
  - exact (Hold i j a b Hne Hi Hj).
  - apply Hnew; [eapply list_elem_of_lookup_2; exact Hi | exact Hia].
  - apply Hnew; [eapply list_elem_of_lookup_2; exact Hj | exact Hjb].
  - exfalso. apply Hne.
    apply (NoDup_lookup (map Slot.id rows) i j (Slot.id row) Hnd);
      rewrite list_lookup_fmap; [rewrite Hi | rewrite Hj]; simpl; congruence.
Qed.

(** What the checks of [_save_event] have established about the stored
    rows when it goes on to write. *)
Lemma save_event_checked (db : Database) (existing_event : option Slot.t)
    (start_time end_time : datetime) (r : Slot.t) :
  _check_same_day_start db existing_event start_time = false ->
  first (overlaps existing_event start_time end_time) (slots db) = None ->
  r ∈ slots db ->
  not_existing existing_event r = true ->
  replace_midnight (Slot.start_time r) <> replace_midnight (wall_clock start_time)
  /\ ~ (wall_clock start_time < Slot.end_time r
        /\ Slot.start_time r < wall_clock end_time).
Proof.
  intros Hday Hover Hin Hne. split.
  - unfold _check_same_day_start in Hday.
    rewrite is_not_none_first in Hday. specialize (Hday r Hin).
    rewrite Hne, andb_true_r in Hday. intros Heq.
    apply same_day_iff in Heq. unfold timedelta_days in Hday.
    apply andb_false_iff in Hday as [H | H];
      [apply Z.leb_gt in H | apply Z.ltb_ge in H]; lia.
  - apply first_none with (r := r) in Hover; [| exact Hin].
    unfold overlaps in Hover. rewrite Hne, andb_true_r in Hover.
    intros [H1 H2]. apply andb_false_iff in Hover as [H | H];
      [apply Z.ltb_ge in H | apply Z.ltb_ge in H]; lia.
Qed.

(** X21: [_save_event] keeps the schedule: when the slot ids are pairwise
    different, no two stored slots overlap and no two start on the same
    UTC day, the same holds after the call, whether it creates a slot,
    edits a stored one or rejects the request. *)
Theorem save_event_keeps_schedule (db : Database) (existing_event : option Slot.t)
    (event_data : EventData) :
  slot_ids_unique db -> no_overlap db -> one_start_per_day db ->
  let db' := snd (_save_event db existing_event event_data) in
  slot_ids_unique db' /\ no_overlap db' /\ one_start_per_day db'.
Proof.
  intros Hids Hno Hday. cbv zeta. unfold _save_event.
  destruct (_check_same_day_start db existing_event (start_time event_data)) eqn:E1;
    [now repeat split |].
  destruct (_check_prev_day_overlap db existing_event (start_time event_data));
    [now repeat split |].
  destruct (_check_next_day_overlap db existing_event (end_time event_data));
    [now repeat split |].
  destruct (first (overlaps existing_event (start_time event_data) (end_time event_data))
              (slots db)) eqn:E4; [now repeat split |].
  pose proof (fun r => save_event_checked db existing_event (start_time event_data)
                         (end_time event_data) r E1 E4) as Hchk.
  unfold commit_slot. destruct existing_event as [e |].
  - destruct (Slot.check_on_update e _); [| now repeat split].
    cbn [snd]. unfold slot_ids_unique, no_overlap, one_start_per_day in *. simpl.
    split; [now rewrite update_slot_ids |]. split.
    + apply pairwise_update_slot; [exact Hids | exact Hno |].
      intros r Hin Hne. simpl in Hne.
      destruct (Hchk r Hin) as [_ H].
      { simpl. apply negb_true_iff. now apply Z.eqb_neq. }
      unfold overlap. simpl. split; intros [H1 H2]; apply H; split; assumption.
    + apply pairwise_update_slot; [exact Hids | exact Hday |].
      intros r Hin Hne. simpl in Hne.
      destruct (Hchk r Hin) as [H _].
      { simpl. apply negb_true_iff. now apply Z.eqb_neq. }
      simpl. split; congruence.
  - destruct (Slot.check_on_insert _); [| now repeat split].
    cbn [snd]. unfold slot_ids_unique, no_overlap, one_start_per_day in *. simpl.
    split; [| split].
    + rewrite map_app. simpl. apply NoDup_app. split; [exact Hids |]. split.
      * intros x Hx Hx'. apply elem_of_cons in Hx' as [-> | Hx'];
          [| now apply elem_of_nil in Hx'].
        revert Hx. apply next_id_fresh.
      * apply NoDup_singleton.
    + apply pairwise_app_new; [exact Hno |].
      intros r Hin. destruct (Hchk r Hin eq_refl) as [_ H].
      unfold overlap. simpl. split; intros [H1 H2]; apply H; split; assumption.
    + apply pairwise_app_new; [exact Hday |].
      intros r Hin. destruct (Hchk r Hin eq_refl) as [H _].
      simpl. split; congruence.
Qed.

Lemma save_event_written (db : Database) (existing_event : option Slot.t)
    (event_data : EventData) (msg : string) :
  fst (_save_event db existing_event event_data) = Returned msg ->
  msg = "Event created successfully."%string
  \/ msg = "Event updated successfully."%string ->
  let row id :=
    Slot.mk id (title event_data) (description event_data)
      (wall_clock (start_time event_data)) (wall_clock (end_time event_data)) true
      (condition_rating (weather_info event_data)) (max_bookings event_data)
      (AdminService.weather_warning (weather_info event_data))
      (AdminService.weather_forecast (weather_info event_data)) in
  snd (_save_event db existing_event event_data) =
  match existing_event with
  | Some e => set_slots (update_slot (row (Slot.id e)) (slots db)) db
  | None => set_slots (slots db ++ [row (next_id (map Slot.id (slots db)))]) db
  end
  /\ msg = match existing_event with
           | Some _ => "Event updated successfully."%string
           | None => "Event created successfully."%string
           end.
Proof.
  cbv zeta. unfold _save_event.
  destruct (_check_same_day_start db existing_event (start_time event_data));
    [intros [= <-] [H | H]; discriminate |].
  destruct (_check_prev_day_overlap db existing_event (start_time event_data));
    [intros [= <-] [H | H]; discriminate |].
  destruct (_check_next_day_overlap db existing_event (end_time event_data));
    [intros [= <-] [H | H]; discriminate |].
  destruct (first (overlaps existing_event (start_time event_data) (end_time event_data))
              (slots db)) as [o |].
  { simpl. intros [= <-] [H | H]; exfalso; revert H; clear.
    - generalize (str (Slot.id o)). intros s. discriminate.
    - generalize (str (Slot.id o)). intros s. discriminate. }
  unfold commit_slot. destruct existing_event as [e |].
  - destruct (Slot.check_on_update e _); [| discriminate].
    simpl. intros [= <-] _. split; reflexivity.
  - destruct (Slot.check_on_insert _); [| discriminate].
    simpl. intros [= <-] _. split; reflexivity.
Qed.

Lemma first_of_elem (rows : list Slot.t) (e : Slot.t) :
  e ∈ rows -> exists s, first (fun s => Slot.id s =? Slot.id e) rows = Some s.
Proof.
  intros Hin. destruct (first (fun s => Slot.id s =? Slot.id e) rows) eqn:E; [eauto |].
  apply first_none with (r := e) in E; [| exact Hin].
  rewrite Z.eqb_refl in E. discriminate.
Qed.

(** X22: [_save_event] and the capacity invariant. From a database in
    which every slot is flagged unavailable exactly when it is full and
    none is over-booked: after a slot is created the invariant holds
    exactly when the new slot has room for at least one booking (the
    bookings all naming stored slots); after a slot is edited it holds
    exactly when the confirmed bookings of the slot are fewer than the
    new [max_bookings], because the edit flags the slot as available
    whatever its bookings. *)
Theorem save_event_capacity (db : Database) (event_data : EventData) :
  capacity_ok db ->
  (Integrity.references_ok db ->
   fst (_save_event db None event_data) = Returned "Event created successfully." ->
   (capacity_ok (snd (_save_event db None event_data))
    <-> 1 <= max_bookings event_data))
  /\ (forall e,
        slot_ids_unique db -> e ∈ slots db ->
        fst (_save_event db (Some e) event_data) = Returned "Event updated successfully." ->
        (capacity_ok (snd (_save_event db (Some e) event_data))
         <-> confirmed_count db (Slot.id e) < max_bookings event_data)).
Proof.
  intros Hcap. split.
  - intros Href Hmsg.
    destruct (save_event_written db None event_data _ Hmsg (or_introl eq_refl)) as [-> _].
    set (new_id := next_id (map Slot.id (slots db))).
    set (row := Slot.mk new_id _ _ _ _ _ _ _ _ _).
    assert (Hcount : confirmed_count (set_slots (slots db ++ [row]) db) new_id = 0).
    { unfold confirmed_count. simpl. apply count_zero. intros b Hb.
      destruct (Href b Hb) as [_ (s & Hs & Hid)].
      unfold BookingService.for_slot.
      destruct (Booking.slot_id b =? new_id) eqn:E; [| reflexivity].
      apply Z.eqb_eq in E. exfalso.
      apply (next_id_fresh (map Slot.id (slots db))). fold new_id. rewrite <- E, <- Hid.
      apply list_elem_of_fmap. now exists s. }
    split.
    + intros H. destruct (H row) as [Hflag Hle].
      { simpl. apply elem_of_app. right. apply list_elem_of_here. }
      change (Slot.id row) with new_id in Hflag, Hle. rewrite Hcount in Hflag, Hle.
      change (Slot.max_bookings row) with (max_bookings event_data) in Hflag, Hle.
      change (Slot.available row) with true in Hflag.
      destruct (Z.le_gt_cases (max_bookings event_data) 0) as [H0 | H0]; [| lia].
      apply Hflag in H0. discriminate.
    + intros Hmax s Hs. simpl in Hs. apply elem_of_app in Hs as [Hs | Hs].
      * apply (Hcap s Hs).
      * apply elem_of_cons in Hs as [-> | Hs]; [| now apply elem_of_nil in Hs].
        unfold slot_capacity_ok. change (Slot.id row) with new_id. rewrite Hcount.
        simpl. split; [split; [discriminate | lia] | lia].
  - intros e Hids He Hmsg.
    destruct (save_event_written db (Some e) event_data _ Hmsg (or_intror eq_refl))
      as [-> _].
    set (row := Slot.mk (Slot.id e) _ _ _ _ _ _ _ _ _).
    assert (Hrow : row ∈ update_slot row (slots db)).
    { destruct (first_of_elem _ _ He) as [s Hs].
      pose proof (first_update_slot (Slot.id e) row (slots db) s Hs eq_refl) as Hf.
      now apply first_some_elem in Hf as [Hf _]. }
    split.
    + intros H. destruct (H row Hrow) as [Hflag Hle].
      change (confirmed_count (set_slots (update_slot row (slots db)) db) (Slot.id row))
        with (confirmed_count db (Slot.id e)) in Hflag, Hle.
      change (Slot.max_bookings row) with (max_bookings event_data) in Hflag, Hle.
      change (Slot.available row) with true in Hflag.
      destruct (Z.le_gt_cases (max_bookings event_data) (confirmed_count db (Slot.id e)))
        as [H0 | H0]; [| lia].
      apply Hflag in H0. discriminate.
    + intros Hlt s Hs. simpl in Hs.
      apply (update_slot_elem _ _ _ Hids) in Hs as [-> | [Hs _]].
      * unfold slot_capacity_ok.
        change (confirmed_count (set_slots (update_slot row (slots db)) db) (Slot.id row))
          with (confirmed_count db (Slot.id e)).
        simpl. split; [split; [discriminate | lia] | lia].
      * apply (Hcap s Hs).
Qed.

End SaveEventKeeps.

(* ===================================================================== *)
(** * The CHECK constraints of the slots table *)
(* ===================================================================== *)

Section CheckConstraints.

Import PyDatetime Py Models AdminService BookingService Schedule.
Open Scope Z_scope.

Variable ZoneInfo : string -> option tzinfo.

Lemma rating_range_same (a b : option Q) :
  Slot.same_rating a b = true ->
  forall s s',
    Slot.weather_rating s = a -> Slot.weather_rating s' = b ->
    Slot.check_weather_rating_range s = true ->
    Slot.check_weather_rating_range s' = true.
Proof.
  intros Hsame s s' Ha Hb. unfold Slot.check_weather_rating_range. rewrite Ha, Hb.
  destruct a as [x |], b as [y |]; simpl in Hsame; try discriminate; [| auto].
  apply Qeq_bool_iff in Hsame.
  rewrite !andb_true_iff, !Qle_bool_iff. rewrite Hsame. auto.
Qed.

(** A row that passed the constraints still passes them after an UPDATE
    that the database has accepted. *)
Lemma check_on_update_insert (old new : Slot.t) :
  Slot.check_on_update old new = true ->
  Slot.check_on_insert old = true ->
  Slot.check_on_insert new = true.
Proof.
  unfold Slot.check_on_update, Slot.check_on_insert.
  rewrite !andb_true_iff, !orb_true_iff, !andb_true_iff.
  intros [[Ht Hr] Hm] [[Ht' Hr'] Hm']. repeat split.
  - destruct Ht as [[Hs He] | Ht]; [| exact Ht].
    apply Z.eqb_eq in Hs. apply Z.eqb_eq in He.
    unfold Slot.check_slot_time_range in *. now rewrite <- Hs, <- He.
  - destruct Hr as [Hr | Hr]; [| exact Hr].
    now apply (rating_range_same _ _ Hr old new).
  - destruct Hm as [Hm | Hm]; [| exact Hm].
    apply Z.eqb_eq in Hm. unfold Slot.check_max_bookings_per_slot in *. now rewrite <- Hm.
Qed.

Lemma update_slot_elem_any (row : Slot.t) (rows : list Slot.t) (s : Slot.t) :
  s ∈ update_slot row rows -> s = row \/ s ∈ rows.
Proof.
  induction rows as [| r rows IH]; simpl; intros Hin; [now right |].
  destruct (Slot.id r =? Slot.id row).
  - apply elem_of_cons in Hin as [-> | Hin]; [now left |].
    right. now apply list_elem_of_further.
  - apply elem_of_cons in Hin as [-> | Hin]; [right; apply list_elem_of_here |].
    destruct (IH Hin) as [-> | H]; [now left |]. right. now apply list_elem_of_further.
Qed.

Lemma commit_rows_checked (old new : list Slot.t) (i : nat) (o n : Slot.t) :
  WeatherService.commit_rows old new = Ok new ->
  old !! i = Some o -> new !! i = Some n ->
  Slot.check_on_update o n = true.
Proof.
  unfold WeatherService.commit_rows.
  destruct (forallb _ (zip old new)) eqn:E; [| discriminate]. intros _ Ho Hn.
  rewrite forallb_forall in E.
  apply (E (o, n)). apply list_elem_of_In.
  apply list_elem_of_lookup. exists i.
  apply lookup_zip_Some. now split.
Qed.

Lemma set_available_checks (b : bool) (s : Slot.t) :
  Slot.check_on_insert (Slot.set_available b s) = Slot.check_on_insert s.
Proof. reflexivity. Qed.

Lemma serve_keeps_checks (w : World) (r : request) :
  checks_ok (db w) -> checks_ok (db (snd (serve ZoneInfo w r))).
Proof.
  intros Hok s Hs. destruct r as [clk u sid | clk u sid]; simpl in Hs.
  - destruct (book_slot_cases ZoneInfo w clk u sid)
      as [(_ & Hsl & _)
         | (user & slot & tz & _ & Hv & _ & _ & _ & _ & _ & _ & _ & _ & Hsl)].
    + rewrite Hsl in Hs. now apply Hok.
    + rewrite Hsl in Hs. apply validate_inr in Hv as (_ & _ & Hfs).
      apply first_slot_id in Hfs as [Hin _].
      destruct (_ <=? _); [| now apply Hok].
      apply update_slot_elem_any in Hs as [-> | Hs]; [| now apply Hok].
      rewrite set_available_checks. now apply Hok.
  - destruct (cancel_booking_cases ZoneInfo w clk u sid)
      as [(_ & Hsl & _)
         | (user & slot & tz & booking & _ & Hv & _ & _ & _ & _ & _ & _ & Hsl)].
    + rewrite Hsl in Hs. now apply Hok.
    + rewrite Hsl in Hs. apply validate_inr in Hv as (_ & _ & Hfs).
      apply first_slot_id in Hfs as [Hin _].
      destruct (_ <? _); [| now apply Hok].
      apply update_slot_elem_any in Hs as [-> | Hs]; [| now apply Hok].
      rewrite set_available_checks. now apply Hok.
Qed.

(** X23: The CHECK constraints of the slots table hold after every
    operation when they held before it: after [_save_event] (for an edit,
    of a stored slot), after the weather refresh whatever the forecast
    data and the float arithmetic, and after any sequence of [book_slot]
    and [cancel_booking] calls every stored slot has its start before its
    end, a rating that is unset or between 0 and 100, and a capacity that
    is not negative. *)
Theorem check_constraints_kept :
  (forall db existing_event event_data,
     checks_ok db ->
     (forall e, existing_event = Some e -> e ∈ slots db) ->
     checks_ok (snd (_save_event db existing_event event_data)))
  /\ (forall (F : Type) (o : PyFloat.ops F) (value : F -> Q) db data now,
        checks_ok db ->
        checks_ok (WeatherService.update_events_weather ZoneInfo o value db data now))
  /\ (forall w requests,
        checks_ok (db w) -> checks_ok (db (run ZoneInfo w requests))).
Proof.
  split; [| split].
  - intros d existing_event event_data Hok Hex. unfold _save_event.
    destruct (_check_same_day_start _ _ _); [exact Hok |].
    destruct (_check_prev_day_overlap _ _ _); [exact Hok |].
    destruct (_check_next_day_overlap _ _ _); [exact Hok |].
    destruct (first _ _); [exact Hok |].
    unfold commit_slot. destruct existing_event as [e |].
    + destruct (Slot.check_on_update e _) eqn:E; [| exact Hok].
      intros s Hs. simpl in Hs.
      apply update_slot_elem_any in Hs as [-> | Hs]; [| now apply Hok].
      apply (check_on_update_insert e); [exact E |]. apply Hok, Hex. reflexivity.
    + destruct (Slot.check_on_insert _) eqn:E; [| exact Hok].
      intros s Hs. simpl in Hs. apply elem_of_app in Hs as [Hs | Hs]; [now apply Hok |].
      apply elem_of_cons in Hs as [-> | Hs]; [exact E | now apply elem_of_nil in Hs].
  - intros F o value d data now Hok. unfold WeatherService.update_events_weather.
    pose proof (get_config_slots d) as Hs.
    destruct (get_config d) as [config d1]. simpl in Hs.
    assert (Hok1 : checks_ok d1) by (intros s; rewrite Hs; apply Hok).
    destruct (WeatherService.zone_info ZoneInfo _) as [tz | e]; cbn [bind];
      [| exact Hok1].
    destruct (WeatherService.update_rows ZoneInfo o value tz now data config (slots d1))
      as [rows | e] eqn:Er; cbn [bind]; [| exact Hok1].
    destruct (WeatherService.commit_rows (slots d1) rows) as [rows' | e] eqn:Ec;
      [| exact Hok1].
    assert (rows' = rows) as ->.
    { unfold WeatherService.commit_rows in Ec. destruct (forallb _ _); congruence. }
    destruct (update_rows_again ZoneInfo o value tz now data config _ _ Er)
      as (_ & Hframe & _).
    intros s Hin. simpl in Hin. apply list_elem_of_lookup in Hin as [i Hi].
    assert (Hlen : length rows = length (slots d1)).
    { rewrite <- (length_map Frame.non_weather_fields rows), Hframe. apply length_map. }
    destruct (lookup_lt_is_Some_2 (slots d1) i) as [old Ho].
    { rewrite <- Hlen. eapply lookup_lt_Some. exact Hi. }
    apply (check_on_update_insert old).
    + exact (commit_rows_checked _ _ i old s Ec Ho Hi).
    + apply Hok1. eapply list_elem_of_lookup_2. exact Ho.
  - intros w requests. apply (run_invariant ZoneInfo (fun w => checks_ok (db w))).
    intros w' r. apply serve_keeps_checks.
Qed.

End CheckConstraints.

Section EventTimes.

Import PyDatetime Py Models AdminService.
Open Scope Z_scope.

Lemma event_times_in_fixed_zone (event_date opening_time closing_time : Z)
    (name : string) (off : Z) :
  0 <= opening_time < DAY -> 0 <= closing_time < DAY ->
  name <> key utc ->
  let tz := fixed_offset name off in
  let times := _calculate_event_times_full event_date opening_time closing_time tz in
  let duration := wall_clock (end_local times) - wall_clock (start_local times) in
  start_local times = Aware (event_date * DAY + opening_time) tz
  /\ duration = (if closing_time <=? opening_time
                 then closing_time - opening_time + DAY
                 else closing_time - opening_time)
  /\ 0 < duration <= DAY
  /\ start_utc times = Aware (wall_clock (start_local times) - off) utc
  /\ end_utc times = Aware (wall_clock (end_local times) - off) utc
  /\ wall_clock (start_utc times) < wall_clock (end_utc times).
Proof.
  intros Ho Hc Hname. cbv zeta.
  assert (E : same_tzinfo (fixed_offset name off) utc = false)
    by (apply String.eqb_neq; exact Hname).
  unfold _calculate_event_times_full, _calculate_event_times, combine.
  destruct (closing_time <=? opening_time) eqn:El;
    cbn [to_utc start_local end_local start_utc end_utc wall_clock];
    unfold astimezone; rewrite E; unfold utc_instant;
    cbn [utcoffset offset_at_utc fixed_offset utc wall_clock];
    [apply Z.leb_le in El | apply Z.leb_gt in El];
    repeat split; try (f_equal; lia); lia.
Qed.

(** X24: For times of day within a day, [_calculate_event_times] puts the
    end after the start and at most 24 hours later: on the same date when
    the closing time is after the opening time, on the next date
    otherwise. In a zone of constant offset
    [_calculate_event_times_full] moves both readings by the offset, so
    that the UTC start and end are the same time apart and the pair
    passes the CHECK constraint on the time range. *)
Theorem event_times_duration (event_date opening_time closing_time : Z)
    (name : string) (off : Z) :
  0 <= opening_time < DAY -> 0 <= closing_time < DAY ->
  name <> key utc ->
  let tz := fixed_offset name off in
  let times := _calculate_event_times_full event_date opening_time closing_time tz in
  let duration := wall_clock (end_local times) - wall_clock (start_local times) in
  start_local times = Aware (event_date * DAY + opening_time) tz
  /\ duration = (if closing_time <=? opening_time
                 then closing_time - opening_time + DAY
                 else closing_time - opening_time)
  /\ 0 < duration <= DAY
  /\ start_utc times = Aware (wall_clock (start_local times) - off) utc
  /\ end_utc times = Aware (wall_clock (end_local times) - off) utc
  /\ wall_clock (start_utc times) < wall_clock (end_utc times).
Proof.
  intros Ho Hc Hname.
  exact (event_times_in_fixed_zone event_date opening_time closing_time name off
           Ho Hc Hname).
Qed.

End EventTimes.

(* ===================================================================== *)
(** * Confirming an event *)
(* ===================================================================== *)

Section ConfirmEvent.

Import PyDatetime Py Models DataTransferObjects EventConfirmation.
Open Scope Z_scope.

Variable ZoneInfo : string -> option tzinfo.
Variable local_zone : tzinfo.

Context {F : Type} (o : PyFloat.ops F).
Variable value : F -> Q.

Lemma same_tzinfo_refl (tz : tzinfo) : same_tzinfo tz tz = true.
Proof. apply String.eqb_refl. Qed.

Lemma datetime_lt_same (x y : Z) (tz : tzinfo) :
  datetime_lt (Aware x tz) (Aware y tz) = Some (x <? y).
Proof. unfold datetime_lt. now rewrite same_tzinfo_refl. Qed.

Lemma datetime_ge_same (x y : Z) (tz : tzinfo) :
  datetime_ge (Aware x tz) (Aware y tz) = Some (y <=? x).
Proof. unfold datetime_ge. now rewrite same_tzinfo_refl. Qed.

Lemma event_times_local (event_date opening_time closing_time : Z) (tz : tzinfo) :
  let times :=
    AdminService._calculate_event_times_full event_date opening_time closing_time tz in
  AdminService.start_local times = Aware (event_date * DAY + opening_time) tz
  /\ AdminService.end_local times =
     Aware (if closing_time <=? opening_time
            then (event_date + 1) * DAY + closing_time
            else event_date * DAY + closing_time) tz.
Proof.
  cbv zeta. unfold AdminService._calculate_event_times_full,
    AdminService._calculate_event_times, combine.
  destruct (closing_time <=? opening_time); split; reflexivity.
Qed.

(** What [_prepare_event_data] has established when it hands back event
    times and weather info. *)
Lemma prepare_event_data_ok (d d' : Database) (event : EventData) (tz : tzinfo)
    (now : Z) (weather_service : option (result (WeatherService.weather_by_time F)))
    (event_times : AdminService.EventTimes) (weather_info : AdminService.WeatherInfo) :
  _prepare_event_data ZoneInfo o value d event tz now weather_service
    = (Ok (inr (event_times, weather_info)), d') ->
  _validate_event_input (event_title event) (event_description event)
    (max_bookings event) = true
  /\ event_times =
     AdminService._calculate_event_times_full (event_date event) (opening_time event)
       (closing_time event) tz
  /\ now + offset_at_utc tz now <= event_date event * DAY + opening_time event
  /\ d' = snd (get_config d).
Proof.
  unfold _prepare_event_data.
  destruct (_validate_event_input _ _ _) eqn:Ev; [| discriminate]. cbn [negb].
  destruct (event_times_local (event_date event) (opening_time event)
              (closing_time event) tz) as [Hs He].
  rewrite Hs, He. unfold datetime_now. rewrite !datetime_lt_same.
  set (end_reading := if closing_time event <=? opening_time event
                      then (event_date event + 1) * DAY + closing_time event
                      else event_date event * DAY + closing_time event).
  destruct (Z.ltb_spec (event_date event * DAY + opening_time event)
              (now + offset_at_utc tz now)) as [H1 | H1]; [discriminate |].
  destruct (end_reading <? now + offset_at_utc tz now); [discriminate |].
  destruct (get_config d) as [config d1] eqn:Ec.
  destruct (_get_weather_data ZoneInfo o value weather_service _ _ config) as [[info |] | e];
    try discriminate.
  intros Heq. injection Heq as <- <- <-. repeat split; auto.
Qed.

Lemma prepare_event_data_db (d : Database) (event : EventData) (tz : tzinfo)
    (now : Z) (weather_service : option (result (WeatherService.weather_by_time F))) :
  let d' := snd (_prepare_event_data ZoneInfo o value d event tz now weather_service) in
  slots d' = slots d /\ bookings d' = bookings d /\ users d' = users d.
Proof.
  cbv zeta. unfold _prepare_event_data.
  destruct (negb _); [now repeat split |].
  destruct (datetime_lt _ _) as [[|] |]; try now repeat split.
  destruct (datetime_lt _ _) as [[|] |]; try now repeat split.
  pose proof (get_config_slots d). pose proof (get_config_bookings d).
  pose proof (get_config_users d).
  destruct (get_config d) as [config d1]. simpl in *.
  destruct (_get_weather_data _ _ _ _ _) as [[info |] | e]; now repeat split.
Qed.

(** [confirm_event] either answers without a write to the slots, or it
    is [_save_event] on the event that it has prepared. *)
Lemma confirm_event_cases (d : Database) (event : EventData) (event_id : option Z)
    (clk : Clock) (weather_service : option (result (WeatherService.weather_by_time F))) :
  let r := confirm_event ZoneInfo local_zone o value d event event_id clk weather_service in
  (slots (snd r) = slots d /\ bookings (snd r) = bookings d /\ users (snd r) = users d
   /\ fst r <> Returned "Event created successfully."
   /\ fst r <> Returned "Event updated successfully.")
  \/ exists tz weather_info,
       ZoneInfo (Configuration.timezone (fst (get_config d))) = Some tz
       /\ _validate_event_input (event_title event) (event_description event)
            (max_bookings event) = true
       /\ now_prepare clk + offset_at_utc tz (now_prepare clk)
          <= event_date event * DAY + opening_time event
       /\ let event_times :=
            AdminService._calculate_event_times_full (event_date event)
              (opening_time event) (closing_time event) tz in
          let existing_event :=
            match event_id with
            | Some event_id => first (fun s => Slot.id s =? event_id) (slots d)
            | None => None
            end in
          r = AdminService._save_event (snd (get_config d)) existing_event
                (AdminService.mk_event_data (event_title event) (event_description event)
                   (max_bookings event) (AdminService.start_utc event_times)
                   (AdminService.end_utc event_times) weather_info).
Proof.
  cbv zeta. unfold confirm_event, _process_event_confirmation.
  pose proof (get_config_slots d) as Hs. pose proof (get_config_bookings d) as Hb.
  pose proof (get_config_users d) as Hu.
  pose proof (get_config_stored d) as Hc.
  destruct (get_config d) as [config d1] eqn:Ec. simpl in Hs, Hb, Hu, Hc. simpl fst.
  unfold WeatherService.zone_info.
  destruct (ZoneInfo (Configuration.timezone config)) as [tz |] eqn:Ez.
  2:{ left. simpl. repeat split; auto; discriminate. }
  pose proof (prepare_event_data_db d1 event tz (now_prepare clk) weather_service)
    as (Hs' & Hb' & Hu').
  destruct (_prepare_event_data ZoneInfo o value d1 event tz (now_prepare clk) weather_service)
    as [[[error_msg | [event_times weather_info]] | e] d2] eqn:Ep; simpl in Hs', Hb', Hu'.
  - left. simpl. rewrite Hs', Hb', Hu'. repeat split; auto.
    + intros [= ->]. unfold _prepare_event_data in Ep.
      destruct (negb _); [discriminate |].
      destruct (datetime_lt _ _) as [[|] |]; try discriminate.
      destruct (datetime_lt _ _) as [[|] |]; try discriminate.
      destruct (get_config d1). destruct (_get_weather_data _ _ _ _ _) as [[? |] | ?];
        discriminate.
    + intros [= ->]. unfold _prepare_event_data in Ep.
      destruct (negb _); [discriminate |].
      destruct (datetime_lt _ _) as [[|] |]; try discriminate.
      destruct (datetime_lt _ _) as [[|] |]; try discriminate.
      destruct (get_config d1). destruct (_get_weather_data _ _ _ _ _) as [[? |] | ?];
        discriminate.
  - apply prepare_event_data_ok in Ep as (Hv & -> & Hnow & ->).
    rewrite Hc. simpl snd. rewrite Hc in Hs'. simpl in Hs'.
    set (existing_event :=
           match event_id with
           | Some event_id => first (fun s => Slot.id s =? event_id) (slots d1)
           | None => None
           end).
    destruct (match existing_event with
              | Some existing_event =>
                  _can_modify_event local_zone existing_event
                    (datetime_now tz (now_confirm clk)) tz
              | None => Ok true
              end) as [[|] | e] eqn:Em.
    + right. exists tz, weather_info. split; [reflexivity |].
      split; [exact Hv |]. split; [exact Hnow |].
      unfold existing_event. rewrite Hs. reflexivity.
    + left. simpl. repeat split; auto; discriminate.
    + left. simpl. repeat split; auto; discriminate.
  - left. simpl. rewrite Hs', Hb', Hu'. repeat split; auto; discriminate.
Qed.

Lemma validate_event_input_true (title description : string) (max_bookings : Z) :
  _validate_event_input title description max_bookings = true
  <-> 1 <= PyStr.len (PyStr.strip title) <= 30
      /\ PyStr.len (PyStr.strip description) <= 255
      /\ 1 <= max_bookings.
Proof.
  unfold _validate_event_input.
  assert (Hlen : PyStr.is_empty (PyStr.strip title) = true
                 <-> PyStr.len (PyStr.strip title) < 1).
  { unfold PyStr.len. destruct (PyStr.strip title); simpl; split; try lia; discriminate. }
  destruct (PyStr.is_empty (PyStr.strip title)) eqn:E1; simpl.
  { split; [discriminate |]. intros [[H _] _]. apply proj1 in Hlen.
    specialize (Hlen eq_refl). lia. }
  assert (1 <= PyStr.len (PyStr.strip title)).
  { destruct (Z.lt_ge_cases (PyStr.len (PyStr.strip title)) 1) as [H | H]; [| lia].
    apply Hlen in H. discriminate. }
  destruct (Z.ltb_spec 30 (PyStr.len (PyStr.strip title))); simpl;
    [split; [discriminate | lia] |].
  destruct (Z.ltb_spec 255 (PyStr.len (PyStr.strip description))); simpl;
    [split; [discriminate | lia] |].
  destruct (Z.ltb_spec max_bookings 1); simpl; split; try discriminate; try lia; auto.
Qed.

(**  [confirm_event] writes to no table but the slots, and to the
    slots only when it answers "Event created successfully." or
    "Event updated successfully.": any other answer, and any exception,
    leaves the stored slots as they were. *)
Lemma confirm_event_frame (d : Database) (event : EventData) (event_id : option Z)
    (clk : Clock) (weather_service : option (result (WeatherService.weather_by_time F))) :
  let r := confirm_event ZoneInfo local_zone o value d event event_id clk weather_service in
  bookings (snd r) = bookings d
  /\ users (snd r) = users d
  /\ (slots (snd r) = slots d
      \/ fst r = Returned "Event created successfully."
      \/ fst r = Returned "Event updated successfully.").
Proof.
  cbv zeta.
  destruct (confirm_event_cases d event event_id clk weather_service)
    as [(Hs & Hb & Hu & _) | (tz & info & _ & _ & _ & Hr)].
  - auto.
  - cbv zeta in Hr. rewrite Hr.
    set (existing_event := match event_id with Some _ => _ | None => None end).
    set (event_data := AdminService.mk_event_data _ _ _ _ _ _).
    pose proof (get_config_slots d) as Hs. pose proof (get_config_bookings d) as Hb.
    pose proof (get_config_users d) as Hu.
    unfold AdminService._save_event.
    destruct (AdminService._check_same_day_start _ _ _); [simpl; auto |].
    destruct (AdminService._check_prev_day_overlap _ _ _); [simpl; auto |].
    destruct (AdminService._check_next_day_overlap _ _ _); [simpl; auto |].
    destruct (first _ _); [simpl; auto |].
    unfold AdminService.commit_slot.
    destruct existing_event.
    + destruct (Slot.check_on_update _ _); simpl; auto.
    + destruct (Slot.check_on_insert _); simpl; auto.
Qed.

(** X25: The slot that [confirm_event] writes. With a configured zone of
    constant offset and times of day within a day, when [confirm_event]
    answers that the event was created or updated, the slots table holds
    a row with the title, description and capacity of the request whose
    stored start is the local opening time moved to UTC; the start is not
    before the clock read of [_prepare_event_data], the end is after the
    start and at most 24 hours later, the capacity is at least one, the
    slot is flagged available, and the title without its surrounding
    white space has between 1 and 30 characters. *)
Theorem confirmed_event_row (d : Database) (event : EventData) (event_id : option Z)
    (clk : Clock) (weather_service : option (result (WeatherService.weather_by_time F)))
    (name : string) (off : Z) (msg : string) :
  ZoneInfo (Configuration.timezone (fst (get_config d))) = Some (fixed_offset name off) ->
  name <> key utc ->
  0 <= opening_time event < DAY ->
  0 <= closing_time event < DAY ->
  let r := confirm_event ZoneInfo local_zone o value d event event_id clk weather_service in
  fst r = Returned msg ->
  msg = "Event created successfully."%string
  \/ msg = "Event updated successfully."%string ->
  exists row,
    row ∈ slots (snd r)
    /\ Slot.title row = event_title event
    /\ Slot.description row = event_description event
    /\ Slot.max_bookings row = max_bookings event
    /\ Slot.start_time row = event_date event * DAY + opening_time event - off
    /\ now_prepare clk <= Slot.start_time row
    /\ Slot.start_time row < Slot.end_time row <= Slot.start_time row + DAY
    /\ 1 <= Slot.max_bookings row
    /\ Slot.available row = true
    /\ 1 <= PyStr.len (PyStr.strip (Slot.title row)) <= 30.
Proof.
  intros Hz Hname Ho Hc r Hmsg Hok. subst r.
  destruct (confirm_event_cases d event event_id clk weather_service)
    as [(_ & _ & _ & H1 & H2) | (tz & info & Hz' & Hv & Hnow & Hr)].
  { destruct Hok as [-> | ->]; congruence. }
  rewrite Hz in Hz'. injection Hz' as <-.
  cbv zeta in Hr. rewrite Hr in Hmsg |- *.
  apply validate_event_input_true in Hv as (Htitle & _ & Hmax).
  destruct (event_times_in_fixed_zone (event_date event) (opening_time event)
              (closing_time event) name off Ho Hc Hname)
    as (Hsl & Hdur & Hbound & Hsu & Heu & _).
  cbv zeta in Hsl, Hdur, Hbound, Hsu, Heu. rewrite Hsl in Hsu.
  set (times := AdminService._calculate_event_times_full _ _ _ _) in *.
  set (existing_event := match event_id with Some _ => _ | None => None end) in *.
  destruct (save_event_written _ _ _ _ Hmsg Hok) as [Hdb _].
  cbv zeta in Hdb. rewrite Hdb, Hsu, Heu. cbn [wall_clock] in *.
  cbn [offset_at_utc fixed_offset] in Hnow. rewrite Hsl in Hdur, Hbound.
  cbn [wall_clock] in Hdur, Hbound.
  assert (Hfacts : forall id,
            let row :=
              Slot.mk id (event_title event) (event_description event)
                (event_date event * DAY + opening_time event - off)
                (wall_clock (AdminService.end_local times) - off) true
                (AdminService.condition_rating info) (max_bookings event)
                (AdminService.weather_warning info) (AdminService.weather_forecast info) in
            Slot.title row = event_title event
            /\ Slot.description row = event_description event
            /\ Slot.max_bookings row = max_bookings event
            /\ Slot.start_time row = event_date event * DAY + opening_time event - off
            /\ now_prepare clk <= Slot.start_time row
            /\ Slot.start_time row < Slot.end_time row <= Slot.start_time row + DAY
            /\ 1 <= Slot.max_bookings row
            /\ Slot.available row = true
            /\ 1 <= PyStr.len (PyStr.strip (Slot.title row)) <= 30).
  { intros id. cbv zeta.
    cbn [Slot.title Slot.description Slot.max_bookings Slot.start_time Slot.end_time
         Slot.available].
    repeat split; try lia; try reflexivity. }
  destruct existing_event as [e |] eqn:Ee.
  - eexists. split; [| apply (Hfacts (Slot.id e))].
    simpl. unfold existing_event in Ee. destruct event_id as [n |]; [| discriminate].
    rewrite get_config_slots.
    pose proof (first_slot_id _ _ _ Ee) as [_ Hid].
    rewrite Hid.
    pose proof (first_update_slot n
                  (Slot.mk n (event_title event) (event_description event)
                     (event_date event * DAY + opening_time event - off)
                     (wall_clock (AdminService.end_local times) - off) true
                     (AdminService.condition_rating info) (max_bookings event)
                     (AdminService.weather_warning info)
                     (AdminService.weather_forecast info))
                  (slots d) e Ee eq_refl) as Hf.
    now apply first_some_elem in Hf as [Hf _].
  - eexists. split; [| apply (Hfacts (next_id (map Slot.id (slots (snd (get_config d))))))].
    simpl. apply elem_of_app. right. apply list_elem_of_here.
Qed.

(** X26: [_can_modify_event] reads the stored UTC times in the zone of the
    host. With zones of constant offset, an event can be edited exactly
    when the current UTC instant is not after the stored start and the
    stored end, each moved back by the offset of the host zone: on a host
    that runs on UTC this is until the start. *)
Theorem can_modify_event_window (event : Slot.t) (now : Z) (name host : string)
    (off host_off : Z) :
  let tz := fixed_offset name off in
  _can_modify_event (fixed_offset host host_off) event (datetime_now tz now) tz
  = Ok ((now <=? Slot.start_time event - host_off)
        && (now <=? Slot.end_time event - host_off)).
Proof.
  cbv zeta. unfold _can_modify_event, astimezone_naive, datetime_now, utc_instant.
  cbn [utcoffset offset_at_utc fixed_offset].
  rewrite !datetime_ge_same.
  assert (E : forall x, (now + off <=? x - host_off + off) = (now <=? x - host_off)).
  { intros x. destruct (Z.leb_spec (now + off) (x - host_off + off)),
      (Z.leb_spec now (x - host_off)); try reflexivity; lia. }
  rewrite !E.
  destruct (now <=? Slot.start_time event - host_off); reflexivity.
Qed.

End ConfirmEvent.

(* ===================================================================== *)
(** * Blocking a user *)
(* ===================================================================== *)
Section BlockUser.

Import PyDatetime Py Models BookingService UserAdmin.
Open Scope Z_scope.

Variable ZoneInfo : string -> option tzinfo.

Lemma first_update_user (uid : Z) (row : User.t) (rows : list User.t) (user : User.t) :
  first (fun u => User.id u =? uid) rows = Some user ->
  User.id row = uid ->
  first (fun u => User.id u =? uid) (update_user row rows) = Some row.
Proof.
  unfold first. intros H Hrow. subst uid.
  induction rows as [| r rows IH]; simpl in *; [discriminate |].
  destruct (User.id r =? User.id row) eqn:E; simpl.
  - rewrite Z.eqb_refl. reflexivity.
  - rewrite E. apply IH. exact H.
Qed.

Lemma update_user_same (uid : Z) (rows : list User.t) (user : User.t) :
  first (fun u => User.id u =? uid) rows = Some user ->
  update_user user rows = rows.
Proof.
  unfold first. induction rows as [| r rows IH]; simpl; [discriminate |].
  destruct (User.id r =? uid) eqn:E.
  - intros [= <-]. rewrite Z.eqb_refl. reflexivity.
  - intros H. pose proof (find_some _ _ H) as [_ Hid].
    apply Z.eqb_eq in Hid. rewrite Hid, E, (IH H). reflexivity.
Qed.

Lemma update_user_twice (row1 row2 : User.t) (rows : list User.t) :
  User.id row1 = User.id row2 ->
  update_user row2 (update_user row1 rows) = update_user row2 rows.
Proof.
  intros Hid. induction rows as [| r rows IH]; simpl; [reflexivity |].
  rewrite Hid. destruct (User.id r =? User.id row2) eqn:E; simpl.
  - rewrite Hid, Z.eqb_refl. reflexivity.
  - rewrite E, IH. reflexivity.
Qed.

Lemma block_user_inr (d d' : Database) (user_id : Z) (block : bool) :
  block_user d user_id block = inr d' ->
  exists user,
    first (fun u => User.id u =? user_id) (users d) = Some user
    /\ User.id user = user_id
    /\ User.role user <> "Admin"%string
    /\ d' = set_users (update_user (User.mk user_id (User.role user) block) (users d)) d.
Proof.
  unfold block_user.
  destruct (first (fun u => User.id u =? user_id) (users d)) as [user |] eqn:Ef;
    [| discriminate].
  destruct (String.eqb (User.role user) "Admin") eqn:Er; [discriminate |].
  intros [= <-]. exists user.
  pose proof (first_user_id _ _ _ Ef) as [_ Hid].
  split; [reflexivity |]. split; [exact Hid |].
  split; [now apply String.eqb_neq |]. now rewrite Hid.
Qed.

(** X27: A blocked user is locked out of both services. After
    [block_user] has blocked a user, every [book_slot] and every
    [cancel_booking] call of that user is answered with
    "Your account is blocked." and changes nothing, whatever the slot,
    the clock and the request log; the bookings that the user held stay
    in the table, so that the places they take are not freed. *)
Theorem blocked_user_locked_out (d d' : Database) (user_id : Z) :
  block_user d user_id true = inr d' ->
  bookings d' = bookings d
  /\ slots d' = slots d
  /\ forall store clk slot_id,
       book_slot ZoneInfo (mk_world d' store) clk user_id slot_id
         = (Returned "Your account is blocked.", mk_world d' store)
       /\ cancel_booking ZoneInfo (mk_world d' store) clk user_id slot_id
          = (Returned "Your account is blocked.", mk_world d' store).
Proof.
  intros Hb. apply block_user_inr in Hb as (user & Hf & Hid & _ & ->).
  split; [reflexivity |]. split; [reflexivity |].
  intros store clk slot_id.
  assert (Hv : _validate_user_and_slot
                 (set_users (update_user (User.mk user_id (User.role user) true) (users d)) d)
                 user_id slot_id = inl "Your account is blocked."%string).
  { unfold _validate_user_and_slot. simpl users.
    rewrite (first_update_user user_id (User.mk user_id (User.role user) true) _ user Hf
               eq_refl).
    reflexivity. }
  unfold book_slot, cancel_booking. cbn [db]. rewrite Hv. split; reflexivity.
Qed.

(** X28: [block_user] refuses an unknown user and an administrator with a
    [ValueError] and writes nothing; for any other user, blocking and
    then unblocking gives back the database as it was when the user was
    not blocked before. *)
Theorem block_user_round_trip (d : Database) (user_id : Z) (block : bool) :
  (first (fun u => User.id u =? user_id) (users d) = None ->
   block_user d user_id block = inl (ValueError "User not found"))
  /\ (forall user,
        first (fun u => User.id u =? user_id) (users d) = Some user ->
        User.role user = "Admin"%string ->
        block_user d user_id block = inl (ValueError "Cannot block admin"))
  /\ (forall user,
        first (fun u => User.id u =? user_id) (users d) = Some user ->
        User.role user <> "Admin"%string ->
        User.blocked user = false ->
        exists d1,
          block_user d user_id true = inr d1
          /\ first (fun u => User.id u =? user_id) (users d1)
             = Some (User.mk user_id (User.role user) true)
          /\ block_user d1 user_id false = inr d).
Proof.
  split; [| split].
  - intros Hf. unfold block_user. now rewrite Hf.
  - intros user Hf Hr. unfold block_user. now rewrite Hf, Hr.
  - intros user Hf Hr Hbl.
    pose proof (first_user_id _ _ _ Hf) as [_ Hid].
    apply String.eqb_neq in Hr.
    pose proof (first_update_user user_id (User.mk user_id (User.role user) true)
                  (users d) user Hf eq_refl) as Hf1.
    eexists. split; [| split].
    + unfold block_user. rewrite Hf, Hr, Hid. reflexivity.
    + exact Hf1.
    + unfold block_user. simpl users. rewrite Hf1. simpl User.role. rewrite Hr.
      simpl. rewrite update_user_twice by reflexivity.
      assert (Huser : User.mk user_id (User.role user) false = user).
      { destruct user as [i r b]. simpl in *. now subst. }
      rewrite Huser, (update_user_same user_id _ _ Hf).
      destruct d. reflexivity.
Qed.

End BlockUser.

(* ===================================================================== *)
(** * The views that call the booking service *)
(* ===================================================================== *)

Section Views.

Import PyDatetime Py Models BookingService UserActions.
Open Scope Z_scope.

Variable ZoneInfo : string -> option tzinfo.

(** The messages that [book_slot] can return. *)
Lemma book_slot_messages (w : World) (clk : Clock) (user_id slot_id : Z) (msg : string) :
  fst (book_slot ZoneInfo w clk user_id slot_id) = Returned msg ->
  msg ∈ ["User not found."; "Your account is blocked."; "Event not found.";
         "You are rate-limited. Please try again later.";
         "Event is no longer available for booking.";
         "You have already booked this event."; "Event is fully booked.";
         "Booking confirmed."; "Booking failed due to a server error."]%string.
Proof.
  unfold book_slot, _validate_user_and_slot.
  destruct (first _ (users (db w))) as [user |];
    [| intros [= <-]; set_solver].
  destruct (User.blocked user); [intros [= <-]; set_solver |].
  destruct (first _ (slots (db w))) as [slot |]; [| intros [= <-]; set_solver].
  destruct (Utils.is_rate_limited _ _ _) as [[|] store]; [intros [= <-]; set_solver |].
  destruct (_get_timezone ZoneInfo (db w)) as [[tz | e] d]; [| discriminate].
  destruct (datetime_ge _ _) as [[|] |]; [intros [= <-]; set_solver | | discriminate].
  destruct (first _ (bookings d)); [intros [= <-]; set_solver |].
  destruct (Slot.max_bookings slot <=? _); [intros [= <-]; set_solver |].
  destruct (uq_user_slot_booking _ _); intros [= <-]; set_solver.
Qed.

(** The messages that [cancel_booking] can return. *)
Lemma cancel_booking_messages (w : World) (clk : Clock) (user_id slot_id : Z)
    (msg : string) :
  fst (BookingService.cancel_booking ZoneInfo w clk user_id slot_id) = Returned msg ->
  msg ∈ ["User not found."; "Your account is blocked."; "Event not found.";
         "You are rate-limited. Please try again later.";
         "No active booking found for this event.";
         "Cannot cancel booking after event has started.";
         "Booking cancelled successfully."]%string.
Proof.
  unfold BookingService.cancel_booking, _validate_user_and_slot.
  destruct (first _ (users (db w))) as [user |];
    [| intros [= <-]; set_solver].
  destruct (User.blocked user); [intros [= <-]; set_solver |].
  destruct (first _ (slots (db w))) as [slot |]; [| intros [= <-]; set_solver].
  destruct (Utils.is_rate_limited _ _ _) as [[|] store]; [intros [= <-]; set_solver |].
  destruct (first _ (bookings (db w))); [| intros [= <-]; set_solver].
  destruct (_get_timezone ZoneInfo (db w)) as [[tz | e] d]; [| discriminate].
  destruct (datetime_ge _ _) as [[|] |]; [intros [= <-]; set_solver | | discriminate].
  intros [= <-]. set_solver.
Qed.

Ltac each_message H :=
  repeat (apply elem_of_cons in H as [-> | H]; [vm_compute; split; congruence |]);
  now apply elem_of_nil in H.

Lemma flash_booking (w : World) (clk : Clock) (user_id slot_id : Z)
    (message category : string) :
  flash_result "confirmed" (fst (book_slot ZoneInfo w clk user_id slot_id))
    = Flash message category ->
  fst (book_slot ZoneInfo w clk user_id slot_id) = Returned message
  /\ (category = "success"%string <-> message = "Booking confirmed."%string).
Proof.
  destruct (fst (book_slot ZoneInfo w clk user_id slot_id)) as [msg | e] eqn:E;
    [| discriminate].
  unfold flash_result. intros [= <- <-]. split; [reflexivity |].
  apply book_slot_messages in E. each_message E.
Qed.

Lemma flash_cancellation (w : World) (clk : Clock) (user_id slot_id : Z)
    (message category : string) :
  flash_result "successfully"
    (fst (BookingService.cancel_booking ZoneInfo w clk user_id slot_id))
    = Flash message category ->
  fst (BookingService.cancel_booking ZoneInfo w clk user_id slot_id) = Returned message
  /\ (category = "success"%string
      <-> message = "Booking cancelled successfully."%string).
Proof.
  destruct (fst (BookingService.cancel_booking ZoneInfo w clk user_id slot_id))
    as [msg | e] eqn:E; [| discriminate].
  unfold flash_result. intros [= <- <-]. split; [reflexivity |].
  apply cancel_booking_messages in E. each_message E.
Qed.

(** X29: The category under which a view flashes a message is "success"
    exactly when the message is the one with which the booking service
    confirms a booking (for the two views that book) or a cancellation
    (for the view that cancels), and then the service has returned that
    message; every other answer of the service, and every message of the
    views themselves, is flashed as an error. *)
Theorem flash_category_matches_outcome (w : World) (now_utc : Z) (clk : Clock)
    (user_id slot_id : Z) (message category : string) :
  (fst (events_post ZoneInfo w clk user_id slot_id) = Flash message category ->
   (category = "success"%string <-> message = "Booking confirmed."%string)
   /\ (category = "success"%string ->
       fst (book_slot ZoneInfo w clk user_id slot_id) = Returned "Booking confirmed."))
  /\ (fst (booking ZoneInfo w now_utc clk user_id slot_id) = Flash message category ->
      (category = "success"%string <-> message = "Booking confirmed."%string)
      /\ (category = "success"%string ->
          fst (book_slot ZoneInfo w clk user_id slot_id) = Returned "Booking confirmed."))
  /\ (fst (cancel_booking ZoneInfo w now_utc clk user_id slot_id)
        = Flash message category ->
      (category = "success"%string
       <-> message = "Booking cancelled successfully."%string)
      /\ (category = "success"%string ->
          fst (BookingService.cancel_booking ZoneInfo w clk user_id slot_id)
            = Returned "Booking cancelled successfully.")).
Proof.
  assert (Hbook : forall result w',
            book_slot ZoneInfo w clk user_id slot_id = (result, w') ->
            flash_result "confirmed" result = Flash message category ->
            (category = "success"%string <-> message = "Booking confirmed."%string)
            /\ (category = "success"%string ->
                fst (book_slot ZoneInfo w clk user_id slot_id)
                  = Returned "Booking confirmed.")).
  { intros result w' E H.
    pose proof (flash_booking w clk user_id slot_id message category) as Hf.
    rewrite E in Hf |- *. cbn [fst] in Hf |- *. destruct (Hf H) as [-> Hiff].
    split; [exact Hiff |]. intros Hc. apply Hiff in Hc. now subst message. }
  assert (Hcancel : forall result w',
            BookingService.cancel_booking ZoneInfo w clk user_id slot_id = (result, w') ->
            flash_result "successfully" result = Flash message category ->
            (category = "success"%string
             <-> message = "Booking cancelled successfully."%string)
            /\ (category = "success"%string ->
                fst (BookingService.cancel_booking ZoneInfo w clk user_id slot_id)
                  = Returned "Booking cancelled successfully.")).
  { intros result w' E H.
    pose proof (flash_cancellation w clk user_id slot_id message category) as Hf.
    rewrite E in Hf |- *. cbn [fst] in Hf |- *. destruct (Hf H) as [-> Hiff].
    split; [exact Hiff |]. intros Hc. apply Hiff in Hc. now subst message. }
  split; [| split].
  - unfold events_post.
    destruct (book_slot ZoneInfo w clk user_id slot_id) as [result w'] eqn:E.
    cbn [fst]. apply (Hbook result w' eq_refl).
  - unfold booking.
    destruct (first _ (slots (db w))) as [slot |];
      [| intros [= <- <-]; split; [split |]; discriminate].
    destruct (datetime_ge _ _) as [[|] |];
      [intros [= <- <-]; split; [split |]; discriminate | | discriminate].
    destruct (book_slot ZoneInfo w clk user_id slot_id) as [result w'] eqn:E.
    cbn [fst]. apply (Hbook result w' eq_refl).
  - unfold cancel_booking.
    destruct (first _ (slots (db w))) as [slot |];
      [| intros [= <- <-]; split; [split |]; discriminate].
    destruct (datetime_ge _ _) as [[|] |];
      [intros [= <- <-]; split; [split |]; discriminate | | discriminate].
    destruct (BookingService.cancel_booking ZoneInfo w clk user_id slot_id)
      as [result w'] eqn:E.
    cbn [fst]. apply (Hcancel result w' eq_refl).
Qed.

(** X30: The views [booking] and [cancel_booking] compare the stored start
    with the UTC clock before they call the service: once the clock has
    reached the start they flash an error and nothing is written, and a
    booking that [booking] reports as confirmed was requested before the
    start in UTC and, by the check of the service, before the stored
    start read in the configured zone. *)
Theorem views_refuse_started_events (w : World) (now_utc : Z) (clk : Clock)
    (user_id slot_id : Z) (slot : Slot.t) :
  first (fun s => Slot.id s =? slot_id) (slots (db w)) = Some slot ->
  (Slot.start_time slot <= now_utc ->
   booking ZoneInfo w now_utc clk user_id slot_id
     = (Flash "Cannot book an event that has already started or finished." "error", w)
   /\ cancel_booking ZoneInfo w now_utc clk user_id slot_id
      = (Flash "Cannot cancel a booking for an event that has already started or finished."
           "error", w))
  /\ (fst (booking ZoneInfo w now_utc clk user_id slot_id)
        = Flash "Booking confirmed." "success" ->
      now_utc < Slot.start_time slot
      /\ exists tz,
           ZoneInfo (Configuration.timezone (fst (get_config (db w)))) = Some tz
           /\ now clk + offset_at_utc tz (now clk) < Slot.start_time slot).
Proof.
  intros Hf. unfold booking, cancel_booking. rewrite Hf.
  unfold replace_tzinfo. cbn [wall_clock]. rewrite datetime_ge_same. split.
  - intros Hle. apply Z.leb_le in Hle. rewrite Hle. split; reflexivity.
  - destruct (Z.leb_spec (Slot.start_time slot) now_utc) as [Hle | Hlt];
      [discriminate |].
    destruct (book_slot ZoneInfo w clk user_id slot_id) as [result w'] eqn:E.
    cbn [fst]. intros H. split; [exact Hlt |].
    pose proof (flash_booking w clk user_id slot_id "Booking confirmed." "success") as Hfl.
    rewrite E in Hfl. cbn [fst] in Hfl. destruct (Hfl H) as [-> _].
    destruct (book_slot_cases ZoneInfo w clk user_id slot_id)
      as [(Hm & _) | (user & slot' & tz & _ & Hv & _ & Hz & Ht & _)].
    + rewrite E in Hm. cbn [fst] in Hm. congruence.
    + apply validate_inr in Hv as (_ & _ & Hs). rewrite Hf in Hs.
      injection Hs as <-. exists tz. split; assumption.
Qed.

End Views.

(* ===================================================================== *)
(** * The further properties at concrete inputs *)
(* ===================================================================== *)

Ltac in_list H :=
  repeat (apply elem_of_cons in H as [-> | H]); try (now apply elem_of_nil in H).

Ltac not_in_list H :=
  repeat (apply elem_of_cons in H as [H | H]; [discriminate H |]);
  now apply elem_of_nil in H.

Lemma rate_limit_burst_witness :
  fst (RateLimit.calls ∅
         (RateLimit.by_user 1 (Examples.ten_requests ++ [10; 30]%Q)))
    = replicate 10 false ++ [true; false]
  /\ RateLimit.log
       (snd (RateLimit.calls ∅
               (RateLimit.by_user 1 (Examples.ten_requests ++ [10; 30]%Q))))
       1 = [30%Q].
Proof.
  apply (rate_limit_burst ∅ 1 Examples.ten_requests 10 30).
  - reflexivity.
  - reflexivity.
  - intros x t Hx Ht. unfold Examples.ten_requests in Hx, Ht. simpl in Ht.
    in_list Hx; in_list Ht; vm_compute; reflexivity.
  - intros x Hx. unfold Examples.ten_requests in Hx.
    in_list Hx; vm_compute; discriminate.
Defined.

Lemma rate_limit_log_bounded_witness :
  (length
     (RateLimit.log
        (snd (RateLimit.calls ∅
                (RateLimit.by_user 1 (Examples.ten_requests ++ [10; 30]%Q))))
        1)
   <= Utils.MAX_REQUESTS)%nat.
Proof.
  apply (rate_limit_log_bounded ∅).
  intros u. unfold RateLimit.log. rewrite lookup_empty. simpl.
  unfold Utils.MAX_REQUESTS. lia.
Defined.

Lemma refused_request_leaves_no_trace_witness :
  Utils.is_rate_limited (snd (Utils.is_rate_limited Examples.full_log 10 1)) 15 1
  = Utils.is_rate_limited Examples.full_log 15 1.
Proof.
  apply refused_request_leaves_no_trace.
  - vm_compute. reflexivity.
  - vm_compute. discriminate.
Defined.

Lemma run_keeps_booking_keys_witness :
  Integrity.booking_ids_unique
    (BookingService.db
       (BookingService.run Scenario.zoneinfo_db Scenario.world_utc Traces.busy_evening))
  /\ Integrity.user_slot_pairs_unique
       (BookingService.db
          (BookingService.run Scenario.zoneinfo_db Scenario.world_utc
             Traces.busy_evening)).
Proof.
  apply run_keeps_booking_keys.
  - apply NoDup_nil_2.
  - apply NoDup_nil_2.
Defined.

Lemma run_keeps_references_witness :
  Integrity.references_ok
    (BookingService.db
       (BookingService.run Scenario.zoneinfo_db Scenario.world_utc Traces.busy_evening)).
Proof.
  apply run_keeps_references.
  intros b Hb. simpl in Hb. now apply elem_of_nil in Hb.
Defined.

Lemma book_slot_confirmed_iff_witness :
  fst (BookingService.book_slot Scenario.zoneinfo_db Scenario.world_utc
         Scenario.day_before 1 1)
  = Py.Returned "Booking confirmed.".
Proof.
  apply (proj2 (book_slot_confirmed_iff Scenario.zoneinfo_db Scenario.world_utc
                  Scenario.day_before 1 1)).
  exists Scenario.alice, Scenario.evening, (PyDatetime.fixed_offset "UTC" 0).
  split; [reflexivity |]. split; [reflexivity |]. split; [reflexivity |].
  split; [vm_compute; reflexivity |]. split; [reflexivity |].
  split; [vm_compute; reflexivity |].
  split; [intros (b & Hin & _); inversion Hin | vm_compute; reflexivity].
Defined.

Lemma cancel_booking_done_iff_witness :
  fst (BookingService.cancel_booking Scenario.zoneinfo_db Traces.alice_booked
         Scenario.day_before 1 1)
  = Py.Returned "Booking cancelled successfully.".
Proof.
  apply (proj2 (cancel_booking_done_iff Scenario.zoneinfo_db Traces.alice_booked
                  Scenario.day_before 1 1)).
  exists Scenario.alice, Scenario.evening, (PyDatetime.fixed_offset "UTC" 0).
  split; [reflexivity |]. split; [reflexivity |]. split; [reflexivity |].
  split; [vm_compute; reflexivity |].
  split; [| split; [reflexivity | vm_compute; reflexivity]].
  exists (Booking.mk 1 1 1 Booking.confirmed). split; [vm_compute; left | reflexivity].
Defined.

Lemma hourly_range_endpoints_witness :
  exists hourly_range,
    WeatherService._generate_hourly_range Scenario.zoneinfo_db
      (PyDatetime.Naive (Scenario.reading Scenario.june_1st 18 30))
      (PyDatetime.Naive (Scenario.reading Scenario.june_1st 21 15)) "UTC"
    = Py.Ok hourly_range
    /\ Z.of_nat (length hourly_range) = 4%Z
    /\ head (map PyDatetime.wall_clock hourly_range)
       = Some (Scenario.reading Scenario.june_1st 18 0)
    /\ last (map PyDatetime.wall_clock hourly_range)
       = Some (Scenario.reading Scenario.june_1st 21 0).
Proof.
  destruct (hourly_range_endpoints Scenario.zoneinfo_db
              (PyDatetime.Naive (Scenario.reading Scenario.june_1st 18 30))
              (PyDatetime.Naive (Scenario.reading Scenario.june_1st 21 15)) "UTC"
              (PyDatetime.fixed_offset "UTC" 0) eq_refl)
    as (hourly_range & Hrange & _ & Hne & _).
  exists hourly_range. split; [exact Hrange |].
  apply Hne. vm_compute. discriminate.
Defined.

Lemma hourly_rating_monotone_witness :
  (WeatherService.calculate_hourly_rating PyFloat.exact (<["cloud_cover" := 80%Q]> ∅)
   <= WeatherService.calculate_hourly_rating PyFloat.exact (<["cloud_cover" := 20%Q]> ∅))%Q
  /\ (WeatherService.calculate_hourly_rating PyFloat.exact (<["visibility" := 20%Q]> ∅)
      <= WeatherService.calculate_hourly_rating PyFloat.exact (<["visibility" := 80%Q]> ∅))%Q.
Proof.
  destruct (hourly_rating_monotone ∅ 20 80) as (Hcloud & _ & _ & Hvis).
  - vm_compute. discriminate.
  - split; [exact Hcloud | exact Hvis].
Defined.

Lemma event_weather_in_range_witness :
  exists rating warning forecast,
    WeatherService.get_event_weather Scenario.zoneinfo_db PyFloat.exact Scenario.forecast
      (PyDatetime.Naive (Scenario.reading Scenario.june_1st 18 0))
      (PyDatetime.Naive (Scenario.reading Scenario.june_1st 22 0))
      (Scenario.config_in "UTC")
    = Py.Ok (rating, warning, forecast)
    /\ forall r, rating = Some r -> (0 <= r <= 100)%Q.
Proof.
  destruct (event_weather_in_range Scenario.zoneinfo_db Scenario.forecast
              (PyDatetime.Naive (Scenario.reading Scenario.june_1st 18 0))
              (PyDatetime.Naive (Scenario.reading Scenario.june_1st 22 0))
              (Scenario.config_in "UTC") (PyDatetime.fixed_offset "UTC" 0) eq_refl
              forecast_plausible)
    as (rating & warning & forecast & Hget & Hrange & _).
  exists rating, warning, forecast. split; assumption.
Defined.

Lemma refresh_frame_witness :
  Models.slots
    (WeatherService.update_events_weather Scenario.zoneinfo_db PyFloat.binary64
       PyFloat.binary64_value Scenario.db_utc (Examples.forecast_in PyFloat.binary64)
       (Scenario.reading (Scenario.june_1st - 10) 12 0))
    !! 0%nat
  = Some Scenario.evening.
Proof.
  destruct (refresh_frame Scenario.zoneinfo_db PyFloat.binary64 PyFloat.binary64_value
              Scenario.db_utc (Examples.forecast_in PyFloat.binary64)
              (Scenario.reading (Scenario.june_1st - 10) 12 0))
    as (_ & _ & _ & Hkept & _).
  apply (Hkept (PyDatetime.fixed_offset "UTC" 0) 0%nat Scenario.evening).
  - reflexivity.
  - reflexivity.
  - vm_compute. reflexivity.
Defined.

Lemma upcoming_window_witness :
  WeatherService.upcoming (PyDatetime.fixed_offset "Etc/GMT+5" (-5 * PyDatetime.HOUR))
    (Scenario.reading (Scenario.june_1st - 7) 18 0) Scenario.evening
  = true.
Proof.
  apply (proj2 (upcoming_window "Etc/GMT+5" (-5 * PyDatetime.HOUR)
                  (Scenario.reading (Scenario.june_1st - 7) 18 0) Scenario.evening
                  ltac:(discriminate))).
  vm_compute. split; discriminate.
Defined.

Lemma ttl_cache_window_witness :
  TtlCache.wrapper 3 Examples.counted_double ∅ 0 21%Z 0%nat
    = (Py.Ok 42%Z, {[ 21%Z := (42%Z, 0%Q) ]}, 1%nat)
  /\ TtlCache.wrapper 3 Examples.counted_double {[ 21%Z := (42%Z, 0%Q) ]} 10799 21%Z 1%nat
     = (Py.Ok 42%Z, {[ 21%Z := (42%Z, 0%Q) ]}, 1%nat)
  /\ snd (TtlCache.wrapper 3 Examples.counted_double {[ 21%Z := (42%Z, 0%Q) ]}
            10800 21%Z 1%nat)
     = 2%nat.
Proof.
  pose proof (ttl_cache_window 3 Examples.counted_double ∅ 0 21%Z 0%nat) as H.
  cbv beta iota delta [Examples.counted_double] in H.
  destruct H as (Hmiss & Hhit & Hexpired).
  - intros result stamp Hl. rewrite lookup_empty in Hl. discriminate.
  - split; [exact Hmiss |]. split.
    + apply (Hhit 10799%Q 1%nat). vm_compute. reflexivity.
    + apply (Hexpired 10800%Q 1%nat). vm_compute. discriminate.
Defined.

Lemma process_hourly_data_entries_witness :
  exists data,
    WeatherFeed._process_hourly_data Scenario.zoneinfo_db Examples.fromisoformat
      Examples.feed = Py.Ok data
    /\ data !! Scenario.reading Scenario.june_1st 19 0
       = Some (WeatherService.hourly_entry 6%Q 20%Q 30%Q 15000%Q).
Proof.
  destruct (process_hourly_data_entries Scenario.zoneinfo_db Examples.fromisoformat
              Examples.feed (PyDatetime.fixed_offset "UTC" 0) eq_refl)
    as (data & Hdata & Hspec).
  - intros H. simpl in H. not_in_list H.
  - intros H. simpl in H. not_in_list H.
  - intros H. simpl in H. not_in_list H.
  - intros H. simpl in H. not_in_list H.
  - exists data. split; [exact Hdata |]. apply Hspec.
    exists 3%nat, "2025-06-01T19:00"%string, 6%Q, 20%Q, 30%Q, 15000%Q.
    split; [reflexivity |]. split; [reflexivity |]. split; [reflexivity |].
    split; [reflexivity |]. split; [reflexivity |]. split; [reflexivity |].
    split; [reflexivity |].
    intros j t' Hlt Ht' _ _ _ [v Hv].
    destruct j as [| [| [| [| [| j]]]]]; try lia; simpl in Hv; discriminate.
Defined.

Lemma null_in_feed_aborts_refresh_witness :
  WeatherFeed.update_events_weather Scenario.zoneinfo_db Examples.fromisoformat
    PyFloat.exact PyFloat.exact_value Examples.service_null 0 Scenario.db_utc
    (BookingService.now Scenario.day_before)
  = (Py.Raise Py.TypeError, Scenario.db_utc,
     WeatherFeed.mk_service ∅
       (WeatherFeed.mk_upstream 1
          (WeatherFeed.answer (WeatherFeed.upstream Examples.service_null)))).
Proof.
  apply (null_in_feed_aborts_refresh Scenario.zoneinfo_db Examples.fromisoformat
           PyFloat.exact PyFloat.exact_value Examples.service_null 0 Scenario.db_utc
           (BookingService.now Scenario.day_before) (PyDatetime.fixed_offset "UTC" 0)
           ["2025-06-01T18:00"%string] [WeatherFeed.Number 3%Q] [WeatherFeed.Null]
           [WeatherFeed.Number 20%Q] [WeatherFeed.Number 18000%Q] 0%nat
           "2025-06-01T18:00"%string (WeatherFeed.Number 3%Q) WeatherFeed.Null
           (WeatherFeed.Number 20%Q) (WeatherFeed.Number 18000%Q)
           (Scenario.reading Scenario.june_1st 18 0)).
  - reflexivity.
  - intros result stamp Hl. simpl in Hl. rewrite lookup_empty in Hl. discriminate.
  - reflexivity.
  - reflexivity.
  - reflexivity.
  - reflexivity.
  - reflexivity.
  - reflexivity.
  - reflexivity.
  - right. left. reflexivity.
Defined.

Lemma failed_fetch_is_cached_witness :
  fst (WeatherFeed.fetch_weather_data Scenario.zoneinfo_db Examples.fromisoformat
         Examples.service_down 0
         (WeatherFeed.location_of (Scenario.config_in "UTC")))
  = Py.Ok ∅.
Proof.
  destruct (failed_fetch_is_cached Scenario.zoneinfo_db Examples.fromisoformat
              PyFloat.exact Examples.service_down 0
              (WeatherFeed.location_of (Scenario.config_in "UTC")))
    as (Hfirst & _).
  - intros result stamp Hl. simpl in Hl. rewrite lookup_empty in Hl. discriminate.
  - reflexivity.
  - exact Hfirst.
Defined.

Lemma singleton_pairwise {A : Type} (R : A -> A -> Prop) (x : A) :
  Schedule.pairwise R [x].
Proof.
  intros i j a b Hne Hi Hj.
  destruct i as [| i]; [| destruct i; discriminate].
  destruct j as [| j]; [congruence | destruct j; discriminate].
Qed.

Lemma save_event_keeps_schedule_witness :
  let db' := snd (AdminService._save_event Scenario.db_utc None Examples.next_evening) in
  length (Models.slots db') = 2%nat
  /\ Invariant.slot_ids_unique db'
  /\ Schedule.no_overlap db'
  /\ Schedule.one_start_per_day db'.
Proof.
  split; [reflexivity |].
  apply (save_event_keeps_schedule Scenario.db_utc None Examples.next_evening).
  - unfold Invariant.slot_ids_unique. simpl. apply NoDup_singleton.
  - apply singleton_pairwise.
  - apply singleton_pairwise.
Defined.

Lemma db_utc_capacity : Invariant.capacity_ok Scenario.db_utc.
Proof.
  intros s Hin. simpl in Hin.
  apply elem_of_cons in Hin. destruct Hin as [-> | Hin]; [| inversion Hin].
  split; [split |]; vm_compute; congruence.
Qed.

Lemma save_event_capacity_witness :
  Invariant.capacity_ok
    (snd (AdminService._save_event Scenario.db_utc None Examples.next_evening))
  /\ Invariant.capacity_ok
       (snd (AdminService._save_event Scenario.db_utc (Some Scenario.evening)
               OverlapScenario.same_day)).
Proof.
  destruct (save_event_capacity Scenario.db_utc Examples.next_evening db_utc_capacity)
    as [Hcreate _].
  destruct (save_event_capacity Scenario.db_utc OverlapScenario.same_day db_utc_capacity)
    as [_ Hedit].
  split.
  - apply Hcreate.
    + intros b Hb. simpl in Hb. now apply elem_of_nil in Hb.
    + vm_compute. reflexivity.
    + vm_compute. discriminate.
  - apply (Hedit Scenario.evening).
    + unfold Invariant.slot_ids_unique. simpl. apply NoDup_singleton.
    + simpl. left.
    + vm_compute. reflexivity.
    + vm_compute. reflexivity.
Defined.

Lemma db_utc_checks : Schedule.checks_ok Scenario.db_utc.
Proof.
  intros s Hin. simpl in Hin.
  apply elem_of_cons in Hin. destruct Hin as [-> | Hin]; [| inversion Hin].
  vm_compute. reflexivity.
Qed.

Lemma check_constraints_kept_witness :
  Schedule.checks_ok
    (snd (AdminService._save_event Scenario.db_utc (Some Scenario.evening)
            OverlapScenario.same_day))
  /\ Schedule.checks_ok
       (WeatherService.update_events_weather Scenario.zoneinfo_db PyFloat.binary64
          PyFloat.binary64_value Scenario.db_utc (Examples.forecast_in PyFloat.binary64)
          (BookingService.now Scenario.day_before))
  /\ Schedule.checks_ok
       (BookingService.db
          (BookingService.run Scenario.zoneinfo_db Scenario.world_utc
             Traces.busy_evening)).
Proof.
  destruct (check_constraints_kept Scenario.zoneinfo_db) as (Hsave & Hrefresh & Hrun).
  split; [| split].
  - apply Hsave; [exact db_utc_checks |].
    intros e [= <-]. simpl. left.
  - apply Hrefresh. exact db_utc_checks.
  - apply Hrun. exact db_utc_checks.
Defined.

Lemma event_times_duration_witness :
  let times :=
    AdminService._calculate_event_times_full Scenario.june_1st
      (22 * PyDatetime.HOUR) (2 * PyDatetime.HOUR) Scenario.western_zone in
  (PyDatetime.wall_clock (AdminService.end_local times)
   - PyDatetime.wall_clock (AdminService.start_local times)
   = 4 * PyDatetime.HOUR)%Z
  /\ (PyDatetime.wall_clock (AdminService.start_utc times)
      < PyDatetime.wall_clock (AdminService.end_utc times))%Z.
Proof.
  destruct (event_times_duration Scenario.june_1st (22 * PyDatetime.HOUR)
              (2 * PyDatetime.HOUR) "Etc/GMT+5" (-5 * PyDatetime.HOUR))
    as (_ & Hdur & _ & _ & _ & Hlt).
  - vm_compute. split; [discriminate | reflexivity].
  - vm_compute. split; [discriminate | reflexivity].
  - discriminate.
  - split; [exact Hdur | exact Hlt].
Defined.

Lemma confirmed_event_row_witness :
  exists row,
    row ∈ Models.slots
            (snd (EventConfirmation.confirm_event Scenario.zoneinfo_db Examples.host_utc
                    PyFloat.binary64 PyFloat.binary64_value
                    Scenario.db_west_empty Examples.perseids_form None
                    Examples.noon_before
                    (Some (Py.Ok (Examples.forecast_in PyFloat.binary64)))))
    /\ Slot.start_time row = Scenario.reading Scenario.june_1st 23 0
    /\ (Slot.start_time row < Slot.end_time row)%Z
    /\ Slot.available row = true.
Proof.
  destruct (confirmed_event_row Scenario.zoneinfo_db Examples.host_utc
              PyFloat.binary64 PyFloat.binary64_value
              Scenario.db_west_empty Examples.perseids_form None Examples.noon_before
              (Some (Py.Ok (Examples.forecast_in PyFloat.binary64)))
              "Etc/GMT+5" (-5 * PyDatetime.HOUR)
              "Event created successfully.")
    as (row & Hin & _ & _ & _ & Hstart & _ & [Hlt _] & _ & Havail & _).
  - reflexivity.
  - discriminate.
  - vm_compute. split; [discriminate | reflexivity].
  - vm_compute. split; [discriminate | reflexivity].
  - vm_compute. reflexivity.
  - left. reflexivity.
  - exists row. split; [exact Hin |]. split; [| split; assumption].
    rewrite Hstart. vm_compute. reflexivity.
Defined.

Lemma blocked_user_locked_out_witness :
  exists d',
    UserAdmin.block_user Scenario.db_utc 2 true = inr d'
    /\ BookingService.book_slot Scenario.zoneinfo_db (BookingService.mk_world d' ∅)
         Scenario.day_before 2 1
       = (Py.Returned "Your account is blocked.", BookingService.mk_world d' ∅).
Proof.
  eexists. split; [reflexivity |].
  apply (blocked_user_locked_out Scenario.zoneinfo_db Scenario.db_utc _ 2 eq_refl).
Defined.

Lemma block_user_round_trip_witness :
  exists d1,
    UserAdmin.block_user Scenario.db_utc 2 true = inr d1
    /\ UserAdmin.block_user d1 2 false = inr Scenario.db_utc.
Proof.
  destruct (block_user_round_trip Scenario.db_utc 2 true) as (_ & _ & Hround).
  destruct (Hround Scenario.bob) as (d1 & H1 & _ & H2).
  - reflexivity.
  - discriminate.
  - reflexivity.
  - exists d1. split; assumption.
Defined.

Lemma flash_category_matches_outcome_witness :
  fst (BookingService.book_slot Scenario.zoneinfo_db Scenario.world_utc
         Scenario.day_before 1 1)
  = Py.Returned "Booking confirmed.".
Proof.
  destruct (flash_category_matches_outcome Scenario.zoneinfo_db Scenario.world_utc
              (BookingService.now Scenario.day_before) Scenario.day_before 1 1
              "Booking confirmed." "success")
    as (_ & Hbooking & _).
  destruct Hbooking as [_ Hservice].
  - vm_compute. reflexivity.
  - apply Hservice. reflexivity.
Defined.

Lemma views_refuse_started_events_witness :
  UserActions.booking Scenario.zoneinfo_db (BookingService.mk_world Scenario.db_west ∅)
    (BookingService.now Scenario.half_past_start) Scenario.half_past_start 1 1
  = (UserActions.Flash "Cannot book an event that has already started or finished."
       "error",
     BookingService.mk_world Scenario.db_west ∅).
Proof.
  destruct (views_refuse_started_events Scenario.zoneinfo_db
              (BookingService.mk_world Scenario.db_west ∅)
              (BookingService.now Scenario.half_past_start) Scenario.half_past_start 1 1
              (Slot.mk 1 "Perseids" "Meteor watch" (Scenario.reading Scenario.june_1st 23 0)
                 (Scenario.reading (Scenario.june_1st + 1) 3 0) true None 2 false false))
    as [Hstarted _].
  - vm_compute. reflexivity.
  - apply Hstarted. vm_compute. discriminate.
Defined.
